(** * Student Performance Tracker: the CSV-backed record store

    A shallow embedding of [app.py] (the Flask application) and of the
    later revision kept under [Student-Performance-Tracker-main (1)/],
    from which [update_student] and the revised [login] and
    [student_dashboard] (module [Revised]) are taken.

    Modelling conventions.
    - A Python [dict] is an association list in insertion order
      ([dict V]); [d[k] = v] overwrites in place or appends, as CPython
      does, so that iteration order ([.items()], [.values()]) is the
      order the code observes.
    - A CSV row read by [csv.DictReader] is a [row]: its string-keyed
      cells plus the list stored under the [None] rest key when the line
      has more cells than the header.
    - Module-level dictionaries and the files they mirror are the fields
      of [store]; a handler is a function from [store] to [store].
    - [print] and [flash] append to [printed] and [flashed].
    - An exception is a value of [exn]; a block that can raise returns an
      [outcome] that carries the state reached when it was raised, because
      mutations made before a [raise] persist in Python.
    - The [csv] module is modelled at the level of parsed lines (quoting
      and dialect are below this model); a line the codec or the parser
      rejects is [Garbled].
    - Python [float]s are modelled by exact rationals ([Q]); [float(s)]
      and [int(s)] are parameters of the development ([py_float],
      [py_int]) and are instantiated by decimal parsers where a concrete
      run is evaluated. *)

From Stdlib Require OrderedTypeEx.
From Stdlib Require Import List String Ascii ZArith QArith Qround Bool Lia Arith Permutation.
Import ListNotations.
Local Open Scope string_scope.
Local Open Scope list_scope.

(* ================================================================= *)
(** ** Python values and strings *)

Inductive value : Type :=
| VNone
| VStr (s : string)
| VInt (z : Z).

(** Python [==] on the values a record can hold. *)
Definition value_eqb (a b : value) : bool :=
  match a, b with
  | VNone, VNone => true
  | VStr s, VStr t => String.eqb s t
  | VInt x, VInt y => Z.eqb x y
  | _, _ => false
  end.

(** Truthiness: [None], [''] and [0] are falsy. *)
Definition truthy (v : value) : bool :=
  match v with
  | VNone => false
  | VStr s => negb (String.eqb s "")
  | VInt z => negb (Z.eqb z 0)
  end.

Definition is_None (v : value) : bool :=
  match v with VNone => true | _ => false end.

(** [x in [a, b, ...]] for strings. *)
Definition str_in (s : string) (l : list string) : bool :=
  existsb (String.eqb s) l.

Definition value_in (v : value) (l : list value) : bool :=
  existsb (value_eqb v) l.

(** ASCII white space, as removed by [str.strip()]. *)
Definition is_space (c : ascii) : bool :=
  let n := nat_of_ascii c in
  Nat.eqb n 32 || (Nat.leb 9 n && Nat.leb n 13).

Fixpoint lstrip (s : string) : string :=
  match s with
  | String c s' => if is_space c then lstrip s' else s
  | EmptyString => EmptyString
  end.

Fixpoint rstrip (s : string) : string :=
  match s with
  | String c s' =>
      match rstrip s' with
      | EmptyString => if is_space c then EmptyString else String c EmptyString
      | r => String c r
      end
  | EmptyString => EmptyString
  end.

Definition strip (s : string) : string := rstrip (lstrip s).

(** [s.startswith(p)] *)
Definition startswith (p s : string) : bool := String.prefix p s.

(** [s.replace(old, new)] for a non-empty [old]: leftmost, non-overlapping.
    [skip] counts the characters of a match still to be dropped. *)
Fixpoint replace_from (old new : string) (skip : nat) (s : string) : string :=
  match s with
  | EmptyString => EmptyString
  | String c s' =>
      match skip with
      | S k => replace_from old new k s'
      | O =>
          if String.prefix old s
          then new ++ replace_from old new (String.length old - 1) s'
          else String c (replace_from old new 0 s')
      end
  end.

Definition replace (old new s : string) : string := replace_from old new 0 s.

(* ================================================================= *)
(** ** Dictionaries in insertion order *)

Definition dict (V : Type) : Type := list (string * V).

Section DictOps.
Variable V : Type.

(** [d.get(k)] as an option; [None] when the key is absent. *)
Fixpoint get (k : string) (d : dict V) : option V :=
  match d with
  | [] => None
  | (k', v) :: d' => if String.eqb k k' then Some v else get k d'
  end.

(** [k in d] *)
Definition contains (k : string) (d : dict V) : bool :=
  match get k d with Some _ => true | None => false end.

(** [d[k] = v] *)
Fixpoint setitem (k : string) (v : V) (d : dict V) : dict V :=
  match d with
  | [] => [(k, v)]
  | (k', v') :: d' =>
      if String.eqb k k' then (k', v) :: d' else (k', v') :: setitem k v d'
  end.

(** [d.pop(k, None)], the dictionary that is left. *)
Fixpoint pop (k : string) (d : dict V) : dict V :=
  match d with
  | [] => []
  | (k', v') :: d' =>
      if String.eqb k k' then pop k d' else (k', v') :: pop k d'
  end.

Definition keys (d : dict V) : list string := map fst d.
Definition values (d : dict V) : list V := map snd d.
End DictOps.

Arguments get {V} k d.
Arguments contains {V} k d.
Arguments setitem {V} k v d.
Arguments pop {V} k d.
Arguments keys {V} d.
Arguments values {V} d.


(** [set()] of strings built by repeated [.add]: first occurrences. *)
Definition set_add (x : string) (s : list string) : list string :=
  if str_in x s then s else s ++ [x].

(** Dictionaries whose keys are values read from a record ([None] or a
    number can be a key as well as a string), compared by [==]. *)
Definition vdict (V : Type) : Type := list (value * V).

Section VDictOps.
Variable V : Type.

Fixpoint vget (k : value) (d : vdict V) : option V :=
  match d with
  | [] => None
  | (k', v) :: d' => if value_eqb k k' then Some v else vget k d'
  end.

Fixpoint vset (k : value) (v : V) (d : vdict V) : vdict V :=
  match d with
  | [] => [(k, v)]
  | (k', v') :: d' =>
      if value_eqb k k' then (k', v) :: d' else (k', v') :: vset k v d'
  end.
End VDictOps.

Arguments vget {V} k d.
Arguments vset {V} k v d.

(** [s.add(v)] on a set of values, kept in order of first insertion. *)
Definition vadd (v : value) (s : list value) : list value :=
  if value_in v s then s else s ++ [v].

(* ================================================================= *)
(** ** Rows, as [csv.DictReader] builds them *)

Record row : Type := mkRow {
  cells : dict value;
  restkey : option (list string)  (* the entry under key [None], if any *)
}.

Definition row_of (kvs : dict value) : row := mkRow kvs None.

(** [r.get(k)]: the cell, or [None]. *)
Definition rget (k : string) (r : row) : value :=
  match get k (cells r) with Some v => v | None => VNone end.

(** [r.get(k, default)] *)
Definition rget_def (k : string) (default : value) (r : row) : value :=
  match get k (cells r) with Some v => v | None => default end.

(** [k in r] *)
Definition rhas (k : string) (r : row) : bool := contains k (cells r).

Definition rset (k : string) (v : value) (r : row) : row :=
  mkRow (setitem k v (cells r)) (restkey r).


(* ================================================================= *)
(** ** Exceptions and outcomes *)

Inductive exn : Type :=
| KeyError (k : string)
| ValueError (what : string)
| OSError (path : string)
| UnicodeDecodeError (path : string)
| TypeError (what : string)
| StopIteration.

Definition str_exn (e : exn) : string :=
  match e with
  | KeyError k => "'" ++ k ++ "'"
  | ValueError w => w
  | OSError p => "[Errno 13] Permission denied: '" ++ p ++ "'"
  | UnicodeDecodeError p => "'utf-8' codec can't decode byte"
  | TypeError w => w
  | StopIteration => ""
  end.

(** The state reached, and whether the block returned or raised. *)
Inductive outcome (S : Type) : Type :=
| Done (s : S)
| Raised (s : S) (e : exn).

Arguments Done {S} s.
Arguments Raised {S} s e.

Definition state_of {S : Type} (o : outcome S) : S :=
  match o with Done s => s | Raised s _ => s end.

(** [try: body  except Exception as e: handler] *)
Definition try_except {S : Type} (body : outcome S) (handler : S -> exn -> outcome S)
  : outcome S :=
  match body with
  | Done s => Done s
  | Raised s e => handler s e
  end.

(* ================================================================= *)
(** ** Files *)

Inductive line : Type :=
| Row (fields : list string)   (* one parsed CSV line; [Row []] is a blank line *)
| Garbled.                     (* a line the codec or the csv parser rejects *)

Record file : Type := mkFile {
  locked : bool;               (* [open()] raises [OSError] *)
  lines : list line
}.

Definition filesystem : Type := dict file.

(** [os.path.isfile(p)] *)
Definition isfile (p : string) (fsys : filesystem) : bool := contains p fsys.

(** [os.path.getsize(p) == 0] for a file that exists. *)
Definition size_is_zero (f : file) : bool :=
  match lines f with [] => true | _ => false end.

(** [next(csv.reader(f))]: the first line. *)
Definition reader_first (path : string) (f : file) : exn + list string :=
  match lines f with
  | [] => inl StopIteration
  | Garbled :: _ => inl (UnicodeDecodeError path)
  | Row hdr :: _ => inr hdr
  end.

(** [dict(zip(fieldnames, line))], then the rest key or the rest value,
    as [csv.DictReader.__next__] does. *)
Fixpoint zip_cells (fieldnames line : list string) (d : dict value) : dict value :=
  match fieldnames, line with
  | h :: hs, c :: cs => zip_cells hs cs (setitem h (VStr c) d)
  | _, _ => d
  end.

Fixpoint fill_restval (names : list string) (d : dict value) : dict value :=
  match names with
  | [] => d
  | h :: hs => fill_restval hs (setitem h VNone d)
  end.

Definition dictreader_row (fieldnames line : list string) : row :=
  let d := zip_cells fieldnames line [] in
  let lf := List.length fieldnames in
  let lr := List.length line in
  if Nat.ltb lf lr then mkRow d (Some (skipn lf line))
  else if Nat.ltb lr lf then mkRow (fill_restval (skipn lr fieldnames) d) None
  else mkRow d None.

(** How [csv.writer] renders a cell: [None] as the empty string, a number
    by [str]. *)
Definition digit_char (n : nat) : ascii := ascii_of_nat (48 + n).

Fixpoint str_of_pos_fuel (fuel : nat) (n : N) (acc : string) : string :=
  match fuel with
  | O => acc
  | S fuel' =>
      let acc' := String (digit_char (N.to_nat (n mod 10))) acc in
      if N.ltb n 10 then acc' else str_of_pos_fuel fuel' (n / 10) acc'
  end.

Definition str_of_Z (z : Z) : string :=
  let n := Z.abs_N z in
  let digits := str_of_pos_fuel (S (N.to_nat (N.log2 n))) n "" in
  if Z.ltb z 0 then "-" ++ digits else digits.

Definition str_of_value (v : value) : string :=
  match v with
  | VNone => ""
  | VStr s => s
  | VInt z => str_of_Z z
  end.

(** [DictWriter(fieldnames, extrasaction='ignore')]: one line per row,
    [rowdict.get(key, '')] for each field name. *)
Definition written_cells (fieldnames : list string) (r : row) : list string :=
  map (fun h => str_of_value (rget_def h (VStr "") r)) fieldnames.

Definition dictwriter_row (fieldnames : list string) (r : row) : line :=
  Row (written_cells fieldnames r).

Definition writeheader (fieldnames : list string) : line := Row fieldnames.

(** [open(p, 'w')] followed by the writes: the file is replaced. *)
Definition write_file (p : string) (new_lines : list line) (fsys : filesystem)
  : exn + filesystem :=
  match get p fsys with
  | Some f => if locked f then inl (OSError p)
              else inr (setitem p (mkFile false new_lines) fsys)
  | None => inr (setitem p (mkFile false new_lines) fsys)
  end.

(** [open(p, 'a')] followed by the writes: the lines are added at the end. *)
Definition append_file (p : string) (new_lines : list line) (fsys : filesystem)
  : exn + filesystem :=
  match get p fsys with
  | Some f => if locked f then inl (OSError p)
              else inr (setitem p (mkFile false (lines f ++ new_lines)) fsys)
  | None => inr (setitem p (mkFile false new_lines) fsys)
  end.

(* ================================================================= *)
(** ** The record store *)

(** What the loader prints; each constructor is one [print] statement of
    [load_data_from_csv] with the values it interpolates. *)
Inductive message : Type :=
| WarnNotFound (filepath : string)
| WarnNoHeaders (filepath : string)
| ErrNoKeyField (key_field filepath : string)
| WarnSkipRow (key_field filepath : string) (r : row)
| LoadedOk (filepath : string)
| ErrLoading (filepath : string) (e : exn).


Record store : Type := mkStore {
  student_login_data : dict (dict value);
  student_profile_data : dict row;
  student_grades_data : dict (list row);
  student_attendance_data : dict (list row);
  course_data : dict row;
  files : filesystem;
  printed : list message;
  flashed : list (string * string)     (* (message, category) *)
}.

Definition set_logins (v : dict (dict value)) (st : store) : store :=
  mkStore v (student_profile_data st) (student_grades_data st)
          (student_attendance_data st) (course_data st) (files st)
          (printed st) (flashed st).

Definition set_profiles (v : dict row) (st : store) : store :=
  mkStore (student_login_data st) v (student_grades_data st)
          (student_attendance_data st) (course_data st) (files st)
          (printed st) (flashed st).

Definition set_grades (v : dict (list row)) (st : store) : store :=
  mkStore (student_login_data st) (student_profile_data st) v
          (student_attendance_data st) (course_data st) (files st)
          (printed st) (flashed st).

Definition set_attendance (v : dict (list row)) (st : store) : store :=
  mkStore (student_login_data st) (student_profile_data st)
          (student_grades_data st) v (course_data st) (files st)
          (printed st) (flashed st).

Definition set_courses (v : dict row) (st : store) : store :=
  mkStore (student_login_data st) (student_profile_data st)
          (student_grades_data st) (student_attendance_data st) v (files st)
          (printed st) (flashed st).

Definition set_files (v : filesystem) (st : store) : store :=
  mkStore (student_login_data st) (student_profile_data st)
          (student_grades_data st) (student_attendance_data st)
          (course_data st) v (printed st) (flashed st).

Definition set_printed (v : list message) (st : store) : store :=
  mkStore (student_login_data st) (student_profile_data st)
          (student_grades_data st) (student_attendance_data st)
          (course_data st) (files st) v (flashed st).

(** [flash(msg, category)] *)
Definition flash (msg category : string) (st : store) : store :=
  mkStore (student_login_data st) (student_profile_data st)
          (student_grades_data st) (student_attendance_data st)
          (course_data st) (files st) (printed st)
          (flashed st ++ [(msg, category)]).

Definition empty_store (fsys : filesystem) : store :=
  mkStore [] [] [] [] [] fsys [] [].

Definition COURSES_CSV : string := "courses.csv".
Definition COURSE_HEADERS : list string :=
  ["courseCode"; "courseName"; "description"; "instructor"; "semester";
   "credits"; "facultyId"].

Definition STUDENTS_CSV : string := "students.csv".
Definition STUDENT_HEADERS : list string :=
  ["studentId"; "password"; "firstName"; "lastName"; "email"; "major";
   "program"; "gpa"; "enrollmentDate"; "dob"].

Definition ATTENDANCE_CSV : string := "attendance.csv".
Definition ATTENDANCE_HEADERS : list string :=
  ["studentId"; "courseName"; "date"; "status"; "instructor"].

Definition faculty_users : dict (dict value) :=
  [("prof_davis", [("password", VStr "securepass"); ("role", VStr "faculty");
                   ("name", VStr "Prof. Davis")])].

(* ================================================================= *)
(** ** [load_data_from_csv] *)

(** What a key of [data_dict] holds: one row, or the list of rows. *)
Definition slot (is_list : bool) : Type := if is_list then list row else row.

(** The two branches of [if is_list: ... else: ...] in the loop. *)
Definition store_row (is_list : bool)
  : string -> row -> dict (slot is_list) -> dict (slot is_list) :=
  match is_list as b return string -> row -> dict (slot b) -> dict (slot b) with
  | true => fun key r d =>
      match get key d with
      | Some l => setitem key (l ++ [r]) d
      | None => setitem key [r] d
      end
  | false => fun key r d => setitem key r d
  end.

Definition loader_state (is_list : bool) : Type :=
  (dict (slot is_list) * list message)%type.

(** [for row in reader: ...]; cells read from a file are strings, so the
    key [row[key_field]] is rendered by [str_of_value] without change. *)
Fixpoint load_rows (is_list : bool) (filepath key_field : string)
    (fieldnames : list string) (ls : list line) (st : loader_state is_list)
  : outcome (loader_state is_list) :=
  match ls with
  | [] => Done st
  | Garbled :: _ => Raised st (UnicodeDecodeError filepath)
  | Row [] :: ls' => load_rows is_list filepath key_field fieldnames ls' st
  | Row cs :: ls' =>
      let r := dictreader_row fieldnames cs in
      if negb (rhas key_field r) || is_None (rget key_field r)
      then load_rows is_list filepath key_field fieldnames ls'
             (fst st, snd st ++ [WarnSkipRow key_field filepath r])
      else
        let key := str_of_value (rget key_field r) in
        load_rows is_list filepath key_field fieldnames ls'
          (store_row is_list key r (fst st), snd st)
  end.

(** The body of the [try] block. *)
Definition load_body (is_list : bool) (fsys : filesystem) (filepath : string)
    (data_dict : dict (slot is_list)) (key_field : string) (out : list message)
  : outcome (loader_state is_list) :=
  match get filepath fsys with
  | None => Done (data_dict, out ++ [WarnNotFound filepath])
  | Some f =>
      if locked f then Raised (data_dict, out) (OSError filepath)
      else
        match lines f with
        | [] => Done (data_dict, out ++ [WarnNoHeaders filepath])
        | Garbled :: _ => Raised (data_dict, out) (UnicodeDecodeError filepath)
        | Row fieldnames :: rest =>
            match fieldnames with
            | [] => Done (data_dict, out ++ [WarnNoHeaders filepath])
            | _ :: _ =>
                if negb (str_in key_field fieldnames)
                then Done (data_dict, out ++ [ErrNoKeyField key_field filepath])
                else
                  match load_rows is_list filepath key_field fieldnames rest
                          ([], out) with
                  | Done st => Done (fst st, snd st ++ [LoadedOk filepath])
                  | Raised st e => Raised st e
                  end
            end
        end
  end.

Definition load_data_from_csv (is_list : bool) (fsys : filesystem)
    (filepath : string) (data_dict : dict (slot is_list)) (key_field : string)
    (out : list message)
  : outcome (loader_state is_list) :=
  try_except (load_body is_list fsys filepath data_dict key_field out)
    (fun st e => Done (fst st, snd st ++ [ErrLoading filepath e])).

(* ================================================================= *)
(** ** Sessions and responses *)

Record session : Type := mkSession {
  role : option string;
  user_id : option string;
  user_name : option string
}.

(** [session.get('role') == 'student'] *)
Definition check_student_auth (sess : session) : bool :=
  match role sess with Some r => String.eqb r "student" | None => false end.

(** [session.get('role') == 'faculty'] *)
Definition check_faculty_auth (sess : session) : bool :=
  match role sess with Some r => String.eqb r "faculty" | None => false end.

Inductive response (C : Type) : Type :=
| Redirect (endpoint : string)
| Render (template : string) (context : C)
| Unauthorized                       (* [return "Unauthorized", 403] *)
| Crash (e : exn).                   (* an exception no handler catches *)

Arguments Redirect {C} endpoint.
Arguments Render {C} template context.
Arguments Unauthorized {C}.
Arguments Crash {C} e.

(* ================================================================= *)
(** ** Numbers *)

(** [x < y] on rationals. *)
Definition Qltb (x y : Q) : bool :=
  Z.ltb (Qnum x * QDen y) (Qnum y * QDen x).

(** [round(x)]: to the nearest integer, ties to the even one. *)
Definition py_round (x : Q) : Z :=
  let f := Qfloor x in
  match Qcompare (x - inject_Z f) (1 # 2) with
  | Lt => f
  | Gt => (f + 1)%Z
  | Eq => if Z.even f then f else (f + 1)%Z
  end.

(** [round(x, 2)] *)
Definition py_round2 (x : Q) : Q := inject_Z (py_round (x * 100)) / 100.

Definition Q_of_nat (n : nat) : Q := inject_Z (Z.of_nat n).

(** [(a / b) * 100 if b > 0 else 0] *)
Definition percent_of (a b : nat) : Q :=
  match b with
  | O => 0
  | S _ => (Q_of_nat a / Q_of_nat b) * 100
  end.

(** [(total / count) if count > 0 else 0] *)
Definition mean_of (total : Q) (count : nat) : Q :=
  match count with
  | O => 0
  | S _ => total / Q_of_nat count
  end.

(** How an f-string renders a value. *)
Definition fmt_value (v : value) : string :=
  match v with
  | VNone => "None"
  | VStr s => s
  | VInt z => str_of_Z z
  end.

Section Builtins.

(** [float(s)] and [int(s)] on strings: [None] stands for [ValueError]. *)
Variable py_float : string -> option Q.
Variable py_int : string -> option Z.

(** [float(v)]: [None] stands for [ValueError] or [TypeError]. *)
Definition float_of (v : value) : option Q :=
  match v with
  | VStr s => py_float s
  | VInt z => Some (inject_Z z)
  | VNone => None
  end.

(* --------------------------------------------------------------- *)
(** *** [attendance]: the student's attendance page *)

Record subject_tally : Type := mkTally {
  tally_present : nat;
  tally_total : nat
}.

Record attendance_acc : Type := mkAttAcc {
  present_count : nat;
  absent_count : nat;
  late_count : nat;
  by_subject : vdict subject_tally
}.

Definition bump_total (t : subject_tally) : subject_tally :=
  mkTally (tally_present t) (S (tally_total t)).

Definition bump_present (t : subject_tally) : subject_tally :=
  mkTally (S (tally_present t)) (tally_total t).

Definition tally_at (subject : value) (d : vdict subject_tally) : subject_tally :=
  match vget subject d with Some t => t | None => mkTally 0 0 end.

(** One iteration of [for record in attendance_log]. *)
Definition attendance_step (acc : attendance_acc) (record : row) : attendance_acc :=
  let status := rget "status" record in
  let subject := rget "courseName" record in
  if negb (truthy subject) || negb (truthy status) then acc
  else
    let by0 := match vget subject (by_subject acc) with
               | Some _ => by_subject acc
               | None => vset subject (mkTally 0 0) (by_subject acc)
               end in
    let by1 := vset subject (bump_total (tally_at subject by0)) by0 in
    if value_eqb status (VStr "Present") then
      mkAttAcc (S (present_count acc)) (absent_count acc) (late_count acc)
               (vset subject (bump_present (tally_at subject by1)) by1)
    else if value_eqb status (VStr "Absent") then
      mkAttAcc (present_count acc) (S (absent_count acc)) (late_count acc) by1
    else if value_eqb status (VStr "Late") then
      mkAttAcc (present_count acc) (absent_count acc) (S (late_count acc))
               (vset subject (bump_present (tally_at subject by1)) by1)
    else
      mkAttAcc (present_count acc) (absent_count acc) (late_count acc) by1.

Record subject_line : Type := mkSubjectLine {
  sl_name : value;
  sl_percentage : Z;
  sl_attended : nat;
  sl_total : nat
}.

Record attendance_page : Type := mkAttendancePage {
  ap_overall_perc : Z;
  ap_present_count : nat;
  ap_absent_count : nat;
  ap_late_count : nat;
  ap_total_classes : nat;
  ap_subject_summary : list subject_line
}.

(** The analytics block of [attendance] on one log. *)
Definition attendance_analytics (attendance_log : list row) : attendance_page :=
  let total_classes := List.length attendance_log in
  let acc := fold_left attendance_step attendance_log (mkAttAcc 0 0 0 []) in
  let overall_perc := percent_of (present_count acc) total_classes in
  let subject_summary :=
    map (fun kv : value * subject_tally =>
           let (subject, data) := kv in
           mkSubjectLine subject
             (py_round (percent_of (tally_present data) (tally_total data)))
             (tally_present data) (tally_total data))
        (by_subject acc) in
  mkAttendancePage (py_round overall_perc) (present_count acc)
    (absent_count acc) (late_count acc) total_classes subject_summary.

(** The [/attendance] route; the date-sorted copy of the log handed to
    the template is left out. *)
Definition attendance (sess : session) (st : store) : response attendance_page :=
  if negb (check_student_auth sess) then Redirect "index"
  else
    match user_id sess with
    | None => Crash (KeyError "user_id")
    | Some student_id =>
        let attendance_log :=
          match get student_id (student_attendance_data st) with
          | Some l => l | None => [] end in
        match user_name sess with
        | None => Crash (KeyError "name")
        | Some _ =>
            Render "attendance.html" (attendance_analytics attendance_log)
        end
    end.

(* --------------------------------------------------------------- *)
(** *** [view_student]: the faculty per-student view *)

(** [sum(1 for a in att_log if a.get('status') in ['Present','Late'])] *)
Definition attended (a : row) : bool :=
  value_in (rget "status" a) [VStr "Present"; VStr "Late"].

Definition count_attended (att_log : list row) : nat :=
  List.length (filter attended att_log).

(** [float(score_str or 0)]: [None] stands for the exception. *)
Definition float_or_zero (score_str : value) : option Q :=
  if truthy score_str then float_of score_str else Some 0.

(** One iteration of the grade loop of [view_student]: the exception is
    raised by the first statement, so nothing is added when it is. *)
Definition view_student_step (acc : Q * nat) (g : row) : Q * nat :=
  let score_str := rget "score" g in
  match float_or_zero score_str with
  | None => acc
  | Some x => (fst acc + x, if is_None score_str then snd acc else S (snd acc))
  end.

Record student_view : Type := mkStudentView {
  sv_overall_grade : Q;
  sv_overall_attendance : Z
}.

Definition view_student_analytics (grades att_log : list row) : student_view :=
  let '(total_s, count_g) := fold_left view_student_step grades (0, O) in
  let overall_g := match count_g with
                   | O => 0
                   | S _ => py_round2 (total_s / Q_of_nat count_g)
                   end in
  let total_c := List.length att_log in
  let present := count_attended att_log in
  (* [round(x, 0)] then [int(...)] *)
  let overall_a := py_round (percent_of present total_c) in
  mkStudentView overall_g overall_a.

(** [if not profile]: absent, or an empty dictionary. *)
Definition row_falsy (r : option row) : bool :=
  match r with
  | None => true
  | Some r => match cells r, restkey r with [], None => true | _, _ => false end
  end.

(** The [/view_student/<student_id>] route (sorted lists left out). *)
Definition view_student (sess : session) (student_id : string) (st : store)
  : store * response student_view :=
  if negb (check_faculty_auth sess) then (st, Redirect "index")
  else if row_falsy (get student_id (student_profile_data st)) then
    (flash ("Student '" ++ student_id ++ "' not found.") "error" st,
     Redirect "manage_students")
  else
    let grades := match get student_id (student_grades_data st) with
                  | Some l => l | None => [] end in
    let att_log := match get student_id (student_attendance_data st) with
                   | Some l => l | None => [] end in
    (st, Render "view_student.html" (view_student_analytics grades att_log)).

(* --------------------------------------------------------------- *)
(** *** [manage_students]: the faculty student listing *)

(** One iteration of the grade loop shared by [grades] and
    [manage_students]: skip [None] and what [float] rejects. *)
Definition valid_grade_step (acc : Q * nat) (g : row) : Q * nat :=
  let score_str := rget "score" g in
  if is_None score_str then acc
  else match float_of score_str with
       | Some score => (fst acc + score, S (snd acc))
       | None => acc
       end.

Record student_line : Type := mkStudentLine {
  st_id : string;
  st_name : string;
  st_grade : Q;
  st_attendance : Z
}.

Definition full_name (profile : row) : string :=
  strip (fmt_value (rget_def "firstName" (VStr "") profile) ++ " "
         ++ fmt_value (rget_def "lastName" (VStr "") profile)).

Definition manage_students_line (st : store) (student_id : string) (profile : row)
  : student_line :=
  let grades := match get student_id (student_grades_data st) with
                | Some l => l | None => [] end in
  let '(total_score, valid_grade_count) :=
    fold_left valid_grade_step grades (0, O) in
  let overall_grade := mean_of total_score valid_grade_count in
  let attendance := match get student_id (student_attendance_data st) with
                    | Some l => l | None => [] end in
  let present := count_attended attendance in
  let overall_attendance := percent_of present (List.length attendance) in
  mkStudentLine student_id (full_name profile)
    (py_round2 overall_grade) (py_round overall_attendance).

Definition manage_students (sess : session) (st : store)
  : response (list student_line) :=
  if negb (check_faculty_auth sess) then Redirect "index"
  else
    let student_list :=
      map (fun kv : string * row => manage_students_line st (fst kv) (snd kv))
          (student_profile_data st) in
    match user_name sess with
    | None => Crash (KeyError "name")
    | Some _ => Render "manage_students.html" student_list
    end.

(* --------------------------------------------------------------- *)
(** *** [student_dashboard] and [grades]: the student's averages *)

Record subject_sum : Type := mkSubjectSum {
  sum_total : Q;
  sum_count : nat
}.

Definition sum_at (subject : value) (d : vdict subject_sum) : subject_sum :=
  match vget subject d with Some t => t | None => mkSubjectSum 0 0 end.

(** One iteration of the loop of [student_dashboard]. *)
Definition dashboard_step (acc : Q * vdict subject_sum) (g : row)
  : Q * vdict subject_sum :=
  let score_str := rget "score" g in
  let subject := rget_def "courseName" (VStr "Unknown") g in
  if is_None score_str then acc
  else
    match float_of score_str with
    | None => acc
    | Some score =>
        let subjects := snd acc in
        let subjects0 := match vget subject subjects with
                         | Some _ => subjects
                         | None => vset subject (mkSubjectSum 0 0) subjects
                         end in
        let t := sum_at subject subjects0 in
        (fst acc + score,
         vset subject (mkSubjectSum (sum_total t + score) (S (sum_count t)))
              subjects0)
    end.

Record dashboard_page : Type := mkDashboardPage {
  dp_overall_grade : Q;
  dp_chart_labels : list value;
  dp_chart_scores : list Q
}.

(** The analytics block of [student_dashboard]: the total is divided by
    [len(grades)]. *)
Definition dashboard_analytics (grades : list row) : dashboard_page :=
  let '(total_score, subjects) := fold_left dashboard_step grades (0, []) in
  let overall_grade := mean_of total_score (List.length grades) in
  let chart_labels := map fst subjects in
  let chart_scores :=
    map (fun kv : value * subject_sum =>
           py_round2 (mean_of (sum_total (snd kv)) (sum_count (snd kv))))
        subjects in
  mkDashboardPage (py_round2 overall_grade) chart_labels chart_scores.

(** The [/student_dashboard] route (the three most recent grades, a
    date-sorted slice, are left out). *)
Definition student_dashboard (sess : session) (st : store)
  : response dashboard_page :=
  if negb (check_student_auth sess) then Redirect "index"
  else
    match user_id sess with
    | None => Crash (KeyError "user_id")
    | Some student_id =>
        let grades := match get student_id (student_grades_data st) with
                      | Some l => l | None => [] end in
        match user_name sess with
        | None => Crash (KeyError "name")
        | Some _ => Render "student_dashboard.html" (dashboard_analytics grades)
        end
    end.

Record extreme_grade : Type := mkExtreme {
  ex_score : option Q;              (* [None] is the string ['N/A'] *)
  ex_name : string
}.

Record grades_acc : Type := mkGradesAcc {
  ga_total_score : Q;
  ga_valid_grade_count : nat;
  ga_highest : Q * string;
  ga_lowest : Q * string
}.

(** One iteration of the loop of [grades]. *)
Definition grades_step (acc : grades_acc) (g : row) : grades_acc :=
  let score_str := rget "score" g in
  if is_None score_str then acc
  else
    match float_of score_str with
    | None => acc
    | Some score =>
        let course_name := rget_def "courseName" (VStr "Unknown Course") g in
        let assignment_name :=
          rget_def "assignmentName" (VStr "Unknown Assignment") g in
        let grade_name :=
          (fmt_value course_name ++ " - " ++ fmt_value assignment_name)%string in
        let highest := if Qltb (fst (ga_highest acc)) score
                       then (score, grade_name) else ga_highest acc in
        let lowest := if Qltb score (fst (ga_lowest acc))
                      then (score, grade_name) else ga_lowest acc in
        mkGradesAcc (ga_total_score acc + score)
                    (S (ga_valid_grade_count acc)) highest lowest
    end.

Record grades_page : Type := mkGradesPage {
  gp_gpa : value;
  gp_overall_grade : Q;
  gp_highest_grade : extreme_grade;
  gp_lowest_grade : extreme_grade
}.

(** The analytics block of [grades]: the total is divided by
    [valid_grade_count]. *)
Definition grades_analytics (profile : row) (grades : list row) : grades_page :=
  let acc := fold_left grades_step grades
               (mkGradesAcc 0 0 (0, "N/A") (101, "N/A")) in
  let overall_grade := mean_of (ga_total_score acc) (ga_valid_grade_count acc) in
  let lowest := if Qltb 100 (fst (ga_lowest acc))
                then mkExtreme None (snd (ga_lowest acc))
                else mkExtreme (Some (fst (ga_lowest acc))) (snd (ga_lowest acc)) in
  mkGradesPage (rget_def "gpa" (VStr "N/A") profile)
    (py_round2 overall_grade)
    (mkExtreme (Some (fst (ga_highest acc))) (snd (ga_highest acc)))
    lowest.

(** The [/grades] route. *)
Definition grades (sess : session) (st : store) : response grades_page :=
  if negb (check_student_auth sess) then Redirect "index"
  else
    match user_id sess with
    | None => Crash (KeyError "user_id")
    | Some student_id =>
        let profile := match get student_id (student_profile_data st) with
                       | Some p => p | None => row_of [] end in
        let grades := match get student_id (student_grades_data st) with
                      | Some l => l | None => [] end in
        match user_name sess with
        | None => Crash (KeyError "name")
        | Some _ => Render "grades.html" (grades_analytics profile grades)
        end
    end.

(* --------------------------------------------------------------- *)
(** *** Course listings: [manage_courses], [reports], [take_attendance] *)

(** [a < b] as [sorted] evaluates it: strings with strings, numbers with
    numbers, anything else is a [TypeError]. *)
Definition value_lt (a b : value) : exn + bool :=
  match a, b with
  | VStr s, VStr t => inr (String.ltb s t)
  | VInt x, VInt y => inr (Z.ltb x y)
  | _, _ => inl (TypeError "'<' not supported")
  end.




(** [for _, recs in data.items(): for r in recs: if r.get('courseName'):
    names.add(r['courseName'])] *)
Definition add_course_names (data : dict (list row)) (names : list value)
  : list value :=
  fold_left
    (fun acc (kv : string * list row) =>
       fold_left
         (fun acc (r : row) =>
            if truthy (rget "courseName" r)
            then vadd (rget "courseName" r) acc else acc)
         (snd kv) acc)
    data names.

(** [for sid, recs in data.items(): for r in recs:
    if r.get('courseName') == name: ids.add(sid)] *)
Definition add_student_ids (name : value) (data : dict (list row))
    (ids : list string) : list string :=
  fold_left
    (fun acc (kv : string * list row) =>
       fold_left
         (fun acc (r : row) =>
            if value_eqb (rget "courseName" r) name
            then set_add (fst kv) acc else acc)
         (snd kv) acc)
    data ids.

(** The set of students with a grade or an attendance record in a course. *)
Definition students_of_course (name : value) (st : store) : list string :=
  add_student_ids name (student_attendance_data st)
    (add_student_ids name (student_grades_data st) []).














(* --------------------------------------------------------------- *)
(** *** [is_faculty_authorized_for_course] *)

(** The loop over [course_data.items()]: the first entry whose
    [courseName] is truthy and equal to [course_name] decides. *)
Fixpoint authorized_in (courses : dict row) (faculty_id course_name : value)
  : bool :=
  match courses with
  | [] => true
  | (code, details) :: rest =>
      let cn := rget "courseName" details in
      if truthy cn && value_eqb cn course_name then
        let assigned := rget "facultyId" details in
        if truthy assigned then value_eqb assigned faculty_id else true
      else authorized_in rest faculty_id course_name
  end.

Definition is_faculty_authorized_for_course (courses : dict row)
    (faculty_id course_name : value) : bool :=
  if negb (truthy faculty_id) || negb (truthy course_name) then false
  else authorized_in courses faculty_id course_name.

(* --------------------------------------------------------------- *)
(** *** Requests *)

(** [request.form]: the submitted fields, first value first. *)
Definition form : Type := dict string.

(** [request.form.get(k)] *)
Definition form_get (k : string) (f : form) : value :=
  match get k f with Some s => VStr s | None => VNone end.

(** [request.form.get(k, default)] *)
Definition form_get_def (k default : string) (f : form) : string :=
  match get k f with Some s => s | None => default end.

(** [request.form[k]] *)
Definition form_item (k : string) (f : form) : exn + string :=
  match get k f with Some s => inr s | None => inl (KeyError k) end.

(** [for key in request.form]: each key once. *)
Definition form_keys (f : form) : list string :=
  fold_left (fun acc kv => set_add (fst kv) acc) f [].

(** [a or b] *)
Definition value_or (a b : value) : value := if truthy a then a else b.

Definition reply : Type := response unit.

(** What the body of a handler's [try] block does: it returns a reply,
    or raises, in the state it has reached. *)
Inductive handled : Type :=
| Returned (st : store) (r : reply)
| Threw (st : store) (e : exn).

(** [try: body  except Exception as e: flash(prefix + str(e), 'error');
    return redirect(target)] *)
Definition catch_all (body : handled) (prefix target : string)
  : store * reply :=
  match body with
  | Returned st r => (st, r)
  | Threw st e => (flash (prefix ++ str_exn e) "error" st, Redirect target)
  end.

(** [all(h in existing for h in headers)] *)
Definition all_in (headers existing : list string) : bool :=
  forallb (fun h => str_in h existing) headers.

(** The header line already in a CSV file, kept when it has every
    canonical header: the code shared by [update_student] and
    [delete_student] ([if os.path.isfile(p) and os.path.getsize(p) > 0:
    ...]). *)
Definition headers_for_rewrite (p : string) (headers : list string)
    (fsys : filesystem) : exn + list string :=
  match get p fsys with
  | None => inr headers
  | Some f =>
      if size_is_zero f then inr headers
      else if locked f then inl (OSError p)
      else
        match reader_first p f with
        | inl e => inl e
        | inr csv_headers =>
            if all_in headers csv_headers then inr csv_headers else inr headers
        end
  end.

(* --------------------------------------------------------------- *)
(** *** [create_student] *)

Definition create_student_body (data : form) (st : store) : handled :=
  let required :=
    ["studentId"; "password"; "firstName"; "lastName"; "email";
     "confirmPassword"] in
  if negb (forallb (fun f => negb (String.eqb (strip (form_get_def f "" data)) ""))
                   required)
  then Returned (flash "Required fields missing or empty." "error" st)
                (Redirect "add_student")
  else
    match form_item "password" data, form_item "confirmPassword" data,
          form_item "studentId" data with
    | inl e, _, _ | _, inl e, _ | _, _, inl e => Threw st e
    | inr password, inr confirm, inr raw_id =>
        if negb (String.eqb password confirm)
        then Returned (flash "Passwords mismatch." "error" st)
                      (Redirect "add_student")
        else
          let sid := strip raw_id in
          if String.eqb sid ""
          then Returned (flash "Student ID cannot be empty." "error" st)
                        (Redirect "add_student")
          else if contains sid (student_profile_data st)
          then Returned (flash ("ID '" ++ sid ++ "' already exists.") "error" st)
                        (Redirect "add_student")
          else
            let record0 :=
              row_of (map (fun h => (h, VStr (form_get_def h "" data)))
                          STUDENT_HEADERS) in
            let record :=
              rset "gpa" (value_or (form_get "gpa" data) (VStr "0.0"))
                (rset "program" (value_or (form_get "program" data) (VStr "Undeclared"))
                   (rset "major" (value_or (form_get "major" data) (VStr "Undeclared"))
                      record0)) in
            let headers := STUDENT_HEADERS in
            (* the header line of the existing file, if it is usable *)
            let existing_h : exn + list string :=
              match get STUDENTS_CSV (files st) with
              | None => inr headers
              | Some f =>
                  if size_is_zero f then inr headers
                  else if locked f then inl (OSError STUDENTS_CSV)
                  else
                    match reader_first STUDENTS_CSV f with
                    | inl StopIteration => inr headers
                    | inl e => inl e
                    | inr h => if all_in headers h then inr h else inr headers
                    end
              end in
            match existing_h with
            | inl e => Threw st e
            | inr existing_h =>
                let write_h :=
                  match get STUDENTS_CSV (files st) with
                  | None => true
                  | Some f => size_is_zero f
                  end in
                let new_lines :=
                  (if write_h then [writeheader existing_h] else [])
                    ++ [dictwriter_row existing_h record] in
                match append_file STUDENTS_CSV new_lines (files st) with
                | inl e => Threw st e
                | inr fsys =>
                    let st1 := set_files fsys st in
                    let st2 := set_profiles
                                 (setitem sid record (student_profile_data st1)) st1 in
                    let st3 := set_logins
                                 (setitem sid
                                    [("password", VStr password);
                                     ("role", VStr "student")]
                                    (student_login_data st2)) st2 in
                    match form_item "firstName" data with
                    | inl e => Threw st3 e
                    | inr first =>
                        Returned (flash ("Student '" ++ first ++ "' added!")
                                        "success" st3)
                                 (Redirect "manage_students")
                    end
                end
            end
    end.

(** The [/create_student] route. *)
Definition create_student (sess : session) (data : form) (st : store)
  : store * reply :=
  if negb (check_faculty_auth sess) then (st, Redirect "index")
  else catch_all (create_student_body data st)
         "Error creating student: " "add_student".

(* --------------------------------------------------------------- *)
(** *** [update_student] (from the later revision of [app.py]) *)

(** The entries of [updated_data] that come from the URL and the form. *)
Definition submitted_fields (student_id : string) (f : form) : dict value :=
  [("studentId", VStr student_id);
   ("firstName", VStr (strip (form_get_def "firstName" "" f)));
   ("lastName", VStr (strip (form_get_def "lastName" "" f)));
   ("email", VStr (strip (form_get_def "email" "" f)));
   ("dob", VStr (form_get_def "dob" "" f));
   ("enrollmentDate", VStr (form_get_def "enrollmentDate" "" f));
   ("major", VStr (strip (form_get_def "major" "Undeclared" f)));
   ("program", VStr (strip (form_get_def "program" "Undeclared" f)));
   ("gpa", VStr (strip (form_get_def "gpa" "0.0" f)))].

(** [updated_data], before the password is settled. *)
Definition updated_student (student_id : string) (f : form) : row :=
  row_of (submitted_fields student_id f ++ [("password", form_get "password" f)]).

(** [required] in [update_student]. *)
Definition update_required : list string :=
  ["firstName"; "lastName"; "email"; "enrollmentDate"; "dob"].

(** Step 4: rewrite [students.csv] from the whole mapping; its own
    [try] reports a failure and goes on. *)
Definition rewrite_students (ok_msg : string) (st : store) : store :=
  let all_students := values (student_profile_data st) in
  match headers_for_rewrite STUDENTS_CSV STUDENT_HEADERS (files st) with
  | inl e =>
      flash ("Error rewriting " ++ STUDENTS_CSV ++ ": " ++ str_exn e) "error" st
  | inr headers =>
      match write_file STUDENTS_CSV
              (writeheader headers :: map (dictwriter_row headers) all_students)
              (files st) with
      | inl e =>
          flash ("Error rewriting " ++ STUDENTS_CSV ++ ": " ++ str_exn e) "error" st
      | inr fsys => flash ok_msg "success" (set_files fsys st)
      end
  end.

Definition update_student_body (student_id : string) (f : form)
    (original_student : row) (st : store) : handled :=
  let updated_data := updated_student student_id f in
  let confirm_password := form_get "confirmPassword" f in
  if negb (forallb (fun k => truthy (rget k updated_data)) update_required)
  then Returned (flash "Required fields cannot be empty." "error" st)
                (Redirect ("edit_student/" ++ student_id))
  else
    let settled : option row :=
      if truthy (rget "password" updated_data) then
        if negb (value_eqb (rget "password" updated_data) confirm_password)
        then None
        else Some updated_data
      else Some (rset "password" (rget "password" original_student) updated_data) in
    match settled with
    | None => Returned (flash "New passwords do not match." "error" st)
                       (Redirect ("edit_student/" ++ student_id))
    | Some updated_data =>
        let st1 := set_profiles
                     (setitem student_id updated_data (student_profile_data st)) st in
        let logins := student_login_data st1 in
        let login :=
          match get student_id logins with
          | Some l => setitem "password" (rget "password" updated_data) l
          | None => [("password", rget "password" updated_data);
                     ("role", VStr "student")]
          end in
        let st2 := set_logins (setitem student_id login logins) st1 in
        let st3 :=
          rewrite_students
            ("Student '" ++ fmt_value (rget "firstName" updated_data)
               ++ "' updated successfully!") st2 in
        Returned st3 (Redirect "manage_students")
    end.

(** The [/update_student/<student_id>] route. *)
Definition update_student (sess : session) (student_id : string) (f : form)
    (st : store) : store * reply :=
  if negb (check_faculty_auth sess) then (st, Redirect "index")
  else
    match get student_id (student_profile_data st) with
    | Some original_student =>
        if row_falsy (Some original_student)
        then (flash ("Student '" ++ student_id ++ "' not found for update.")
                    "error" st,
              Redirect "manage_students")
        else catch_all (update_student_body student_id f original_student st)
               "An error occurred during update: "
               ("edit_student/" ++ student_id)
    | None =>
        (flash ("Student '" ++ student_id ++ "' not found for update.") "error" st,
         Redirect "manage_students")
    end.

(* --------------------------------------------------------------- *)
(** *** [delete_student] *)

(** The [/delete_student/<student_id>] route. *)
Definition delete_student (sess : session) (student_id : string) (st : store)
  : store * reply :=
  if negb (check_faculty_auth sess) then (st, Redirect "index")
  else
    let profile := get student_id (student_profile_data st) in
    let name :=
      if row_falsy profile then "Unknown"
      else match profile with
           | Some p => full_name p
           | None => "Unknown"
           end in
    let st1 := set_profiles (pop student_id (student_profile_data st)) st in
    let st2 := set_logins (pop student_id (student_login_data st1)) st1 in
    let st3 := set_grades (pop student_id (student_grades_data st2)) st2 in
    let st4 := set_attendance (pop student_id (student_attendance_data st3)) st3 in
    let csv_path := "students.csv" in
    if isfile csv_path (files st4) then
      (rewrite_students ("Student '" ++ name ++ "' deleted.") st4,
       Redirect "manage_students")
    else
      (flash ("Student '" ++ name ++ "' removed from memory; students.csv not found.")
             "warning" st4,
       Redirect "manage_students").

(* --------------------------------------------------------------- *)
(** *** [upload_student_data] and the start-up load *)

(** [werkzeug.utils.secure_filename] *)
Variable secure_filename : string -> string.

Definition UPLOAD_FOLDER : string := "uploads".

(** [os.path.join(a, b)] for a relative [b]. *)
Definition path_join (a b : string) : string := a ++ "/" ++ b.

(** [s.endswith(suffix)] *)
Definition endswith (suffix s : string) : bool :=
  let n := String.length s in
  let m := String.length suffix in
  Nat.leb m n && String.eqb (String.substring (n - m) m s) suffix.

(** An uploaded file: its name and the lines of its content. *)
Record upload : Type := mkUpload {
  filename : string;
  content : list line
}.

(** [student_login_data.clear()] and the loop that refills it from the
    profiles: [if 'password' in profile]. *)
Definition logins_from_upload (profiles : dict row) : dict (dict value) :=
  fold_left
    (fun (logins : dict (dict value)) (kv : string * row) =>
       let (student_id, profile) := kv in
       if rhas "password" profile
       then setitem student_id
              [("password", rget "password" profile); ("role", VStr "student")]
              logins
       else logins)
    profiles [].

(** [file.save(filepath)] *)
Definition save_upload (filepath : string) (u : upload) (fsys : filesystem)
  : exn + filesystem :=
  if String.eqb (secure_filename (filename u)) "" then inl (OSError filepath)
  else write_file filepath (content u) fsys.

Definition upload_student_body (filepath : string) (u : upload) (st : store)
  : handled :=
  match save_upload filepath u (files st) with
  | inl e => Threw st e
  | inr fsys =>
      let st1 := set_files fsys st in
      match load_data_from_csv false (files st1) filepath
              (student_profile_data st1) "studentId" (printed st1) with
      | Raised ld e => Threw (set_printed (snd ld) (set_profiles (fst ld) st1)) e
      | Done ld =>
          let st2 := set_printed (snd ld) (set_profiles (fst ld) st1) in
          let st3 := set_logins (logins_from_upload (student_profile_data st2)) st2 in
          let st4 := set_files (pop filepath (files st3)) st3 in
          Returned (flash "Student data uploaded successfully!" "success" st4)
                   (Redirect "upload_data")
      end
  end.

(** The [/upload-student-data] route. *)
Definition upload_student_data (sess : session) (file : option upload)
    (st : store) : store * reply :=
  if negb (check_faculty_auth sess) then (st, Unauthorized)
  else
    match file with
    | None => (flash "No selected file for student data" "error" st,
               Redirect "upload_data")
    | Some u =>
        if String.eqb (filename u) "" then
          (flash "No selected file for student data" "error" st,
           Redirect "upload_data")
        else if endswith ".csv" (filename u) then
          let filepath := path_join UPLOAD_FOLDER (secure_filename (filename u)) in
          match upload_student_body filepath u st with
          | Returned st' r => (st', r)
          | Threw st' e =>
              let st1 := flash ("Error processing student data file: " ++ str_exn e)
                               "error" st' in
              (if contains filepath (files st1)
               then set_files (pop filepath (files st1)) st1 else st1,
               Redirect "upload_data")
          end
        else
          (flash "Invalid file type for student data. Please upload a .csv file."
                 "error" st,
           Redirect "upload_data")
    end.

(** The loop of the start-up block: [if isinstance(profile, dict) and
    profile.get('password')]. *)
Definition logins_at_startup (profiles : dict row) : dict (dict value) :=
  fold_left
    (fun (logins : dict (dict value)) (kv : string * row) =>
       let (student_id, profile) := kv in
       if truthy (rget "password" profile)
       then setitem student_id
              [("password", rget "password" profile); ("role", VStr "student")]
              logins
       else logins)
    profiles [].

(** The [if __name__ == '__main__':] block, up to [app.run]. *)
Definition startup (st : store) : store :=
  let ld := state_of (load_data_from_csv false (files st) "students.csv"
                        (student_profile_data st) "studentId" (printed st)) in
  let st1 := set_printed (snd ld) (set_profiles (fst ld) st) in
  let st2 := set_logins (logins_at_startup (student_profile_data st1)) st1 in
  let lg := state_of (load_data_from_csv true (files st2) "grades.csv"
                        (student_grades_data st2) "studentId" (printed st2)) in
  let st3 := set_printed (snd lg) (set_grades (fst lg) st2) in
  let la := state_of (load_data_from_csv true (files st3) "attendance.csv"
                        (student_attendance_data st3) "studentId" (printed st3)) in
  let st4 := set_printed (snd la) (set_attendance (fst la) st3) in
  let lc := state_of (load_data_from_csv false (files st4) COURSES_CSV
                        (course_data st4) "courseCode" (printed st4)) in
  set_printed (snd lc) (set_courses (fst lc) st4).

(** The [/upload-grades-data] route. *)
Definition upload_grades_data (sess : session) (file : option upload)
    (st : store) : store * reply :=
  if negb (check_faculty_auth sess) then (st, Unauthorized)
  else
    match file with
    | None => (flash "No selected file for grades data" "error" st,
               Redirect "upload_data")
    | Some u =>
        if String.eqb (filename u) "" then
          (flash "No selected file for grades data" "error" st,
           Redirect "upload_data")
        else if endswith ".csv" (filename u) then
          let filepath := path_join UPLOAD_FOLDER (secure_filename (filename u)) in
          match save_upload filepath u (files st) with
          | inl e =>
              let st1 := flash ("Error processing grades data file: " ++ str_exn e)
                               "error" st in
              (if contains filepath (files st1)
               then set_files (pop filepath (files st1)) st1 else st1,
               Redirect "upload_data")
          | inr fsys =>
              let st1 := set_files fsys st in
              let ld := state_of (load_data_from_csv true (files st1) filepath
                                    (student_grades_data st1) "studentId"
                                    (printed st1)) in
              let st2 := set_printed (snd ld) (set_grades (fst ld) st1) in
              let st3 := set_files (pop filepath (files st2)) st2 in
              (flash "Grades data uploaded successfully!" "success" st3,
               Redirect "upload_data")
          end
        else
          (flash "Invalid file type for grades data. Please upload a .csv file."
                 "error" st,
           Redirect "upload_data")
    end.

(* --------------------------------------------------------------- *)
(** *** [submit_attendance] *)

(** The search for the instructor's name: the first record of the
    course that has one. *)
Definition find_instructor (course_name : value) (att : dict (list row))
  : value :=
  let all_records := List.concat (values att) in
  match find (fun a : row =>
                value_eqb (rget "courseName" a) course_name
                && truthy (rget "instructor" a)) all_records with
  | Some a => rget "instructor" a
  | None => VStr "N/A"
  end.

(** [{key.replace('attendance_', '') for key in request.form
     if key.startswith('attendance_')}] *)
Definition submitted_student_ids (f : form) : list string :=
  fold_left
    (fun acc key =>
       if startswith "attendance_" key
       then set_add (replace "attendance_" "" key) acc else acc)
    (form_keys f) [].

(** The records built from the form, one per student with a status. *)
Definition new_attendance_records (f : form)
    (course_name attendance_date instructor_name : value) : list row :=
  flat_map
    (fun student_id =>
       let status := form_get ("attendance_" ++ student_id) f in
       if truthy status
       then [row_of [("studentId", VStr student_id);
                     ("courseName", course_name);
                     ("date", attendance_date);
                     ("status", status);
                     ("instructor", instructor_name)]]
       else [])
    (submitted_student_ids f).

(** [r[k]] *)
Definition ritem (k : string) (r : row) : exn + value :=
  match get k (cells r) with Some v => inr v | None => inl (KeyError k) end.

(** [any(r['courseName'] == record['courseName'] and
         r['date'] == record['date'] for r in existing)] *)
Fixpoint is_duplicate (record : row) (existing : list row) : exn + bool :=
  match existing with
  | [] => inr false
  | r :: rest =>
      match ritem "courseName" r with
      | inl e => inl e
      | inr cn =>
          if value_eqb cn (rget "courseName" record) then
            match ritem "date" r with
            | inl e => inl e
            | inr d =>
                if value_eqb d (rget "date" record) then inr true
                else is_duplicate record rest
            end
          else is_duplicate record rest
      end
  end.

(** Step 2 of [submit_attendance]: the in-memory update. *)
Fixpoint remember_attendance (new_records : list row) (att : dict (list row))
  : outcome (dict (list row)) :=
  match new_records with
  | [] => Done att
  | record :: rest =>
      let student_id := str_of_value (rget "studentId" record) in
      let att0 := if contains student_id att then att
                  else setitem student_id [] att in
      let existing := match get student_id att0 with
                      | Some l => l | None => [] end in
      match is_duplicate record existing with
      | inl e => Raised att0 e
      | inr true => remember_attendance rest att0
      | inr false =>
          remember_attendance rest (setitem student_id (existing ++ [record]) att0)
      end
  end.

Definition submit_attendance_body (f : form) (st : store) : handled :=
  let course_name := form_get "course" f in
  let attendance_date := form_get "date" f in
  if negb (truthy course_name) || negb (truthy attendance_date)
  then Returned (flash "Missing course name or date." "error" st)
                (Redirect "take_attendance")
  else
    let instructor_name := find_instructor course_name (student_attendance_data st) in
    let new_records :=
      new_attendance_records f course_name attendance_date instructor_name in
    match new_records with
    | [] => Returned (flash "No attendance data submitted." "warning" st)
                     (Redirect "take_attendance")
    | _ :: _ =>
        let csv_file := "attendance.csv" in
        let headers := ["studentId"; "courseName"; "date"; "status"; "instructor"] in
        let write_header :=
          match get csv_file (files st) with
          | None => true
          | Some fl => size_is_zero fl
          end in
        let new_lines :=
          (if write_header then [writeheader headers] else [])
            ++ map (dictwriter_row headers) new_records in
        match append_file csv_file new_lines (files st) with
        | inl e => Threw st e
        | inr fsys =>
            let st1 := set_files fsys st in
            match remember_attendance new_records (student_attendance_data st1) with
            | Raised att e => Threw (set_attendance att st1) e
            | Done att =>
                Returned
                  (flash ("Attendance for " ++ fmt_value course_name ++ " on "
                            ++ fmt_value attendance_date
                            ++ " submitted successfully!")
                         "success" (set_attendance att st1))
                  (Redirect "take_attendance")
            end
        end
    end.

(** The [/submit_attendance] route. *)
Definition submit_attendance (sess : session) (f : form) (st : store)
  : store * reply :=
  if negb (check_faculty_auth sess) then (st, Redirect "index")
  else catch_all (submit_attendance_body f st)
         "An error occurred while submitting attendance: " "take_attendance".

(* --------------------------------------------------------------- *)
(** *** [enroll_student] *)

(** [session.get(k)] *)
Definition session_value (o : option string) : value :=
  match o with Some s => VStr s | None => VNone end.

(** [any(r.get('courseName') == course_name for r in records)] *)
Definition has_course (course_name : value) (records : list row) : bool :=
  existsb (fun r => value_eqb (rget "courseName" r) course_name) records.

(** [request.referrer or url_for('manage_courses')] *)
Definition back (referrer : option string) : string :=
  match referrer with
  | Some r => if String.eqb r "" then "manage_courses" else r
  | None => "manage_courses"
  end.

Definition roster_url (course_name : string) : string :=
  "course_roster/" ++ replace " " "+" course_name.

Definition enroll_student_body (sess : session) (today_date : string)
    (referrer : option string) (f : form) (st : store) : handled :=
  let faculty_id := session_value (user_id sess) in
  let faculty_name := match user_name sess with Some n => n | None => "?" end in
  match get "course_name" f, get "student_id_to_add" f with
  | Some course_name, Some student_id =>
      if String.eqb course_name "" || String.eqb student_id ""
      then Returned (flash "Missing course name or student ID." "error" st)
                    (Redirect (back referrer))
      else if negb (is_faculty_authorized_for_course (course_data st)
                      faculty_id (VStr course_name))
      then Returned (flash ("You are not authorized to add students to "
                              ++ course_name ++ ".") "error" st)
                    (Redirect (back referrer))
      else if negb (contains student_id (student_profile_data st))
      then Returned (flash ("Student ID '" ++ student_id ++ "' does not exist.")
                           "error" st)
                    (Redirect (match referrer with
                               | Some r => if String.eqb r ""
                                           then roster_url course_name else r
                               | None => roster_url course_name
                               end))
      else
        let has_grade :=
          has_course (VStr course_name)
            (match get student_id (student_grades_data st) with
             | Some l => l | None => [] end) in
        let has_attendance :=
          has_course (VStr course_name)
            (match get student_id (student_attendance_data st) with
             | Some l => l | None => [] end) in
        if has_grade || has_attendance
        then Returned (flash ("Student " ++ student_id
                                ++ " already appears to be associated with "
                                ++ course_name ++ ".") "warning" st)
                      (Redirect (roster_url course_name))
        else
          let new_record :=
            row_of [("studentId", VStr student_id);
                    ("courseName", VStr course_name);
                    ("date", VStr today_date);
                    ("status", VStr "Present");
                    ("instructor", VStr faculty_name)] in
          let headers := ATTENDANCE_HEADERS in
          let write_h :=
            match get ATTENDANCE_CSV (files st) with
            | None => true
            | Some fl => size_is_zero fl
            end in
          let new_lines :=
            (if write_h then [writeheader headers] else [])
              ++ [dictwriter_row headers new_record] in
          match append_file ATTENDANCE_CSV new_lines (files st) with
          | inl e => Threw st e
          | inr fsys =>
              let st1 := set_files fsys st in
              let att := student_attendance_data st1 in
              let existing := match get student_id att with
                              | Some l => l | None => [] end in
              let st2 := set_attendance
                           (setitem student_id (existing ++ [new_record]) att) st1 in
              Returned (flash ("Student " ++ student_id ++ " added to "
                                 ++ course_name ++ " roster.") "success" st2)
                       (Redirect (roster_url course_name))
          end
  | _, _ =>
      Returned (flash "Missing course name or student ID." "error" st)
               (Redirect (back referrer))
  end.

(** The [/enroll_student] route; [today_date] is
    [date.today().strftime('%Y-%m-%d')]. *)
Definition enroll_student (sess : session) (today_date : string)
    (referrer : option string) (f : form) (st : store) : store * reply :=
  if negb (check_faculty_auth sess) then (st, Redirect "index")
  else catch_all (enroll_student_body sess today_date referrer f st)
         "Error adding student to course: " (back referrer).

(* --------------------------------------------------------------- *)
(** *** [update_course] *)

Definition update_course_body (course_code : string) (f : form) (st : store)
  : handled :=
  let updated_data :=
    row_of
      [("courseCode", VStr course_code);
       ("courseName", VStr (strip (form_get_def "courseName" "" f)));
       ("description", VStr (strip (form_get_def "courseDescription" "" f)));
       ("instructor", VStr (strip (form_get_def "instructor" "" f)));
       ("semester", VStr (strip (form_get_def "semester" "" f)));
       ("credits", VStr (strip (form_get_def "credits" "" f)));
       ("facultyId", VStr (strip (form_get_def "facultyId" "" f)))] in
  let required := ["courseName"; "instructor"; "semester"; "credits"; "facultyId"] in
  let edit := ("edit_course/" ++ course_code)%string in
  if negb (forallb (fun k => truthy (rget k updated_data)) required)
  then Returned (flash "Required fields cannot be empty." "error" st)
                (Redirect edit)
  else
    match py_int (str_of_value (rget "credits" updated_data)) with
    | None => Returned (flash "Credits must be a number." "error" st)
                       (Redirect edit)
    | Some credits =>
        let updated_data := rset "credits" (VInt credits) updated_data in
        let faculty := str_of_value (rget "facultyId" updated_data) in
        if negb (contains faculty faculty_users)
        then Returned (flash ("Invalid Faculty ID '" ++ faculty ++ "'.") "error" st)
                      (Redirect edit)
        else
          let st1 := set_courses
                       (setitem course_code updated_data (course_data st)) st in
          let all_courses := values (course_data st1) in
          let headers := COURSE_HEADERS in
          let st2 :=
            match write_file COURSES_CSV
                    (writeheader headers :: map (dictwriter_row headers) all_courses)
                    (files st1) with
            | inl e =>
                flash ("Error rewriting " ++ COURSES_CSV ++ ": " ++ str_exn e)
                      "error" st1
            | inr fsys =>
                flash ("Course '" ++ fmt_value (rget "courseName" updated_data)
                         ++ "' updated successfully!")
                      "success" (set_files fsys st1)
            end in
          Returned st2 (Redirect "manage_courses")
    end.

(** The [/update_course/<course_code>] route. *)
Definition update_course (sess : session) (course_code : string) (f : form)
    (st : store) : store * reply :=
  if negb (check_faculty_auth sess) then (st, Redirect "index")
  else if row_falsy (get course_code (course_data st))
  then (flash ("Course '" ++ course_code ++ "' not found for update.") "error" st,
        Redirect "manage_courses")
  else catch_all (update_course_body course_code f st)
         "An error occurred during update: " ("edit_course/" ++ course_code).

End Builtins.

(* ================================================================= *)
(** ** Decimal instances of the built-in parsers

    [float(s)] and [int(s)] restricted to plain decimal literals (an
    optional sign, digits, and for [float] an optional fractional part),
    with surrounding white space ignored as Python does.  They are used
    where a run on concrete strings is evaluated. *)

Definition digit_of (c : ascii) : option N :=
  let n := nat_of_ascii c in
  if Nat.leb 48 n && Nat.leb n 57 then Some (N.of_nat (n - 48)) else None.

(** The value of a non-empty string of digits, continuing from [acc]. *)
Fixpoint digits_from (s : string) (acc : N) : option N :=
  match s with
  | EmptyString => Some acc
  | String c s' =>
      match digit_of c with
      | Some d => digits_from s' (acc * 10 + d)
      | None => None
      end
  end.

Definition digits (s : string) : option N :=
  match s with
  | EmptyString => None
  | _ => digits_from s 0
  end.

(** The text before the first ['.'] and, if there is one, the text after. *)
Fixpoint split_dot (s : string) : string * option string :=
  match s with
  | EmptyString => (EmptyString, None)
  | String c s' =>
      if Ascii.eqb c "."%char then (EmptyString, Some s')
      else let (a, b) := split_dot s' in (String c a, b)
  end.

Definition unsigned_decimal (s : string) : option Q :=
  match split_dot s with
  | (ip, None) => option_map (fun n => inject_Z (Z.of_N n)) (digits ip)
  | (ip, Some fp) =>
      match ip, fp with
      | EmptyString, EmptyString => None
      | _, _ =>
          match digits_from ip 0, digits_from fp 0 with
          | Some i, Some f =>
              Some (inject_Z (Z.of_N i)
                    + (Z.of_N f # Pos.pow 10 (Pos.of_nat (String.length fp))))
          | _, _ => None
          end
      end
  end.

Definition signed {A : Type} (parse : string -> option A) (neg : A -> A)
    (s : string) : option A :=
  match strip s with
  | String "-"%char r => option_map neg (parse r)
  | String "+"%char r => parse r
  | r => parse r
  end.

Definition decimal_float : string -> option Q := signed unsigned_decimal Qopp.

Definition decimal_int : string -> option Z :=
  signed (fun s => option_map Z.of_N (digits s)) Z.opp.

(** [secure_filename] leaves a name made of letters, digits, dots and
    underscores as it is. *)
Definition plain_filename (s : string) : string := s.

(* ================================================================= *)
(** ** What the specification says, in its own words *)


(** Attendance percentage, as specified: records whose status is Present
    or Late, over all records, times 100, rounded. *)
Definition attendance_percentage_spec (attendance_log : list row) : Z :=
  py_round (percent_of (count_attended attendance_log)
                       (List.length attendance_log)).

(** Average score, as specified: the scores that parse as numbers, their
    sum over their count; a record without a parseable score is skipped. *)
Definition numeric_scores (py_float : string -> option Q) (grades : list row)
  : list Q :=
  flat_map (fun g => match float_of py_float (rget "score" g) with
                     | Some x => [x]
                     | None => []
                     end) grades.

Definition average_score_spec (py_float : string -> option Q) (grades : list row)
  : Q :=
  let xs := numeric_scores py_float grades in
  mean_of (fold_left Qplus xs 0) (List.length xs).

(** What the student's attendance page counts: the records that name a
    course and whose status is exactly ['Present']. *)
Definition counted_present (record : row) : bool :=
  truthy (rget "courseName" record)
  && value_eqb (rget "status" record) (VStr "Present").

(** The entry of the course mapping that decides an authorization: its
    [courseName] is set and equal to the requested one. *)
Definition course_matches (course_name : value) (kv : string * row) : bool :=
  truthy (rget "courseName" (snd kv))
  && value_eqb (rget "courseName" (snd kv)) course_name.

(** [open(p, 'a')] and [open(p, 'w')] succeed. *)
Definition writable (p : string) (fsys : filesystem) : bool :=
  match get p fsys with
  | Some f => negb (locked f)
  | None => true
  end.

(** The records stored for a student. *)
Definition records_of (student_id : string) (data : dict (list row)) : list row :=
  match get student_id data with Some l => l | None => [] end.

(* ================================================================= *)
(** ** Sample data for concrete runs *)

Definition demo_faculty : session :=
  mkSession (Some "faculty") (Some "prof_davis") (Some "Prof. Davis").

Definition demo_profile (student_id first last : string) : row :=
  row_of [("studentId", VStr student_id); ("password", VStr "pw123");
          ("firstName", VStr first); ("lastName", VStr last);
          ("email", VStr (first ++ "@example.edu")); ("major", VStr "Physics");
          ("program", VStr "BSc"); ("gpa", VStr "3.4");
          ("enrollmentDate", VStr "2023-09-01"); ("dob", VStr "2004-05-06")].

Definition demo_login : dict value :=
  [("password", VStr "pw123"); ("role", VStr "student")].

Definition demo_attendance (student_id course date status : string) : row :=
  row_of [("studentId", VStr student_id); ("courseName", VStr course);
          ("date", VStr date); ("status", VStr status);
          ("instructor", VStr "Prof. Davis")].

(** Two students in memory, no file on disk. *)
Definition demo_store : store :=
  mkStore [("S1", demo_login); ("S2", demo_login)]
          [("S1", demo_profile "S1" "Ann" "Lee"); ("S2", demo_profile "S2" "Bo" "Diaz")]
          []
          [("S1", [demo_attendance "S1" "Math" "2024-01-10" "Present"])]
          [] [] [] [].

(* ================================================================= *)
(** ** The store as a state machine *)

(** The handlers that change the store. *)
Inductive operation : Type :=
| OpCreateStudent (sess : session) (data : form)
| OpUpdateStudent (sess : session) (student_id : string) (f : form)
| OpDeleteStudent (sess : session) (student_id : string)
| OpUploadStudents (sess : session) (file : option upload)
| OpUploadGrades (sess : session) (file : option upload)
| OpSubmitAttendance (sess : session) (f : form)
| OpEnrollStudent (sess : session) (today_date : string)
    (referrer : option string) (f : form)
| OpUpdateCourse (sess : session) (course_code : string) (f : form).

Section Run.
Variable py_int : string -> option Z.
Variable secure_filename : string -> string.

Definition run (st : store) (op : operation) : store :=
  match op with
  | OpCreateStudent sess data => fst (create_student sess data st)
  | OpUpdateStudent sess student_id f => fst (update_student sess student_id f st)
  | OpDeleteStudent sess student_id => fst (delete_student sess student_id st)
  | OpUploadStudents sess file =>
      fst (upload_student_data secure_filename sess file st)
  | OpUploadGrades sess file =>
      fst (upload_grades_data secure_filename sess file st)
  | OpSubmitAttendance sess f => fst (submit_attendance sess f st)
  | OpEnrollStudent sess today_date referrer f =>
      fst (enroll_student sess today_date referrer f st)
  | OpUpdateCourse sess course_code f =>
      fst (update_course py_int sess course_code f st)
  end.

(** The server after start-up on a given disk, then a sequence of
    requests. *)
Definition after (fsys : filesystem) (ops : list operation) : store :=
  fold_left run ops (startup (empty_store fsys)).

End Run.

(** Every login entry has the password of the profile under the same id. *)
Definition logins_in_sync (st : store) : Prop :=
  forall (student_id : string) (login : dict value),
    get student_id (student_login_data st) = Some login ->
    exists profile : row,
      get student_id (student_profile_data st) = Some profile
      /\ get "password" login = Some (rget "password" profile).

(** No key occurs twice: what every dictionary built by the code satisfies. *)
Definition unique_keys {V : Type} (d : dict V) : Prop := NoDup (keys d).

(** A handler that leaves both student mappings as they were. *)
Definition same_students (st st' : store) : Prop :=
  student_login_data st' = student_login_data st
  /\ student_profile_data st' = student_profile_data st.

(** The invariant of the student mappings. *)
Definition students_consistent (st : store) : Prop :=
  logins_in_sync st /\ unique_keys (student_profile_data st).





(** A course some grade or attendance record names. *)
Definition named_in (data : dict (list row)) (name : value) : Prop :=
  truthy name = true
  /\ exists (student_id : string) (records : list row) (r : row),
       In (student_id, records) data /\ In r records
       /\ rget "courseName" r = name.


(** No course name is a number: what files and forms produce. *)
Definition is_number (v : value) : bool :=
  match v with VInt _ => true | _ => false end.









Definition demo_attendance_form : form :=
  [("course", "Math"); ("date", "2024-01-11");
   ("attendance_S1", "Present"); ("attendance_S2", "Late")].


(** The file a rewrite produces from a mapping. *)
Definition rewritten (fieldnames : list string) (m : dict row) : file :=
  mkFile false (writeheader fieldnames :: map (dictwriter_row fieldnames) (values m)).






(** One attendance record, with status ['Late']. *)
Definition demo_late_log : list row :=
  [demo_attendance "S1" "Math" "2024-01-10" "Late"].

Definition demo_grade (score : string) : row :=
  row_of [("studentId", VStr "S1"); ("courseName", VStr "Math");
          ("assignmentName", VStr "Quiz"); ("score", VStr score);
          ("dateGraded", VStr "2024-01-10")].

(** The store with the given grade records for student [S1]. *)
Definition demo_store_grades (l : list row) : store :=
  set_grades [("S1", l)] demo_store.

Definition demo_student : session :=
  mkSession (Some "student") (Some "S1") (Some "Ann").

(* ================================================================= *)
(** * More of the application

    The remaining routes of [app.py], and the revised routes of the later
    revision (module [Revised]). *)

(** ** [index], [login], [logout] *)

(** The Flask session as the dictionary [login] fills. *)
Definition cookie : Type := dict value.

(** [d.get(k)] on a dictionary of values. *)
Definition dget (k : string) (d : dict value) : value :=
  match get k d with Some v => v | None => VNone end.

(** The session record the handlers read, from the dictionary: the three
    keys, when they hold strings. *)
Definition text_of (v : value) : option string :=
  match v with VStr s => Some s | _ => None end.

Definition session_of (c : cookie) : session :=
  mkSession (text_of (dget "role" c)) (text_of (dget "user_id" c))
            (text_of (dget "name" c)).

(** The [/] route. *)
Definition index (c : cookie) : reply :=
  if contains "role" c then
    if value_eqb (dget "role" c) (VStr "student") then Redirect "student_dashboard"
    else if value_eqb (dget "role" c) (VStr "faculty") then Redirect "faculty_dashboard"
    else Render "login.html" tt
  else Render "login.html" tt.

(** [username in users and users[username]['password'] == password]: the
    entry that matches, if any; [users[username]['password']] raises when
    the entry has no password. *)
Definition credentials_match (users : dict (dict value)) (username password : value)
  : exn + option (string * dict value) :=
  match username with
  | VStr u =>
      match get u users with
      | None => inr None
      | Some entry =>
          match get "password" entry with
          | None => inl (KeyError "password")
          | Some p => if value_eqb p password then inr (Some (u, entry)) else inr None
          end
      end
  | _ => inr None
  end.

(** What a login attempt leaves: the session, the store (its flashes),
    the reply. *)
Record login_result : Type := mkLogin {
  lr_cookie : cookie;
  lr_store : store;
  lr_reply : reply
}.

(** The session of a student who has logged in. *)
Definition student_cookie (u : string) (st : store) : cookie :=
  let profile := match get u (student_profile_data st) with
                 | Some p => p | None => row_of [] end in
  [("user_id", VStr u); ("role", VStr "student");
   ("name", rget_def "firstName" (VStr "Student") profile)].

(** The faculty branch of [login]: the session is filled key by key, and
    [faculty_users[username]['name']] can raise after the first two. *)
Definition faculty_login (u : string) (entry : dict value) (st : store)
  : login_result :=
  match get "name" entry with
  | None => mkLogin [("user_id", VStr u); ("role", VStr "faculty")] st
                    (Crash (KeyError "name"))
  | Some n => mkLogin [("user_id", VStr u); ("role", VStr "faculty"); ("name", n)]
                      st (Redirect "faculty_dashboard")
  end.

(** The [/login] route; [session.clear()] comes first, so every outcome
    starts from the empty session. *)
Definition login (f : form) (st : store) : login_result :=
  let username := form_get "username" f in
  let password := form_get "password" f in
  match credentials_match faculty_users username password with
  | inl e => mkLogin [] st (Crash e)
  | inr (Some (u, entry)) => faculty_login u entry st
  | inr None =>
      match credentials_match (student_login_data st) username password with
      | inl e => mkLogin [] st (Crash e)
      | inr (Some (u, _)) =>
          mkLogin (student_cookie u st) st (Redirect "student_dashboard")
      | inr None =>
          mkLogin [] (flash "Invalid username or password" "error" st)
                  (Redirect "index")
      end
  end.

(** The [/logout] route. *)
Definition logout (st : store) : login_result :=
  mkLogin [] (flash "You have been logged out." "success" st) (Redirect "index").

(** ** Rosters *)

(** [sorted(l)] on strings. *)
Fixpoint insert_str (x : string) (l : list string) : list string :=
  match l with
  | [] => [x]
  | y :: l' => if String.ltb x y then x :: y :: l' else y :: insert_str x l'
  end.

Definition sorted_str (l : list string) : list string :=
  fold_left (fun acc x => insert_str x acc) l [].

Record roster_line : Type := mkRosterLine {
  rl_id : string;
  rl_name : string
}.

(** The loop that builds a roster: the students of the list that have a
    profile, with a name built from [missing] where a field is absent. *)
Definition roster_of (missing : string) (ids : list string) (st : store)
  : list roster_line :=
  flat_map
    (fun student_id =>
       let profile := get student_id (student_profile_data st) in
       if row_falsy profile then []
       else match profile with
            | Some p =>
                [mkRosterLine student_id
                   (fmt_value (rget_def "firstName" (VStr missing) p) ++ " "
                    ++ fmt_value (rget_def "lastName" (VStr missing) p))]
            | None => []
            end)
    ids.

(** The [/api/get_roster/<course_name>] route: [None] is the 403 answer. *)
Definition get_roster_api (sess : session) (course_name : string) (st : store)
  : option (list roster_line) :=
  if negb (check_faculty_auth sess) then None
  else
    let safe_course_name := replace "+" " " course_name in
    let student_ids_in_course := students_of_course (VStr safe_course_name) st in
    Some (roster_of "N/A" (sorted_str student_ids_in_course) st).

Record roster_page : Type := mkRosterPage {
  rp_course_name : string;
  rp_roster : list (roster_line * value);     (* with the email *)
  rp_available_students : list roster_line
}.

(** The [/course_roster/<course_name>] route. *)
Definition course_roster (sess : session) (course_name : string) (st : store)
  : response roster_page :=
  if negb (check_faculty_auth sess) then Redirect "index"
  else
    let s_name := replace "+" " " course_name in
    let ids_in_course := students_of_course (VStr s_name) st in
    let roster_display :=
      flat_map
        (fun sid =>
           let profile := get sid (student_profile_data st) in
           if row_falsy profile then []
           else match profile with
                | Some p =>
                    [(mkRosterLine sid
                        (fmt_value (rget_def "firstName" (VStr "?") p) ++ " "
                         ++ fmt_value (rget_def "lastName" (VStr "?") p)),
                      rget_def "email" (VStr "?") p)]
                | None => []
                end)
        (sorted_str ids_in_course) in
    let all_student_ids :=
      fold_left (fun acc k => set_add k acc) (keys (student_profile_data st)) [] in
    let eligible_ids :=
      filter (fun sid => negb (str_in sid ids_in_course)) all_student_ids in
    Render "course_roster.html"
      (mkRosterPage s_name roster_display
         (roster_of "?" (sorted_str eligible_ids) st)).

(** ** [create_course] *)

(** The [/create_course] route: nothing is stored. *)
Definition create_course (sess : session) (f : form) (st : store) : store * reply :=
  if negb (check_faculty_auth sess) then (st, Redirect "index")
  else
    let course_name := form_get "courseName" f in
    let course_code := form_get "courseCode" f in
    if negb (truthy course_name) || negb (truthy course_code)
    then (flash "Course Name and Code are required." "error" st,
          Redirect "add_course")
    else (flash ("Course '" ++ fmt_value course_name ++ "' ("
                   ++ fmt_value course_code
                   ++ ") added conceptually (not saved persistently).")
                "success" st,
          Redirect "manage_courses").

(** ** [faculty_dashboard], [my_courses], the gradebook and the log *)

Section MoreViews.
Variable py_float : string -> option Q.














(** [sorted(l, key=key, reverse=True)]: stable, largest key first. *)
Fixpoint insert_desc {A : Type} (key : A -> value) (x : A) (l : list A)
  : exn + list A :=
  match l with
  | [] => inr [x]
  | y :: l' =>
      match value_lt (key y) (key x) with
      | inl e => inl e
      | inr true => inr (x :: y :: l')
      | inr false =>
          match insert_desc key x l' with
          | inl e => inl e
          | inr r => inr (y :: r)
          end
      end
  end.

Fixpoint sorted_desc_from {A : Type} (key : A -> value) (l : list A) (acc : list A)
  : exn + list A :=
  match l with
  | [] => inr acc
  | x :: l' =>
      match insert_desc key x acc with
      | inl e => inl e
      | inr acc' => sorted_desc_from key l' acc'
      end
  end.

Definition sorted_desc {A : Type} (key : A -> value) (l : list A) : exn + list A :=
  sorted_desc_from key l [].

(** [sorted([r for r in records if r.get(field)], key=lambda x: x[field],
    reverse=True)] *)
Definition dated (field : string) (records : list row) : exn + list row :=
  sorted_desc (rget field) (filter (fun r => truthy (rget field r)) records).

(** The [/student_gradebook/<student_id>] route. *)
Definition student_gradebook (sess : session) (student_id : string) (st : store)
  : store * response (row * list row) :=
  if negb (check_faculty_auth sess) then (st, Redirect "index")
  else
    match get student_id (student_profile_data st) with
    | Some profile =>
        if row_falsy (Some profile) then
          (flash ("Student '" ++ student_id ++ "' not found.") "error" st,
           Redirect "manage_students")
        else
          match dated "dateGraded"
                  (records_of student_id (student_grades_data st)) with
          | inr sorted_grades =>
              (st, Render "student_gradebook.html" (profile, sorted_grades))
          | inl e => (st, Crash e)
          end
    | None =>
        (flash ("Student '" ++ student_id ++ "' not found.") "error" st,
         Redirect "manage_students")
    end.

(** The [/student_attendance_log/<student_id>] route. *)
Definition student_attendance_log (sess : session) (student_id : string)
    (st : store) : store * response (row * list row) :=
  if negb (check_faculty_auth sess) then (st, Redirect "index")
  else
    match get student_id (student_profile_data st) with
    | Some profile =>
        if row_falsy (Some profile) then
          (flash ("Student '" ++ student_id ++ "' not found.") "error" st,
           Redirect "manage_students")
        else
          match dated "date"
                  (records_of student_id (student_attendance_data st)) with
          | inr sorted_log =>
              (st, Render "student_attendance_log.html" (profile, sorted_log))
          | inl e => (st, Crash e)
          end
    | None =>
        (flash ("Student '" ++ student_id ++ "' not found.") "error" st,
         Redirect "manage_students")
    end.

End MoreViews.

(** ** [upload_attendance_data] *)

Section MoreUploads.
Variable secure_filename : string -> string.

(** The [/upload-attendance-data] route. *)
Definition upload_attendance_data (sess : session) (file : option upload)
    (st : store) : store * reply :=
  if negb (check_faculty_auth sess) then (st, Unauthorized)
  else
    match file with
    | None => (flash "No selected file for attendance data" "error" st,
               Redirect "upload_data")
    | Some u =>
        if String.eqb (filename u) "" then
          (flash "No selected file for attendance data" "error" st,
           Redirect "upload_data")
        else if endswith ".csv" (filename u) then
          let filepath := path_join UPLOAD_FOLDER (secure_filename (filename u)) in
          match save_upload secure_filename filepath u (files st) with
          | inl e =>
              let st1 := flash ("Error processing attendance data file: " ++ str_exn e)
                               "error" st in
              (if contains filepath (files st1)
               then set_files (pop filepath (files st1)) st1 else st1,
               Redirect "upload_data")
          | inr fsys =>
              let st1 := set_files fsys st in
              let ld := state_of (load_data_from_csv true (files st1) filepath
                                    (student_attendance_data st1) "studentId"
                                    (printed st1)) in
              let st2 := set_printed (snd ld) (set_attendance (fst ld) st1) in
              let st3 := set_files (pop filepath (files st2)) st2 in
              (flash "Attendance data uploaded successfully!" "success" st3,
               Redirect "upload_data")
          end
        else
          (flash "Invalid file type for attendance data. Please upload a .csv file."
                 "error" st,
           Redirect "upload_data")
    end.

End MoreUploads.

(** ** The later revision of [app.py] *)

Module Revised.

(** The [/login] route of the revision: the form carries the role. *)
Definition login (f : form) (st : store) : login_result :=
  let username := form_get "username" f in
  let password := form_get "password" f in
  let submitted_role := form_get_def "role" "student" f in
  let failed :=
    mkLogin [] (flash ("Invalid " ++ submitted_role ++ " username or password")
                      "error" st)
            (Redirect "index") in
  if String.eqb submitted_role "faculty" then
    match credentials_match faculty_users username password with
    | inl e => mkLogin [] st (Crash e)
    | inr (Some (u, entry)) => faculty_login u entry st
    | inr None => failed
    end
  else if String.eqb submitted_role "student" then
    match credentials_match (student_login_data st) username password with
    | inl e => mkLogin [] st (Crash e)
    | inr (Some (u, _)) =>
        mkLogin (student_cookie u st) st (Redirect "student_dashboard")
    | inr None => failed
    end
  else failed.

Section Views.
Variable py_float : string -> option Q.

(** One iteration of the grade loop of the revised [student_dashboard]. *)
Definition dashboard_step (acc : Q * nat * vdict subject_sum) (g : row)
  : Q * nat * vdict subject_sum :=
  let score_str := rget "score" g in
  let subj := rget_def "courseName" (VStr "?") g in
  if is_None score_str || negb (truthy subj) then acc
  else
    match float_of py_float score_str with
    | None => acc
    | Some score =>
        let subjects := snd acc in
        let subjects0 := match vget subj subjects with
                         | Some _ => subjects
                         | None => vset subj (mkSubjectSum 0 0) subjects
                         end in
        let t := sum_at subj subjects0 in
        (fst (fst acc) + score, S (snd (fst acc)),
         vset subj (mkSubjectSum (sum_total t + score) (S (sum_count t))) subjects0)
    end.

(** The chain of conditional expressions that words the percentage. *)
Definition attendance_description (perc : Z) (total_classes : nat) : string :=
  if Z.leb 90 perc then "Excellent"
  else if Z.leb 80 perc then "Good"
  else if Z.leb 70 perc then "Needs Improvement"
  else match total_classes with O => "N/A" | S _ => "Poor" end.

Record dashboard_page : Type := mkDashboardPage {
  dp_overall_grade : Q;
  dp_chart_labels : list value;
  dp_chart_scores : list Q;
  dp_overall_attendance : Z;
  dp_attendance_description : string
}.

Definition dashboard_analytics (grades_list attendance_log : list row)
  : dashboard_page :=
  let acc := fold_left dashboard_step grades_list (0, O, []) in
  let total_score := fst (fst acc) in
  let valid_grade_count := snd (fst acc) in
  let subjects := snd acc in
  let overall_grade := match valid_grade_count with
                       | O => 0
                       | S _ => py_round2 (total_score / Q_of_nat valid_grade_count)
                       end in
  let total_classes := List.length attendance_log in
  let present_count := count_attended attendance_log in
  let overall_attendance_perc := py_round (percent_of present_count total_classes) in
  mkDashboardPage overall_grade (map fst subjects)
    (map (fun kv : value * subject_sum =>
            match sum_count (snd kv) with
            | O => 0
            | S _ => py_round2 (sum_total (snd kv) / Q_of_nat (sum_count (snd kv)))
            end) subjects)
    overall_attendance_perc
    (attendance_description overall_attendance_perc total_classes).

(** The [/student_dashboard] route of the revision (the three most recent
    grades, a date-sorted slice, are left out). *)
Definition student_dashboard (sess : session) (st : store)
  : response dashboard_page :=
  if negb (check_student_auth sess) then Redirect "index"
  else
    match user_id sess with
    | None => Crash (KeyError "user_id")
    | Some student_id =>
        Render "student_dashboard.html"
          (dashboard_analytics (records_of student_id (student_grades_data st))
                               (records_of student_id (student_attendance_data st)))
    end.

End Views.

End Revised.

(* ================================================================= *)
(** ** Vocabulary for the properties of the handlers *)

(** The session a request is made with. *)
Definition op_session (op : operation) : session :=
  match op with
  | OpCreateStudent sess _ => sess
  | OpUpdateStudent sess _ _ => sess
  | OpDeleteStudent sess _ => sess
  | OpUploadStudents sess _ => sess
  | OpUploadGrades sess _ => sess
  | OpSubmitAttendance sess _ => sess
  | OpEnrollStudent sess _ _ _ => sess
  | OpUpdateCourse sess _ _ => sess
  end.

(** *** Files and their lines *)

(** Every line of the file can be decoded and parsed. *)
Definition readable (ls : list line) : bool :=
  forallb (fun l => match l with Row _ => true | Garbled => false end) ls.

(** The non-blank lines, as lists of cells. *)
Definition data_rows (ls : list line) : list (list string) :=
  flat_map (fun l => match l with
                     | Row [] => []
                     | Row cs => [cs]
                     | Garbled => []
                     end) ls.

(** The line holds [k] in the key column. *)
Definition keyed (key_field : string) (fieldnames : list string) (k : string)
    (cs : list string) : bool :=
  value_eqb (rget key_field (dictreader_row fieldnames cs)) (VStr k).

(** The last element of a list, if any. *)
Definition last_of {A : Type} (l : list A) : option A :=
  match rev l with [] => None | x :: _ => Some x end.

(** The lines of a file, none when it does not exist. *)
Definition lines_at (p : string) (fsys : filesystem) : list line :=
  match get p fsys with Some f => lines f | None => [] end.

(** *** Student creation *)






(** *** Logging in *)

(** The login form. *)
Definition login_form (username password : string) : form :=
  [("username", username); ("password", password)].

(** The entry of [users] that [username] and [password] match. *)
Definition matches (users : dict (dict value)) (f : form) (u : string) : Prop :=
  form_get "username" f = VStr u
  /\ exists entry, get u users = Some entry
                   /\ get "password" entry = Some (form_get "password" f).

(** *** Rosters *)

(** The student has a grade or an attendance record of the course. *)
Definition has_record_in (name : value) (sid : string) (st : store) : Prop :=
  exists (recs : list row) (r : row),
    (In (sid, recs) (student_grades_data st)
     \/ In (sid, recs) (student_attendance_data st))
    /\ In r recs /\ rget "courseName" r = name.

(** The student has a profile that is not the empty dictionary. *)
Definition has_profile (sid : string) (st : store) : bool :=
  negb (row_falsy (get sid (student_profile_data st))).

(** Each string is below the next one. *)
Fixpoint ascending (l : list string) : bool :=
  match l with
  | x :: (y :: _) as l' => String.ltb x y && ascending l'
  | _ => true
  end.

(** The name a roster shows for a profile. *)
Definition roster_name (missing : string) (p : row) : string :=
  fmt_value (rget_def "firstName" (VStr missing) p) ++ " "
  ++ fmt_value (rget_def "lastName" (VStr missing) p).

(** Ann attends Math, a grade in Math is stored for S2, who has no
    profile; Cy has a profile and no record. *)
Definition demo_store_roster : store :=
  mkStore [("S1", demo_login); ("S3", demo_login)]
          [("S1", demo_profile "S1" "Ann" "Lee"); ("S3", demo_profile "S3" "Cy" "Ng")]
          [("S2", [demo_grade "81"])]
          [("S1", [demo_attendance "S1" "Math" "2024-01-10" "Present"])]
          [] [] [] [].

(** *** Enrollment *)

(** The stored data, everything but the messages, is the same. *)
Definition same_data (st st' : store) : Prop :=
  student_login_data st' = student_login_data st
  /\ student_profile_data st' = student_profile_data st
  /\ student_grades_data st' = student_grades_data st
  /\ student_attendance_data st' = student_attendance_data st
  /\ course_data st' = course_data st
  /\ files st' = files st.

(** The conditions under which [enroll_student] goes through: a faculty
    session, both fields filled, the faculty member authorized for the
    course, the student known and without a record of the course, and
    [attendance.csv] open to writing. *)
Definition enrollable (sess : session) (f : form) (st : store) : bool :=
  check_faculty_auth sess
  && match get "course_name" f, get "student_id_to_add" f with
     | Some c, Some s =>
         negb (String.eqb c "") && negb (String.eqb s "")
         && is_faculty_authorized_for_course (course_data st)
              (session_value (user_id sess)) (VStr c)
         && contains s (student_profile_data st)
         && negb (has_course (VStr c) (records_of s (student_grades_data st)))
         && negb (has_course (VStr c) (records_of s (student_attendance_data st)))
         && writable ATTENDANCE_CSV (files st)
     | _, _ => false
     end.

(** The placeholder record of an enrollment. *)
Definition enrollment_record (sess : session) (today_date c s : string) : row :=
  row_of [("studentId", VStr s); ("courseName", VStr c);
          ("date", VStr today_date); ("status", VStr "Present");
          ("instructor",
           VStr (match user_name sess with Some n => n | None => "?" end))].

(** What an enrollment that went through has done. *)
Definition enrolled (sess : session) (today_date : string) (f : form)
    (st st' : store) : Prop :=
  exists c s : string,
    get "course_name" f = Some c /\ get "student_id_to_add" f = Some s
    /\ student_attendance_data st'
       = setitem s (records_of s (student_attendance_data st)
                      ++ [enrollment_record sess today_date c s])
           (student_attendance_data st)
    /\ get ATTENDANCE_CSV (files st')
       = Some (mkFile false
                 (lines_at ATTENDANCE_CSV (files st)
                  ++ (match lines_at ATTENDANCE_CSV (files st) with
                      | [] => [writeheader ATTENDANCE_HEADERS]
                      | _ :: _ => []
                      end)
                  ++ [dictwriter_row ATTENDANCE_HEADERS
                        (enrollment_record sess today_date c s)]))
    /\ (forall p, p <> ATTENDANCE_CSV -> get p (files st') = get p (files st))
    /\ student_login_data st' = student_login_data st
    /\ student_profile_data st' = student_profile_data st
    /\ student_grades_data st' = student_grades_data st
    /\ course_data st' = course_data st.

(** Prof. Davis enrolls Bo in Math. *)
Definition demo_enroll_form : form :=
  [("course_name", "Math"); ("student_id_to_add", "S2")].

(** *** Counted scores and bands *)


Section Counted.
Variable py_float : string -> option Q.



End Counted.




(** *** The attendance page *)

(** What holds of the tally of a subject. *)
Definition tally_ok (t : subject_tally) : Prop :=
  (tally_present t <= tally_total t)%nat /\ (1 <= tally_total t)%nat.

(** What holds of a line of the per-subject summary. *)
Definition subject_line_sound (l : subject_line) : Prop :=
  (sl_attended l <= sl_total l)%nat
  /\ (1 <= sl_total l)%nat
  /\ (0 <= sl_percentage l <= 100)%Z.

(** A log with one record of each status, and one without a course. *)
Definition demo_log : list row :=
  [demo_attendance "S1" "Math" "2024-01-10" "Present";
   demo_attendance "S1" "Math" "2024-01-11" "Absent";
   demo_attendance "S1" "Art" "2024-01-12" "Late";
   demo_attendance "S1" "" "2024-01-13" "Present"].

(** *** The revised dashboard *)

Section RevisedCounted.
Variable py_float : string -> option Q.


End RevisedCounted.

(** *** Uploads *)

(** Where an upload is saved. *)
Definition upload_path (secure_filename : string -> string) (u : upload) : string :=
  path_join UPLOAD_FOLDER (secure_filename (filename u)).

(** The files after an upload: nothing is left at [path], every other
    file is what it was. *)
Definition upload_cleaned (path : string) (st st' : store) : Prop :=
  get path (files st') = None
  /\ forall p, p <> path -> get p (files st') = get p (files st).

(** An upload whose header has no [studentId] column. *)
Definition demo_upload : upload :=
  mkUpload "marks.csv" [Row ["id"; "score"]; Row ["S1"; "90"]].

(** *** Course and student updates *)

Section CourseUpdate.
Variable py_int : string -> option Z.



End CourseUpdate.



(** *** Dated records *)

(** No element is below the next one: the list is in descending order of
    [key]. *)
Fixpoint descending {A : Type} (key : A -> value) (l : list A) : Prop :=
  match l with
  | x :: (y :: _) as l' => value_lt (key x) (key y) = inr false /\ descending key l'
  | _ => True
  end.

(** Three grades of Ann, one of them without a date. *)
Definition demo_dated_grades : list row :=
  [demo_grade "70";
   rset "dateGraded" (VStr "2024-03-01") (demo_grade "80");
   rset "dateGraded" (VStr "") (demo_grade "90")].

(** *** The students file at start-up *)


(** *** The pass/fail chart and the course list *)

Section CourseScores.
Variable py_float : string -> option Q.



End CourseScores.





(** *** Student updates *)


(** *** The attendance file at start-up *)




(* ================================================================= *)
(** * Properties *)

(** ** Dictionaries *)

Lemma get_setitem_eq {V : Type} (k : string) (v : V) (d : dict V) :
  get k (setitem k v d) = Some v.
Proof.
  induction d as [|[k' v'] d IH]; simpl.
  - now rewrite String.eqb_refl.
  - destruct (String.eqb k k') eqn:E; simpl; rewrite E; auto.
Qed.

Lemma get_setitem_neq {V : Type} (k k' : string) (v : V) (d : dict V) :
  k <> k' -> get k (setitem k' v d) = get k d.
Proof.
  intros Hne. induction d as [|[k2 v2] d IH]; simpl.
  - apply String.eqb_neq in Hne. now rewrite Hne.
  - destruct (String.eqb k' k2) eqn:E; simpl.
    + apply String.eqb_eq in E. subst k2.
      apply String.eqb_neq in Hne. now rewrite Hne.
    + destruct (String.eqb k k2); auto.
Qed.

Lemma get_setitem {V : Type} (k k' : string) (v : V) (d : dict V) :
  get k (setitem k' v d) = if String.eqb k k' then Some v else get k d.
Proof.
  destruct (String.eqb k k') eqn:E.
  - apply String.eqb_eq in E. subst. apply get_setitem_eq.
  - apply String.eqb_neq in E. now apply get_setitem_neq.
Qed.

Lemma get_pop_eq {V : Type} (k : string) (d : dict V) :
  get k (pop k d) = None.
Proof.
  induction d as [|[k' v'] d IH]; simpl; auto.
  destruct (String.eqb k k') eqn:E; simpl; auto. now rewrite E.
Qed.

Lemma get_pop_neq {V : Type} (k k' : string) (d : dict V) :
  k <> k' -> get k (pop k' d) = get k d.
Proof.
  intros Hne. induction d as [|[k2 v2] d IH]; simpl; auto.
  destruct (String.eqb k' k2) eqn:E; simpl.
  - apply String.eqb_eq in E. subst k2.
    apply String.eqb_neq in Hne. now rewrite Hne.
  - destruct (String.eqb k k2); auto.
Qed.

Lemma get_None_not_in {V : Type} (k : string) (d : dict V) :
  get k d = None <-> ~ In k (keys d).
Proof.
  induction d as [|[k' v'] d IH]; simpl.
  - tauto.
  - destruct (String.eqb k k') eqn:E.
    + apply String.eqb_eq in E. subst. split; [discriminate | tauto].
    + apply String.eqb_neq in E. rewrite IH. split.
      * intros H [H1 | H1]; [congruence | tauto].
      * tauto.
Qed.

Lemma setitem_fresh {V : Type} (k : string) (v : V) (d : dict V) :
  ~ In k (keys d) -> setitem k v d = d ++ [(k, v)].
Proof.
  induction d as [|[k' v'] d IH]; simpl; intros H; auto.
  destruct (String.eqb k k') eqn:E.
  - apply String.eqb_eq in E. subst. tauto.
  - f_equal. apply IH. tauto.
Qed.

Lemma keys_setitem_present {V : Type} (k : string) (v : V) (d : dict V) :
  In k (keys d) -> keys (setitem k v d) = keys d.
Proof.
  induction d as [|[k' v'] d IH]; simpl; intros H; [tauto|].
  destruct (String.eqb k k') eqn:E; simpl; auto.
  f_equal. apply IH. destruct H as [H | H]; auto.
  subst. now rewrite String.eqb_refl in E.
Qed.

Lemma NoDup_keys_setitem {V : Type} (k : string) (v : V) (d : dict V) :
  NoDup (keys d) -> NoDup (keys (setitem k v d)).
Proof.
  intros H. destruct (in_dec string_dec k (keys d)) as [Hin | Hout].
  - now rewrite keys_setitem_present.
  - rewrite (setitem_fresh _ _ _ Hout). unfold keys. rewrite map_app. simpl.
    apply NoDup_app; auto.
    + constructor; [tauto | constructor].
    + intros x Hx [Hx' | []]. subst. tauto.
Qed.

Lemma keys_pop_subset {V : Type} (k x : string) (d : dict V) :
  In x (keys (pop k d)) -> In x (keys d).
Proof.
  induction d as [|[k' v'] d IH]; simpl; auto.
  destruct (String.eqb k k'); simpl; tauto.
Qed.

Lemma NoDup_keys_pop {V : Type} (k : string) (d : dict V) :
  NoDup (keys d) -> NoDup (keys (pop k d)).
Proof.
  induction d as [|[k' v'] d IH]; simpl; intros H; auto.
  inversion H; subst. destruct (String.eqb k k'); simpl; auto.
  constructor; auto. intros Hin. apply keys_pop_subset in Hin. tauto.
Qed.

Lemma str_in_In (s : string) (l : list string) :
  str_in s l = true <-> In s l.
Proof.
  unfold str_in. rewrite existsb_exists. split.
  - intros [x [Hx E]]. apply String.eqb_eq in E. now subst.
  - intros H. exists s. split; auto. apply String.eqb_refl.
Qed.

Lemma value_eqb_eq (a b : value) : value_eqb a b = true <-> a = b.
Proof.
  destruct a, b; simpl; split; intros H; try discriminate; try reflexivity.
  - apply String.eqb_eq in H. now subst.
  - inversion H. apply String.eqb_refl.
  - apply Z.eqb_eq in H. now subst.
  - inversion H. apply Z.eqb_refl.
Qed.

Lemma value_eqb_refl (a : value) : value_eqb a a = true.
Proof. now apply value_eqb_eq. Qed.

Lemma value_in_In (v : value) (l : list value) :
  value_in v l = true <-> In v l.
Proof.
  unfold value_in. rewrite existsb_exists. split.
  - intros [x [Hx E]]. apply value_eqb_eq in E. now subst.
  - intros H. exists v. split; auto. apply value_eqb_refl.
Qed.

(* ================================================================= *)
(** ** The loader (C9) *)



(** The loader never raises, whatever the file holds. *)
Lemma load_data_from_csv_returns :
  forall (is_list : bool) (fsys : filesystem) (filepath key_field : string)
         (data_dict : dict (slot is_list)) (out : list message),
    exists st, load_data_from_csv is_list fsys filepath data_dict key_field out
               = Done st.
Proof.
  intros. unfold load_data_from_csv, try_except.
  destruct (load_body is_list fsys filepath data_dict key_field out); eauto.
Qed.

(** A line that cannot be decoded after the header has been accepted is
    met when the mapping has already been cleared: the rows read so far
    replace the previous contents. *)
Example load_garbled_after_header :
  load_data_from_csv false
    [("students.csv", mkFile false [Row ["studentId"]; Row ["S2"]; Garbled])]
    "students.csv" [("S1", row_of [("studentId", VStr "S1")])] "studentId" []
  = Done ([("S2", row_of [("studentId", VStr "S2")])],
          [ErrLoading "students.csv" (UnicodeDecodeError "students.csv")]).
Proof. reflexivity. Qed.

(* ================================================================= *)
(** ** Attendance percentage (C1) *)

(** The faculty per-student view computes the specified percentage. *)
Lemma view_student_attendance_as_specified :
  forall (py_float : string -> option Q) (grades att_log : list row),
    sv_overall_attendance (view_student_analytics py_float grades att_log)
    = attendance_percentage_spec att_log.
Proof.
  intros py_float gs att_log. unfold view_student_analytics.
  destruct (fold_left (view_student_step py_float) gs (0, 0%nat)) as [t c].
  reflexivity.
Qed.

(** The faculty student listing computes the specified percentage. *)
Lemma manage_students_attendance_as_specified :
  forall (py_float : string -> option Q) (st : store) (student_id : string)
         (profile : row),
    st_attendance (manage_students_line py_float st student_id profile)
    = attendance_percentage_spec
        (match get student_id (student_attendance_data st) with
         | Some l => l | None => [] end).
Proof.
  intros. unfold manage_students_line.
  destruct (fold_left (valid_grade_step py_float) _ (0, 0%nat)) as [t c].
  reflexivity.
Qed.

Lemma attendance_step_present_count (acc : attendance_acc) (record : row) :
  present_count (attendance_step acc record)
  = (present_count acc + (if counted_present record then 1 else 0))%nat.
Proof.
  unfold attendance_step, counted_present.
  destruct (truthy (rget "courseName" record)); simpl; [|lia].
  destruct (rget "status" record) as [|s|z]; simpl; try lia.
  2: { destruct (Z.eqb z 0); simpl; lia. }
  destruct (String.eqb s "") eqn:E; simpl.
  - apply String.eqb_eq in E. subst. simpl. lia.
  - destruct (String.eqb s "Present") eqn:EP; simpl; [lia|].
    destruct (String.eqb s "Absent"); simpl; [lia|].
    destruct (String.eqb s "Late"); simpl; lia.
Qed.

Lemma attendance_fold_present_count (l : list row) (acc : attendance_acc) :
  present_count (fold_left attendance_step l acc)
  = (present_count acc + List.length (filter counted_present l))%nat.
Proof.
  revert acc. induction l as [|r l IH]; intros acc; simpl; [lia|].
  rewrite IH, attendance_step_present_count.
  destruct (counted_present r); simpl; lia.
Qed.

(** The overall percentage of the student's attendance page divides the
    number of ['Present'] records by the length of the log: a ['Late']
    record is in the denominator only. *)
Lemma attendance_page_overall :
  forall attendance_log : list row,
    ap_overall_perc (attendance_analytics attendance_log)
    = py_round (percent_of (List.length (filter counted_present attendance_log))
                           (List.length attendance_log)).
Proof.
  intros. unfold attendance_analytics. simpl.
  now rewrite attendance_fold_present_count.
Qed.

(** C1. One attendance record with status ['Late']: the specified
    percentage is 100, and the faculty per-student view and the faculty
    listing report 100, but the student's attendance page reports 0 (its
    per-subject line, on the same page, reports 100). *)
Theorem attendance_page_leaves_late_out :
  attendance_percentage_spec demo_late_log = 100%Z
  /\ sv_overall_attendance (view_student_analytics decimal_float [] demo_late_log)
     = 100%Z
  /\ st_attendance
       (manage_students_line decimal_float
          (set_attendance [("S1", demo_late_log)] demo_store) "S1"
          (demo_profile "S1" "Ann" "Lee")) = 100%Z
  /\ attendance demo_student (set_attendance [("S1", demo_late_log)] demo_store)
     = Render "attendance.html"
         (mkAttendancePage 0 0 0 1 1 [mkSubjectLine (VStr "Math") 100 1 1]).
Proof. vm_compute. repeat split; reflexivity. Qed.

(* ================================================================= *)
(** ** Average score (C2) *)

Lemma valid_grade_fold (py_float : string -> option Q) (l : list row)
    (acc : Q * nat) :
  fold_left (valid_grade_step py_float) l acc
  = (fold_left Qplus (numeric_scores py_float l) (fst acc),
     (snd acc + List.length (numeric_scores py_float l))%nat).
Proof.
  revert acc. induction l as [|g l IH]; intros [t c]; simpl.
  - f_equal. lia.
  - rewrite IH. unfold valid_grade_step.
    destruct (rget "score" g) as [|s|z]; simpl.
    + f_equal.
    + destruct (py_float s); simpl; f_equal. lia.
    + f_equal. lia.
Qed.

(** The faculty student listing reports the specified average. *)
Lemma manage_students_grade_as_specified :
  forall (py_float : string -> option Q) (st : store) (student_id : string)
         (profile : row),
    st_grade (manage_students_line py_float st student_id profile)
    = py_round2 (average_score_spec py_float
                   (match get student_id (student_grades_data st) with
                    | Some l => l | None => [] end)).
Proof.
  intros. unfold manage_students_line. rewrite valid_grade_fold. reflexivity.
Qed.

Lemma grades_fold (py_float : string -> option Q) (l : list row)
    (acc : grades_acc) :
  ga_total_score (fold_left (grades_step py_float) l acc)
  = fold_left Qplus (numeric_scores py_float l) (ga_total_score acc)
  /\ ga_valid_grade_count (fold_left (grades_step py_float) l acc)
     = (ga_valid_grade_count acc + List.length (numeric_scores py_float l))%nat.
Proof.
  revert acc. induction l as [|g l IH]; intros acc; simpl.
  - split; auto.
  - destruct (IH (grades_step py_float acc g)) as [H1 H2]. rewrite H1, H2.
    unfold grades_step.
    destruct (rget "score" g) as [|s|z]; simpl.
    + split; auto.
    + destruct (py_float s); simpl; split; auto; lia.
    + split; auto; lia.
Qed.

(** The student's grades page reports the specified average. *)
Lemma grades_page_as_specified :
  forall (py_float : string -> option Q) (profile : row) (grades : list row),
    gp_overall_grade (grades_analytics py_float profile grades)
    = py_round2 (average_score_spec py_float grades).
Proof.
  intros py_float profile gs. unfold grades_analytics, average_score_spec. cbv zeta.
  destruct (grades_fold py_float gs (mkGradesAcc 0 0 (0, "N/A") (101, "N/A")))
    as [H1 H2].
  simpl. rewrite H1, H2. reflexivity.
Qed.

Lemma dashboard_fold (py_float : string -> option Q) (l : list row)
    (acc : Q * vdict subject_sum) :
  fst (fold_left (dashboard_step py_float) l acc)
  = fold_left Qplus (numeric_scores py_float l) (fst acc).
Proof.
  revert acc. induction l as [|g l IH]; intros acc; simpl; auto.
  rewrite IH. unfold dashboard_step.
  destruct (rget "score" g) as [|s|z]; simpl; auto.
  destruct (py_float s); simpl; auto.
Qed.

(** The student dashboard divides the sum of the numeric scores by the
    number of all grade records, numeric or not. *)
Lemma dashboard_overall :
  forall (py_float : string -> option Q) (grades : list row),
    dp_overall_grade (dashboard_analytics py_float grades)
    = py_round2 (mean_of (fold_left Qplus (numeric_scores py_float grades) 0)
                         (List.length grades)).
Proof.
  intros py_float gs. unfold dashboard_analytics.
  pose proof (dashboard_fold py_float gs (0, [])) as H.
  destruct (fold_left (dashboard_step py_float) gs (0, [])) as [t s].
  simpl in *. now rewrite H.
Qed.

(** C2. Scores ["85"] and ["abc"] for one student: the specified average
    skips the second record and is 85, as the grades page and the
    faculty listing report; the dashboard reports 42.5.  With ["85"] and
    ["95"] every view reports 90. *)
Theorem dashboard_counts_skipped_scores :
  average_score_spec decimal_float [demo_grade "85"; demo_grade "abc"] == 85
  /\ gp_overall_grade
       (grades_analytics decimal_float (demo_profile "S1" "Ann" "Lee")
          [demo_grade "85"; demo_grade "abc"]) == 85
  /\ st_grade
       (manage_students_line decimal_float
          (demo_store_grades [demo_grade "85"; demo_grade "abc"]) "S1"
          (demo_profile "S1" "Ann" "Lee")) == 85
  /\ dp_overall_grade
       (dashboard_analytics decimal_float [demo_grade "85"; demo_grade "abc"])
     == 85 # 2
  /\ dp_overall_grade
       (dashboard_analytics decimal_float [demo_grade "85"; demo_grade "95"]) == 90
  /\ gp_overall_grade
       (grades_analytics decimal_float (demo_profile "S1" "Ann" "Lee")
          [demo_grade "85"; demo_grade "95"]) == 90
  /\ st_grade
       (manage_students_line decimal_float
          (demo_store_grades [demo_grade "85"; demo_grade "95"]) "S1"
          (demo_profile "S1" "Ann" "Lee")) == 90.
Proof. vm_compute. repeat split; reflexivity. Qed.

(* ================================================================= *)
(** ** Faculty authorization (C10) *)

Lemma authorized_in_find (courses : dict row) (faculty_id course_name : value) :
  authorized_in courses faculty_id course_name
  = match find (course_matches course_name) courses with
    | None => true
    | Some (_, details) =>
        if truthy (rget "facultyId" details)
        then value_eqb (rget "facultyId" details) faculty_id
        else true
    end.
Proof.
  induction courses as [|[code details] rest IH]; simpl; auto.
  unfold course_matches at 1. simpl.
  destruct (truthy (rget "courseName" details)
            && value_eqb (rget "courseName" details) course_name); auto.
Qed.

(** C10. [is_faculty_authorized_for_course] is [False] when the faculty id
    or the course name is empty.  Otherwise it is [True] when no entry of
    the course mapping has that course name, [True] when the first entry
    that has it carries no faculty id, and, when that entry carries one,
    [True] exactly when it equals the given faculty id.  Hence a logged-in
    faculty member who submits an existing, not yet associated student
    for an inferred or unassigned course gets the placeholder attendance
    record stored. *)
Theorem faculty_authorization :
  (forall (courses : dict row) (faculty_id course_name : value),
      (truthy faculty_id = false \/ truthy course_name = false ->
       is_faculty_authorized_for_course courses faculty_id course_name = false)
      /\
      (truthy faculty_id = true -> truthy course_name = true ->
       match find (course_matches course_name) courses with
       | None =>
           is_faculty_authorized_for_course courses faculty_id course_name = true
       | Some (_, details) =>
           if truthy (rget "facultyId" details)
           then is_faculty_authorized_for_course courses faculty_id course_name
                = value_eqb (rget "facultyId" details) faculty_id
           else is_faculty_authorized_for_course courses faculty_id course_name
                = true
       end))
  /\
  (forall (sess : session) (today_date : string) (referrer : option string)
          (f : form) (st : store) (faculty course_name student_id : string),
      check_faculty_auth sess = true ->
      user_id sess = Some faculty -> faculty <> "" ->
      get "course_name" f = Some course_name -> course_name <> "" ->
      get "student_id_to_add" f = Some student_id -> student_id <> "" ->
      match find (course_matches (VStr course_name)) (course_data st) with
      | None => True
      | Some (_, details) => truthy (rget "facultyId" details) = false
      end ->
      contains student_id (student_profile_data st) = true ->
      has_course (VStr course_name)
        (records_of student_id (student_grades_data st)) = false ->
      has_course (VStr course_name)
        (records_of student_id (student_attendance_data st)) = false ->
      writable ATTENDANCE_CSV (files st) = true ->
      records_of student_id
        (student_attendance_data
           (fst (enroll_student sess today_date referrer f st)))
      = records_of student_id (student_attendance_data st)
          ++ [row_of [("studentId", VStr student_id);
                      ("courseName", VStr course_name);
                      ("date", VStr today_date);
                      ("status", VStr "Present");
                      ("instructor",
                       VStr (match user_name sess with
                             | Some n => n | None => "?" end))]]).
Proof.
  split.
  - intros courses faculty_id course_name. split.
    + intros [H | H]; unfold is_faculty_authorized_for_course; rewrite H; simpl; auto.
      destruct (truthy faculty_id); auto.
    + intros Hf Hc. unfold is_faculty_authorized_for_course.
      rewrite Hf, Hc. simpl. rewrite authorized_in_find.
      destruct (find (course_matches course_name) courses) as [[code details]|]; auto.
      destruct (truthy (rget "facultyId" details)); auto.
  - intros sess today_date referrer f st faculty course_name student_id
      Hauth Hu Hfac Hc Hcne Hs Hsne Hcourse Hstud Hg Ha Hw.
    unfold enroll_student. rewrite Hauth. simpl.
    unfold enroll_student_body. rewrite Hc, Hs.
    apply String.eqb_neq in Hcne, Hsne, Hfac. rewrite Hcne, Hsne. simpl.
    assert (Hok : is_faculty_authorized_for_course (course_data st)
                    (session_value (user_id sess)) (VStr course_name) = true).
    { unfold is_faculty_authorized_for_course. rewrite Hu. simpl.
      rewrite Hfac, Hcne. simpl. rewrite authorized_in_find.
      destruct (find (course_matches (VStr course_name)) (course_data st))
        as [[code details]|]; auto.
      now rewrite Hcourse. }
    rewrite Hok, Hstud. simpl.
    unfold records_of in *. rewrite Hg, Ha. simpl.
    unfold writable in Hw. unfold append_file.
    destruct (get ATTENDANCE_CSV (files st)) as [fl|] eqn:Hfile.
    + destruct (locked fl); [discriminate|]. simpl.
      now rewrite get_setitem_eq.
    + simpl. now rewrite get_setitem_eq.
Qed.

Lemma faculty_authorization_witness :
  is_faculty_authorized_for_course
    [("CS101", row_of [("courseCode", VStr "CS101"); ("courseName", VStr "Algorithms");
                       ("facultyId", VStr "prof_davis")])]
    (VStr "prof_lee") (VStr "Algorithms")
  = value_eqb (VStr "prof_davis") (VStr "prof_lee")
  /\ is_faculty_authorized_for_course [] VNone (VStr "Algorithms") = false
  /\ records_of "S1"
       (student_attendance_data
          (fst (enroll_student (mkSession (Some "faculty") (Some "prof_lee") (Some "Lee"))
                  "2024-02-01" None
                  [("course_name", "Pottery"); ("student_id_to_add", "S1")]
                  (set_profiles [("S1", row_of [("studentId", VStr "S1")])]
                                (empty_store [])))))
     = [] ++ [row_of [("studentId", VStr "S1"); ("courseName", VStr "Pottery");
                      ("date", VStr "2024-02-01"); ("status", VStr "Present");
                      ("instructor", VStr "Lee")]].
Proof.
  destruct faculty_authorization as [Hfun Henroll].
  split; [|split].
  - exact (proj2 (Hfun
             [("CS101", row_of [("courseCode", VStr "CS101");
                                ("courseName", VStr "Algorithms");
                                ("facultyId", VStr "prof_davis")])]
             (VStr "prof_lee") (VStr "Algorithms")) eq_refl eq_refl).
  - exact (proj1 (Hfun [] VNone (VStr "Algorithms")) (or_introl eq_refl)).
  - apply (Henroll (mkSession (Some "faculty") (Some "prof_lee") (Some "Lee"))
             "2024-02-01" None
             [("course_name", "Pottery"); ("student_id_to_add", "S1")]
             (set_profiles [("S1", row_of [("studentId", VStr "S1")])]
                           (empty_store []))
             "prof_lee" "Pottery" "S1");
      try reflexivity; try discriminate; exact I.
Defined.

(* ================================================================= *)
(** ** Frames: what writing a file or flashing leaves alone *)

Lemma rewrite_students_mappings (ok_msg : string) (st : store) :
  student_login_data (rewrite_students ok_msg st) = student_login_data st
  /\ student_profile_data (rewrite_students ok_msg st) = student_profile_data st
  /\ student_grades_data (rewrite_students ok_msg st) = student_grades_data st
  /\ student_attendance_data (rewrite_students ok_msg st) = student_attendance_data st
  /\ course_data (rewrite_students ok_msg st) = course_data st.
Proof.
  unfold rewrite_students.
  destruct (headers_for_rewrite STUDENTS_CSV STUDENT_HEADERS (files st)) as [e|h];
    [simpl; auto 6|].
  destruct (write_file STUDENTS_CSV _ (files st)); simpl; auto 6.
Qed.

(* ================================================================= *)
(** ** Deletion (C7) *)

(** C7. When [delete_student] returns for a faculty session, the student
    id is a key of none of the four mappings (profiles, logins, grades,
    attendance); and when [students.csv] does not exist the removal has
    still been made in memory, the file system is untouched and the
    handler reports the removal and redirects to the listing. *)
Theorem delete_student_removes_everywhere :
  forall (sess : session) (student_id : string) (st : store),
    check_faculty_auth sess = true ->
    let st' := fst (delete_student sess student_id st) in
    (get student_id (student_profile_data st') = None
     /\ get student_id (student_login_data st') = None
     /\ get student_id (student_grades_data st') = None
     /\ get student_id (student_attendance_data st') = None)
    /\ (isfile STUDENTS_CSV (files st) = false ->
        student_profile_data st' = pop student_id (student_profile_data st)
        /\ files st' = files st
        /\ snd (delete_student sess student_id st) = Redirect "manage_students"
        /\ exists msg, flashed st' = flashed st ++ [(msg, "warning")]).
Proof.
  intros sess student_id st Hauth. unfold delete_student. rewrite Hauth.
  cbn [negb]. cbv iota. cbv zeta.
  destruct (isfile "students.csv" _) eqn:Hfile; cbn [fst snd].
  - split.
    + match goal with
      | |- context [rewrite_students ?m ?s] =>
          destruct (rewrite_students_mappings m s) as (Hl & Hp & Hg & Ha & _)
      end.
      rewrite Hl, Hp, Hg, Ha. simpl. repeat split; apply get_pop_eq.
    + intros Hno. simpl in Hfile. unfold STUDENTS_CSV in Hno. congruence.
  - split.
    + simpl. repeat split; apply get_pop_eq.
    + intros _. simpl. repeat split. eexists. reflexivity.
Qed.

Lemma delete_student_removes_everywhere_witness :
  (get "S1" (student_profile_data (fst (delete_student demo_faculty "S1" demo_store)))
   = None
   /\ get "S1" (student_login_data (fst (delete_student demo_faculty "S1" demo_store)))
      = None
   /\ get "S1" (student_grades_data (fst (delete_student demo_faculty "S1" demo_store)))
      = None
   /\ get "S1" (student_attendance_data
                  (fst (delete_student demo_faculty "S1" demo_store)))
      = None)
  /\ student_profile_data (fst (delete_student demo_faculty "S1" demo_store))
     = pop "S1" (student_profile_data demo_store)
  /\ files (fst (delete_student demo_faculty "S1" demo_store)) = files demo_store.
Proof.
  destruct (delete_student_removes_everywhere demo_faculty "S1" demo_store eq_refl)
    as [H1 H2].
  split; [exact H1|].
  destruct (H2 eq_refl) as (Hp & Hf & _). split; assumption.
Defined.

(* ================================================================= *)
(** ** Logins follow profiles (C5) *)

Ltac break_match :=
  match goal with
  | |- context [match ?x with _ => _ end] =>
      lazymatch x with
      | context [match _ with _ => _ end] => fail
      | _ => destruct x eqn:?
      end
  end.

Ltac run_handler := repeat (cbn -[String.eqb unique_keys]; try break_match).

Lemma submit_attendance_same_students sess f st :
  same_students st (fst (submit_attendance sess f st)).
Proof.
  unfold same_students, submit_attendance, catch_all, submit_attendance_body.
  run_handler; split; reflexivity.
Qed.

Lemma enroll_student_same_students sess today_date referrer f st :
  same_students st (fst (enroll_student sess today_date referrer f st)).
Proof.
  unfold same_students, enroll_student, catch_all, enroll_student_body.
  run_handler; split; reflexivity.
Qed.

Lemma update_course_same_students py_int sess course_code f st :
  same_students st (fst (update_course py_int sess course_code f st)).
Proof.
  unfold same_students, update_course, catch_all, update_course_body.
  run_handler; split; reflexivity.
Qed.

Lemma upload_grades_same_students secure_filename sess file st :
  same_students st (fst (upload_grades_data secure_filename sess file st)).
Proof.
  unfold same_students, upload_grades_data.
  run_handler; split; reflexivity.
Qed.

Lemma in_sync_same_students (st st' : store) :
  same_students st st' -> logins_in_sync st -> logins_in_sync st'.
Proof.
  intros [Hl Hp] H sid login. unfold logins_in_sync in *. rewrite Hl, Hp. apply H.
Qed.

(** Both mappings get an entry under the same id, with one password. *)
Lemma in_sync_setitem (st st' : store) (sid : string) (login : dict value)
    (profile : row) :
  student_login_data st' = setitem sid login (student_login_data st) ->
  student_profile_data st' = setitem sid profile (student_profile_data st) ->
  get "password" login = Some (rget "password" profile) ->
  logins_in_sync st -> logins_in_sync st'.
Proof.
  intros Hl Hp Hpw H sid' login'. rewrite Hl, Hp, !get_setitem.
  destruct (String.eqb sid' sid).
  - intros E. inversion E; subst. eauto.
  - apply H.
Qed.

Lemma in_sync_pop (st st' : store) (sid : string) :
  student_login_data st' = pop sid (student_login_data st) ->
  student_profile_data st' = pop sid (student_profile_data st) ->
  logins_in_sync st -> logins_in_sync st'.
Proof.
  intros Hl Hp H sid' login'. rewrite Hl, Hp.
  destruct (String.eqb sid' sid) eqn:E.
  - apply String.eqb_eq in E. subst. now rewrite get_pop_eq.
  - apply String.eqb_neq in E. rewrite !get_pop_neq by assumption. apply H.
Qed.

Lemma create_student_in_sync sess data st :
  logins_in_sync st -> logins_in_sync (fst (create_student sess data st)).
Proof.
  intros H. unfold create_student.
  destruct (check_faculty_auth sess); cbn [negb fst]; [|assumption].
  unfold catch_all, create_student_body.
  assert (Hsame : forall m c, logins_in_sync (flash m c st)).
  { intros. eapply in_sync_same_students; [|exact H]. split; reflexivity. }
  destruct (forallb _ _); cbn [negb fst]; [|apply Hsame].
  unfold form_item.
  destruct (get "password" data) as [password|] eqn:Hpw; [|apply Hsame].
  destruct (get "confirmPassword" data) as [confirm|]; [|apply Hsame].
  destruct (get "studentId" data) as [raw_id|]; [|apply Hsame].
  destruct (String.eqb password confirm); cbn [negb fst]; [|apply Hsame].
  destruct (String.eqb (strip raw_id) ""); [apply Hsame|].
  destruct (contains (strip raw_id) (student_profile_data st)); [apply Hsame|].
  match goal with
  | |- context [match ?h with inl _ => _ | inr _ => _ end] => destruct h as [e|existing_h]
  end; [apply Hsame|].
  destruct (append_file STUDENTS_CSV _ (files st)) as [e|fsys]; [apply Hsame|].
  unfold form_item.
  destruct (get "firstName" data) as [first|]; cbn [fst];
    (eapply (in_sync_setitem st); [reflexivity | reflexivity | | exact H]);
    cbn; unfold form_get_def; rewrite Hpw; reflexivity.
Qed.

Lemma update_student_in_sync sess student_id f st :
  logins_in_sync st -> logins_in_sync (fst (update_student sess student_id f st)).
Proof.
  intros H. unfold update_student.
  assert (Hsame : forall m c, logins_in_sync (flash m c st)).
  { intros. eapply in_sync_same_students; [|exact H]. split; reflexivity. }
  destruct (check_faculty_auth sess); cbn [negb fst]; [|assumption].
  destruct (get student_id (student_profile_data st)) as [original|]; [|apply Hsame].
  destruct (row_falsy (Some original)); [apply Hsame|].
  unfold catch_all, update_student_body.
  destruct (forallb _ _); cbn [negb fst]; [|apply Hsame].
  match goal with
  | |- context [match ?x with Some _ => _ | None => _ end] =>
      destruct x as [updated_data|]
  end; [|apply Hsame].
  cbn [fst].
  match goal with
  | |- logins_in_sync (rewrite_students ?m ?s) =>
      destruct (rewrite_students_mappings m s) as (Hl & Hp & _);
      apply (in_sync_same_students s); [split; assumption|]
  end.
  eapply (in_sync_setitem st); [reflexivity | reflexivity | | exact H].
  cbn [student_login_data set_profiles].
  destruct (get student_id (student_login_data st)); [apply get_setitem_eq | reflexivity].
Qed.

Lemma delete_student_in_sync sess student_id st :
  logins_in_sync st -> logins_in_sync (fst (delete_student sess student_id st)).
Proof.
  intros H. unfold delete_student.
  destruct (check_faculty_auth sess); cbn [negb fst]; [|assumption].
  cbv zeta.
  destruct (isfile "students.csv" _); cbn [fst].
  - match goal with
    | |- logins_in_sync (rewrite_students ?m ?s) =>
        destruct (rewrite_students_mappings m s) as (Hl & Hp & _);
        apply (in_sync_same_students s); [split; assumption|]
    end.
    eapply (in_sync_pop st); [reflexivity | reflexivity | exact H].
  - eapply (in_sync_pop st); [reflexivity | reflexivity | exact H].
Qed.

Lemma In_get_unique {V : Type} (k : string) (v : V) (d : dict V) :
  unique_keys d -> In (k, v) d -> get k d = Some v.
Proof.
  unfold unique_keys. induction d as [|[k' v'] d IH]; simpl; intros Hu Hin; [tauto|].
  inversion Hu; subst. destruct Hin as [E | Hin].
  - inversion E; subst. now rewrite String.eqb_refl.
  - destruct (String.eqb k k') eqn:E.
    + apply String.eqb_eq in E. subst. exfalso. apply H1.
      unfold keys. change k' with (fst (k', v)). now apply in_map.
    + auto.
Qed.

(** The logins rebuilt from the profiles: an entry comes from a profile
    under the same id and carries its password. *)
Lemma rebuilt_logins_from (keep : row -> bool) (l : list (string * row))
    (acc : dict (dict value)) (sid : string) (login : dict value) :
  get sid
    (fold_left
       (fun (logins : dict (dict value)) (kv : string * row) =>
          let (student_id, profile) := kv in
          if keep profile
          then setitem student_id
                 [("password", rget "password" profile); ("role", VStr "student")]
                 logins
          else logins) l acc) = Some login ->
  get sid acc = Some login
  \/ exists profile, In (sid, profile) l
                     /\ get "password" login = Some (rget "password" profile).
Proof.
  revert acc. induction l as [|[k p] l IH]; intros acc; simpl; auto.
  intros Hget. destruct (IH _ Hget) as [Hacc | [profile [Hin Hpw]]].
  - destruct (keep p); auto. rewrite get_setitem in Hacc.
    destruct (String.eqb sid k) eqn:E; auto.
    apply String.eqb_eq in E. subst. inversion Hacc; subst.
    right. exists p. split; auto.
  - right. exists profile. split; auto.
Qed.

Lemma rebuilt_logins_in_sync (keep : row -> bool) (st st' : store)
    (logins : dict (dict value)) :
  unique_keys (student_profile_data st) ->
  logins = fold_left
             (fun (logins : dict (dict value)) (kv : string * row) =>
                let (student_id, profile) := kv in
                if keep profile
                then setitem student_id
                       [("password", rget "password" profile); ("role", VStr "student")]
                       logins
                else logins) (student_profile_data st) [] ->
  student_login_data st' = logins ->
  student_profile_data st' = student_profile_data st ->
  logins_in_sync st'.
Proof.
  intros Hu Hl Hl' Hp sid login. rewrite Hl', Hp, Hl. intros Hget.
  apply rebuilt_logins_from in Hget. destruct Hget as [Hget | [profile [Hin Hpw]]].
  - discriminate.
  - exists profile. split; auto. now apply In_get_unique.
Qed.

Lemma store_row_unique_keys (is_list : bool) (key : string) (r : row)
    (d : dict (slot is_list)) :
  unique_keys d -> unique_keys (store_row is_list key r d).
Proof.
  destruct is_list; simpl; intros H.
  - unfold unique_keys. break_match; now apply NoDup_keys_setitem.
  - now apply NoDup_keys_setitem.
Qed.

Lemma load_rows_unique_keys (is_list : bool) (filepath key_field : string)
    (fieldnames : list string) (ls : list line) (st : loader_state is_list) :
  unique_keys (fst st) ->
  unique_keys (fst (state_of (load_rows is_list filepath key_field fieldnames ls st))).
Proof.
  revert st. induction ls as [|[cs|] ls IH]; intros st H; simpl; auto.
  destruct cs as [|c cs]; auto.
  destruct (negb (rhas key_field _) || is_None _); apply IH; simpl; auto.
  now apply store_row_unique_keys.
Qed.

Lemma load_unique_keys (is_list : bool) (fsys : filesystem)
    (filepath key_field : string) (data_dict : dict (slot is_list))
    (out : list message) :
  unique_keys data_dict ->
  unique_keys
    (fst (state_of (load_data_from_csv is_list fsys filepath data_dict key_field out))).
Proof.
  intros H. unfold load_data_from_csv, load_body, try_except.
  destruct (get filepath fsys) as [f|]; cbn [state_of fst]; auto.
  destruct (locked f); cbn [state_of fst]; auto.
  destruct (lines f) as [|[fieldnames|] rest]; cbn [state_of fst]; auto.
  destruct fieldnames as [|h hs]; cbn [state_of fst]; auto.
  destruct (negb (str_in key_field (h :: hs))); cbn [state_of fst]; auto.
  pose proof (load_rows_unique_keys is_list filepath key_field (h :: hs) rest
                ([], out)) as Hl.
  destruct (load_rows is_list filepath key_field (h :: hs) rest ([], out));
    cbn [state_of fst] in *; apply Hl; constructor.
Qed.

Ltac solve_unique :=
  unfold unique_keys in *;
  repeat first [ assumption
               | apply NoDup_keys_setitem
               | apply NoDup_keys_pop ].

Lemma create_student_unique sess data st :
  unique_keys (student_profile_data st) ->
  unique_keys (student_profile_data (fst (create_student sess data st))).
Proof.
  intros H. unfold create_student, catch_all, create_student_body, form_item.
  run_handler; solve_unique.
Qed.

Lemma update_student_unique sess student_id f st :
  unique_keys (student_profile_data st) ->
  unique_keys (student_profile_data (fst (update_student sess student_id f st))).
Proof.
  intros H. unfold update_student, catch_all, update_student_body,
    rewrite_students.
  run_handler; solve_unique.
Qed.

Lemma delete_student_unique sess student_id st :
  unique_keys (student_profile_data st) ->
  unique_keys (student_profile_data (fst (delete_student sess student_id st))).
Proof.
  intros H. unfold delete_student, rewrite_students.
  run_handler; solve_unique.
Qed.

Lemma upload_student_data_consistent secure_filename sess file st :
  students_consistent st ->
  students_consistent (fst (upload_student_data secure_filename sess file st)).
Proof.
  intros [Hs Hu]. unfold upload_student_data.
  assert (Hsame : forall st', same_students st st' -> students_consistent st').
  { intros st' [Hl Hp]. split.
    - eapply in_sync_same_students; [split|]; eauto.
    - now rewrite Hp. }
  destruct (check_faculty_auth sess); cbn [negb fst];
    [|apply Hsame; split; reflexivity].
  destruct file as [u|]; [|apply Hsame; split; reflexivity].
  destruct (String.eqb (filename u) ""); [apply Hsame; split; reflexivity|].
  destruct (endswith ".csv" (filename u)); [|apply Hsame; split; reflexivity].
  cbv zeta. unfold upload_student_body.
  destruct (save_upload secure_filename _ u (files st)) as [e|fsys].
  { cbn [fst]. apply Hsame. break_match; split; reflexivity. }
  cbv zeta. cbn [student_profile_data printed files set_files].
  match goal with
  | |- context [load_data_from_csv false ?a ?b ?c ?d ?e] =>
      destruct (load_data_from_csv_returns false a b d c e) as [ld Hld];
      pose proof (load_unique_keys false a b d c e Hu) as Hld';
      rewrite Hld in *
  end.
  cbn [fst state_of] in *. split.
  - eapply rebuilt_logins_in_sync with (keep := rhas "password");
      [ | reflexivity | reflexivity | reflexivity ].
    exact Hld'.
  - exact Hld'.
Qed.

Lemma startup_consistent (fsys : filesystem) :
  students_consistent (startup (empty_store fsys)).
Proof.
  unfold startup. cbv zeta.
  cbn [student_profile_data printed files empty_store].
  pose proof (load_unique_keys false fsys "students.csv" "studentId" [] []
                (NoDup_nil _)) as Hu.
  set (ld := state_of (load_data_from_csv false fsys "students.csv" [] "studentId" []))
    in *.
  split.
  - eapply rebuilt_logins_in_sync
      with (keep := fun profile => truthy (rget "password" profile));
      [ | reflexivity | reflexivity | reflexivity ].
    exact Hu.
  - exact Hu.
Qed.

Lemma run_consistent py_int secure_filename (st : store) (op : operation) :
  students_consistent st -> students_consistent (run py_int secure_filename st op).
Proof.
  intros [Hs Hu].
  assert (Hsame : forall st', same_students st st' -> students_consistent st').
  { intros st' [Hl Hp]. split.
    - eapply in_sync_same_students; [split|]; eauto.
    - now rewrite Hp. }
  destruct op; simpl.
  - split; [now apply create_student_in_sync | now apply create_student_unique].
  - split; [now apply update_student_in_sync | now apply update_student_unique].
  - split; [now apply delete_student_in_sync | now apply delete_student_unique].
  - apply upload_student_data_consistent. now split.
  - apply Hsame, upload_grades_same_students.
  - apply Hsame, submit_attendance_same_students.
  - apply Hsame, enroll_student_same_students.
  - apply Hsame, update_course_same_students.
Qed.

(** C5. After the start-up load and after any sequence of the handlers
    that change the store (create, update, delete, the uploads, attendance
    submission, enrollment, course update), every entry of the login
    mapping has a profile under the same id, and its password equals the
    profile's password field. *)
Theorem logins_follow_profiles :
  forall (py_int : string -> option Z) (secure_filename : string -> string)
         (fsys : filesystem) (ops : list operation),
    logins_in_sync (after py_int secure_filename fsys ops).
Proof.
  intros py_int secure_filename fsys ops. unfold after.
  assert (H : students_consistent (startup (empty_store fsys)))
    by apply startup_consistent.
  revert H. generalize (startup (empty_store fsys)).
  induction ops as [|op ops IH]; intros st H; simpl.
  - apply H.
  - apply IH. now apply run_consistent.
Qed.

(** A run: start-up on an empty disk, a student created, then updated
    with a blank password. *)
Example logins_follow_profiles_run :
  let st := after decimal_int plain_filename []
              [OpCreateStudent demo_faculty
                 [("studentId", "S1"); ("password", "pw1"); ("confirmPassword", "pw1");
                  ("firstName", "Ann"); ("lastName", "Lee"); ("email", "a@x.edu");
                  ("enrollmentDate", "2023-09-01"); ("dob", "2004-05-06")];
               OpUpdateStudent demo_faculty "S1"
                 [("firstName", "Anna"); ("lastName", "Lee"); ("email", "a@x.edu");
                  ("enrollmentDate", "2023-09-01"); ("dob", "2004-05-06");
                  ("password", "")]] in
  get "S1" (student_login_data st)
  = Some [("password", VStr "pw1"); ("role", VStr "student")]
  /\ option_map (rget "password") (get "S1" (student_profile_data st))
     = Some (VStr "pw1")
  /\ option_map (rget "firstName") (get "S1" (student_profile_data st))
     = Some (VStr "Anna").
Proof. vm_compute. repeat split; reflexivity. Qed.

(* ================================================================= *)
(** ** Updates with a blank password (C6) *)


Lemma get_app_fresh {V : Type} (k : string) (d1 d2 : dict V) :
  get k (d1 ++ d2) = match get k d1 with Some v => Some v | None => get k d2 end.
Proof.
  induction d1 as [|[k' v'] d1 IH]; simpl; auto.
  destruct (String.eqb k k'); auto.
Qed.



(* ================================================================= *)
(** ** Course listings (C8) *)


Lemma vadd_In (v x : value) (s : list value) :
  In x (vadd v s) <-> x = v \/ In x s.
Proof.
  unfold vadd. destruct (value_in v s) eqn:E.
  - apply value_in_In in E. split; [tauto | intros [H | H]; subst; auto].
  - rewrite in_app_iff. simpl. split; intros H; intuition.
Qed.









(** The names collected from grade or attendance records. *)
Lemma add_names_inner (records : list row) (names : list value) (name : value) :
  In name
    (fold_left (fun acc (r : row) =>
                  if truthy (rget "courseName" r)
                  then vadd (rget "courseName" r) acc else acc) records names)
  <-> In name names
      \/ (truthy name = true
          /\ exists r, In r records /\ rget "courseName" r = name).
Proof.
  revert names. induction records as [|r records IH]; intros names; simpl.
  - split; [tauto | intros [H | [_ [r [[] _]]]]; auto].
  - rewrite IH. destruct (truthy (rget "courseName" r)) eqn:E.
    + rewrite vadd_In. split.
      * intros [[H | H] | [Ht [r' [Hin Hr']]]]; subst; eauto 7.
      * intros [H | [Ht [r' [[Hr | Hin] Hr']]]]; subst; eauto 7.
    + split.
      * intros [H | [Ht [r' [Hin Hr']]]]; eauto 7.
      * intros [H | [Ht [r' [[Hr | Hin] Hr']]]]; subst; eauto 7. congruence.
Qed.


Lemma add_course_names_In (data : dict (list row)) (names : list value)
    (name : value) :
  In name (add_course_names data names) <-> In name names \/ named_in data name.
Proof.
  unfold add_course_names, named_in.
  revert names. induction data as [|[sid records] data IH]; intros names; simpl.
  - split; [tauto | intros [H | [_ [s [rs [r [[] _]]]]]]; auto].
  - rewrite IH, add_names_inner. split.
    + intros [[H | [Ht [r [Hin Hr]]]] | [Ht [s [rs [r [Hd [Hin Hr]]]]]]].
      * left. exact H.
      * right. split; [exact Ht|]. exists sid, records, r. auto.
      * right. split; [exact Ht|]. exists s, rs, r. auto.
    + intros [H | [Ht [s [rs [r [[Hd | Hd] [Hin Hr]]]]]]].
      * left. left. exact H.
      * inversion Hd; subst. left. right. split; [exact Ht|]. exists r. auto.
      * right. split; [exact Ht|]. exists s, rs, r. auto.
Qed.


Lemma add_course_names_truthy (data : dict (list row)) (names : list value) :
  (forall n, In n names -> truthy n = true) ->
  forall n, In n (add_course_names data names) -> truthy n = true.
Proof.
  intros H n Hn. apply add_course_names_In in Hn.
  destruct Hn as [Hn | [Ht _]]; auto.
Qed.








(* ================================================================= *)
(** ** Attendance submissions (C4) *)



Lemma contains_get {V : Type} (k : string) (d : dict V) :
  contains k d = true <-> exists v, get k d = Some v.
Proof.
  unfold contains. destruct (get k d); split; eauto; try discriminate.
  intros [v H]. discriminate.
Qed.







Lemma set_add_In (x y : string) (s : list string) :
  In y (set_add x s) <-> y = x \/ In y s.
Proof.
  unfold set_add. destruct (str_in x s) eqn:E.
  - apply str_in_In in E. split; [tauto | intros [H | H]; subst; auto].
  - rewrite in_app_iff. simpl. intuition.
Qed.

Lemma set_add_NoDup (x : string) (s : list string) : NoDup s -> NoDup (set_add x s).
Proof.
  intros H. unfold set_add. destruct (str_in x s) eqn:E; auto.
  apply NoDup_app; auto.
  - constructor; [tauto | constructor].
  - intros y Hy [Hx | []]. subst y. apply str_in_In in Hy. congruence.
Qed.









(** In list mode the loader stores every line, whatever is already there. *)
Lemma store_row_list_appends (key : string) (r : row) (d : dict (list row)) :
  records_of key (store_row true key r d) = records_of key d ++ [r].
Proof.
  unfold records_of. simpl.
  destruct (get key d) eqn:E; now rewrite get_setitem_eq.
Qed.

Lemma load_rows_app (is_list : bool) (filepath key_field : string)
    (fieldnames : list string) (ls1 ls2 : list line) (st : loader_state is_list) :
  load_rows is_list filepath key_field fieldnames (ls1 ++ ls2) st
  = match load_rows is_list filepath key_field fieldnames ls1 st with
    | Done st' => load_rows is_list filepath key_field fieldnames ls2 st'
    | Raised st' e => Raised st' e
    end.
Proof.
  revert st. induction ls1 as [|[cs|] ls1 IH]; intros st; simpl; auto.
  destruct cs as [|c cs]; auto.
  destruct (negb (rhas key_field _) || is_None _); apply IH.
Qed.




(** The file, by contrast, receives every submitted row: after the second
    submission [attendance.csv] holds each student twice, and loading it
    (as the next start-up does) gives two records where memory has one. *)
Example attendance_file_keeps_suppressed_rows :
  let st2 := fst (submit_attendance demo_faculty demo_attendance_form
                    (fst (submit_attendance demo_faculty demo_attendance_form
                            (set_attendance [] demo_store)))) in
  List.length (records_of "S2" (student_attendance_data st2)) = 1%nat
  /\ List.length
       (records_of "S2"
          (fst (state_of (load_data_from_csv true (files st2) "attendance.csv"
                            (student_attendance_data st2) "studentId" []))))
     = 2%nat.
Proof. vm_compute. split; reflexivity. Qed.

(* ================================================================= *)
(** ** Files and mappings (C3) *)










Lemma get_Some_In {V : Type} (k : string) (v : V) (d : dict V) :
  get k d = Some v -> In (k, v) d.
Proof.
  induction d as [|[k' v'] d IH]; simpl; [discriminate|].
  destruct (String.eqb k k') eqn:E; auto.
  apply String.eqb_eq in E. subst. intros H. inversion H. auto.
Qed.




(** The handlers that rewrite a file write the whole mapping with
    [writeheader] and [dictwriter_row]: the file is [rewritten]. *)
Lemma update_course_writes_mapping :
  forall (py_int : string -> option Z) (sess : session) (course_code : string)
         (f : form) (st : store) (msg : string),
    flashed (fst (update_course py_int sess course_code f st))
    = flashed st ++ [(msg, "success")] ->
    get COURSES_CSV (files (fst (update_course py_int sess course_code f st)))
    = Some (rewritten COURSE_HEADERS
              (course_data (fst (update_course py_int sess course_code f st)))).
Proof.
  intros py_int sess course_code f st msg.
  unfold update_course, catch_all, update_course_body, write_file.
  run_handler; intros H;
    try (apply app_inv_head in H; inversion H; fail);
    try (symmetry in H; rewrite <- app_nil_r in H; apply app_inv_head in H;
         discriminate);
    apply get_setitem_eq.
Qed.

Lemma rewrite_students_writes_mapping :
  forall (ok_msg : string) (st : store),
    flashed (rewrite_students ok_msg st) = flashed st ++ [(ok_msg, "success")] ->
    exists headers,
      headers_for_rewrite STUDENTS_CSV STUDENT_HEADERS (files st) = inr headers
      /\ get STUDENTS_CSV (files (rewrite_students ok_msg st))
         = Some (rewritten headers (student_profile_data st)).
Proof.
  intros ok_msg st. unfold rewrite_students, write_file.
  destruct (headers_for_rewrite STUDENTS_CSV STUDENT_HEADERS (files st)) as [e|h].
  - cbn. intros H. apply app_inv_head in H. inversion H.
  - destruct (get STUDENTS_CSV (files st)) as [fl|].
    + destruct (locked fl); cbn; intros H.
      * apply app_inv_head in H. inversion H.
      * exists h. split; auto. apply get_setitem_eq.
    + cbn. intros H. exists h. split; auto. apply get_setitem_eq.
Qed.

(* ================================================================= *)
(** * Further properties of the handlers *)

(** ** The faculty gate *)

(** X1. A request made without the faculty role changes nothing: each of
    the handlers that can change the store (student creation, update and
    deletion, the three uploads, attendance submission, enrollment,
    course update and creation) returns the store it was given. *)
Theorem only_faculty_changes_the_store :
  forall (py_int : string -> option Z) (secure_filename : string -> string)
         (st : store) (op : operation),
    check_faculty_auth (op_session op) = false ->
    run py_int secure_filename st op = st
    /\ (forall file, fst (upload_attendance_data secure_filename (op_session op)
                            file st) = st)
    /\ (forall f, fst (create_course (op_session op) f st) = st).
Proof.
  intros py_int secure_filename st op H. split; [|split].
  - destruct op; simpl in *;
      [ unfold create_student | unfold update_student | unfold delete_student
      | unfold upload_student_data | unfold upload_grades_data
      | unfold submit_attendance | unfold enroll_student | unfold update_course ];
      rewrite H; reflexivity.
  - intros file. unfold upload_attendance_data. now rewrite H.
  - intros f. unfold create_course. now rewrite H.
Qed.

Lemma only_faculty_changes_the_store_witness :
  run decimal_int plain_filename demo_store (OpDeleteStudent demo_student "S1")
  = demo_store
  /\ (forall file, fst (upload_attendance_data plain_filename demo_student file
                          demo_store) = demo_store)
  /\ (forall f, fst (create_course demo_student f demo_store) = demo_store).
Proof.
  exact (only_faculty_changes_the_store decimal_int plain_filename demo_store
           (OpDeleteStudent demo_student "S1") eq_refl).
Defined.

(* ================================================================= *)
(** ** What the loader stores *)

Lemma load_rows_readable (is_list : bool) (filepath key_field : string)
    (h : list string) (ls : list line) (st : loader_state is_list) :
  readable ls = true ->
  exists st', load_rows is_list filepath key_field h ls st = Done st'.
Proof.
  revert st. induction ls as [|[cs|] ls IH]; intros st H; simpl in *; eauto.
  - destruct cs as [|c cs]; auto.
    destruct (negb (rhas key_field _) || is_None _); auto.
  - discriminate.
Qed.

Lemma records_of_store_row_other (key k : string) (r : row) (d : dict (list row)) :
  k <> key -> records_of k (store_row true key r d) = records_of k d.
Proof.
  intros Hne. unfold records_of. simpl.
  destruct (get key d); now rewrite get_setitem_neq.
Qed.

Lemma rget_present (k : string) (r : row) (s : string) :
  rget k r = VStr s -> rhas k r = true.
Proof.
  unfold rget, rhas, contains. destruct (get k (cells r)); [reflexivity | discriminate].
Qed.

Lemma setitem_no_number (k : string) (v : value) (d : dict value) :
  is_number v = false ->
  (forall k' v', get k' d = Some v' -> is_number v' = false) ->
  forall k' v', get k' (setitem k v d) = Some v' -> is_number v' = false.
Proof.
  intros Hv Hd k' v'. rewrite get_setitem.
  destruct (String.eqb k' k); [intros E; inversion E; subst; auto | apply Hd].
Qed.

Lemma zip_cells_no_number (h cs : list string) (d : dict value) :
  (forall k v, get k d = Some v -> is_number v = false) ->
  forall k v, get k (zip_cells h cs d) = Some v -> is_number v = false.
Proof.
  revert cs d. induction h as [|a h IH]; intros cs d Hd; simpl; auto.
  destruct cs as [|c cs]; auto.
  apply IH. now apply setitem_no_number.
Qed.

Lemma fill_restval_no_number (names : list string) (d : dict value) :
  (forall k v, get k d = Some v -> is_number v = false) ->
  forall k v, get k (fill_restval names d) = Some v -> is_number v = false.
Proof.
  revert d. induction names as [|a names IH]; intros d Hd; simpl; auto.
  apply IH. now apply setitem_no_number.
Qed.

(** A cell read from a file is a string or [None], never a number. *)
Lemma dictreader_no_number (h cs : list string) (k : string) :
  is_number (rget k (dictreader_row h cs)) = false.
Proof.
  unfold rget. destruct (get k (cells (dictreader_row h cs))) as [v|] eqn:E; auto.
  revert E. unfold dictreader_row.
  assert (H0 : forall k v, get k (zip_cells h cs []) = Some v -> is_number v = false).
  { apply zip_cells_no_number. intros k' v' H. discriminate. }
  destruct (Nat.ltb _ _); [apply H0|].
  destruct (Nat.ltb _ _); [|apply H0].
  simpl. now apply fill_restval_no_number.
Qed.

(** One more line, in list mode. *)
Lemma load_rows_list_snoc (filepath key_field : string) (h : list string)
    (ls : list line) (l : line) (st st' st'' : loader_state true) (k : string) :
  load_rows true filepath key_field h ls st = Done st' ->
  load_rows true filepath key_field h (ls ++ [l]) st = Done st'' ->
  records_of k (fst st'')
  = records_of k (fst st')
    ++ map (dictreader_row h) (filter (keyed key_field h k) (data_rows [l])).
Proof.
  intros H1 H2. rewrite load_rows_app, H1 in H2. simpl in H2.
  destruct l as [cs|]; [|discriminate].
  destruct cs as [|c cs]; simpl.
  - inversion H2. now rewrite app_nil_r.
  - unfold keyed.
    destruct (rget key_field (dictreader_row h (c :: cs))) as [|s|z] eqn:E.
    + simpl in H2. rewrite orb_true_r in H2. inversion H2. simpl.
      now rewrite app_nil_r.
    + rewrite (rget_present _ _ _ E) in H2. simpl in H2. inversion H2. simpl.
      destruct (String.eqb s k) eqn:Es.
      * apply String.eqb_eq in Es. subst s. simpl. apply store_row_list_appends.
      * apply String.eqb_neq in Es. simpl. rewrite app_nil_r.
        apply records_of_store_row_other. congruence.
    + exfalso. pose proof (dictreader_no_number h (c :: cs) key_field) as Hn.
      rewrite E in Hn. discriminate.
Qed.

Lemma readable_app (l1 l2 : list line) :
  readable (l1 ++ l2) = true <-> readable l1 = true /\ readable l2 = true.
Proof. unfold readable. rewrite forallb_app. apply andb_true_iff. Qed.

Lemma data_rows_app (l1 l2 : list line) :
  data_rows (l1 ++ l2) = data_rows l1 ++ data_rows l2.
Proof. unfold data_rows. apply flat_map_app. Qed.

Lemma load_rows_list_records (filepath key_field : string) (h : list string)
    (ls : list line) (st : loader_state true) :
  readable ls = true ->
  exists st', load_rows true filepath key_field h ls st = Done st'
    /\ forall k, records_of k (fst st')
                 = records_of k (fst st)
                   ++ map (dictreader_row h)
                        (filter (keyed key_field h k) (data_rows ls)).
Proof.
  induction ls as [|l ls IH] using rev_ind; intros Hr.
  - exists st. split; [reflexivity|]. intros k. simpl. now rewrite app_nil_r.
  - apply readable_app in Hr. destruct Hr as [Hr Hl].
    destruct (IH Hr) as (st' & Hst' & Hrec).
    destruct (load_rows_readable true filepath key_field h (ls ++ [l]) st)
      as [st'' Hst'']; [apply readable_app; auto|].
    exists st''. split; auto. intros k.
    rewrite (load_rows_list_snoc _ _ _ _ _ _ _ _ k Hst' Hst''), Hrec.
    rewrite data_rows_app, filter_app, map_app, app_assoc. reflexivity.
Qed.

(** X2. In list mode (grades, attendance) a file whose header has the key
    field and whose lines can all be read replaces the mapping: whatever
    it held before, each key then holds exactly the lines of the file
    that carry it in the key column, as rows, in file order; blank lines
    and lines too short to reach the key column are in no list. *)
Theorem loader_groups_lines_by_key :
  forall (fsys : filesystem) (filepath key_field : string)
         (data_dict : dict (list row)) (out : list message) (f : file)
         (h : list string) (rest : list line),
    get filepath fsys = Some f -> locked f = false ->
    lines f = Row h :: rest -> h <> [] ->
    str_in key_field h = true -> readable rest = true ->
    exists (loaded : dict (list row)) (out' : list message),
      load_data_from_csv true fsys filepath data_dict key_field out
      = Done (loaded, out')
      /\ forall k, records_of k loaded
                   = map (dictreader_row h)
                       (filter (keyed key_field h k) (data_rows rest)).
Proof.
  intros fsys filepath key_field data_dict out f h rest Hget Hl Hlines Hne Hk Hr.
  unfold load_data_from_csv, load_body, try_except.
  rewrite Hget, Hl, Hlines. destruct h as [|a h']; [congruence|].
  rewrite Hk. cbn [negb].
  destruct (load_rows_list_records filepath key_field (a :: h') rest ([], out) Hr)
    as (st' & Hst' & Hrec).
  rewrite Hst'. eexists. eexists. split; [reflexivity|].
  intros k. cbn [fst]. now rewrite Hrec.
Qed.

Lemma loader_groups_lines_by_key_witness :
  exists (loaded : dict (list row)) (out' : list message),
    load_data_from_csv true
      [("grades.csv",
        mkFile false [Row ["studentId"; "courseName"; "score"];
                      Row ["S1"; "Math"; "85"]; Row []; Row ["S2"; "Art"; "70"];
                      Row ["S1"; "Math"; "85"]])]
      "grades.csv" [("S9", [demo_grade "10"])] "studentId" []
    = Done (loaded, out')
    /\ forall k, records_of k loaded
                 = map (dictreader_row ["studentId"; "courseName"; "score"])
                     (filter (keyed "studentId" ["studentId"; "courseName"; "score"] k)
                        (data_rows [Row ["S1"; "Math"; "85"]; Row [];
                                    Row ["S2"; "Art"; "70"];
                                    Row ["S1"; "Math"; "85"]])).
Proof.
  eapply loader_groups_lines_by_key; try reflexivity. discriminate.
Defined.

Lemma last_of_snoc {A : Type} (l : list A) (x : A) : last_of (l ++ [x]) = Some x.
Proof. unfold last_of. now rewrite rev_unit. Qed.

Lemma load_rows_single_last (filepath key_field : string) (h : list string)
    (ls : list line) (st : loader_state false) :
  readable ls = true ->
  exists st', load_rows false filepath key_field h ls st = Done st'
    /\ forall k, get k (fst st')
                 = match last_of (filter (keyed key_field h k) (data_rows ls)) with
                   | Some cs => Some (dictreader_row h cs)
                   | None => get k (fst st)
                   end.
Proof.
  induction ls as [|l ls IH] using rev_ind; intros Hr.
  - exists st. split; [reflexivity|]. intros k. reflexivity.
  - apply readable_app in Hr. destruct Hr as [Hr Hl].
    destruct (IH Hr) as (st' & Hst' & Hrec).
    rewrite load_rows_app, Hst'.
    destruct l as [cs|]; [|discriminate].
    destruct cs as [|c cs].
    + exists st'. split; [reflexivity|]. intros k.
      rewrite data_rows_app. simpl. rewrite app_nil_r. apply Hrec.
    + simpl.
      destruct (rget key_field (dictreader_row h (c :: cs))) as [|s|z] eqn:E.
      * rewrite orb_true_r. eexists. split; [reflexivity|]. intros k.
        rewrite data_rows_app, filter_app. simpl. unfold keyed at 2. rewrite E.
        simpl. rewrite app_nil_r. apply Hrec.
      * rewrite (rget_present _ _ _ E). simpl. eexists. split; [reflexivity|].
        intros k. rewrite data_rows_app, filter_app. simpl. unfold keyed at 2.
        rewrite E. simpl. rewrite get_setitem.
        destruct (String.eqb s k) eqn:Es.
        -- apply String.eqb_eq in Es. subst s. rewrite String.eqb_refl.
           now rewrite last_of_snoc.
        -- rewrite app_nil_r.
           destruct (String.eqb k s) eqn:Es'; [|apply Hrec].
           apply String.eqb_eq in Es'. subst. now rewrite String.eqb_refl in Es.
      * exfalso. pose proof (dictreader_no_number h (c :: cs) key_field) as Hn.
        rewrite E in Hn. discriminate.
Qed.

(** X3. In single-record mode (students, courses) a file whose header has
    the key field and whose lines can all be read replaces the mapping:
    a key is present exactly when some line carries it in the key column,
    and it holds the last such line; when two lines share a key the
    earlier one is lost. *)
Theorem loader_keeps_last_line_per_key :
  forall (fsys : filesystem) (filepath key_field : string)
         (data_dict : dict row) (out : list message) (f : file)
         (h : list string) (rest : list line),
    get filepath fsys = Some f -> locked f = false ->
    lines f = Row h :: rest -> h <> [] ->
    str_in key_field h = true -> readable rest = true ->
    exists (loaded : dict row) (out' : list message),
      load_data_from_csv false fsys filepath data_dict key_field out
      = Done (loaded, out')
      /\ forall k, get k loaded
                   = option_map (dictreader_row h)
                       (last_of (filter (keyed key_field h k) (data_rows rest))).
Proof.
  intros fsys filepath key_field data_dict out f h rest Hget Hl Hlines Hne Hk Hr.
  unfold load_data_from_csv, load_body, try_except.
  rewrite Hget, Hl, Hlines. destruct h as [|a h']; [congruence|].
  rewrite Hk. cbn [negb].
  destruct (load_rows_single_last filepath key_field (a :: h') rest ([], out) Hr)
    as (st' & Hst' & Hrec).
  rewrite Hst'. eexists. eexists. split; [reflexivity|].
  intros k. cbn [fst]. rewrite Hrec.
  destruct (last_of _); reflexivity.
Qed.

Lemma loader_keeps_last_line_per_key_witness :
  exists (loaded : dict row) (out' : list message),
    load_data_from_csv false
      [("students.csv",
        mkFile false [Row ["studentId"; "firstName"];
                      Row ["S1"; "Ann"]; Row ["S2"; "Bo"]; Row ["S1"; "Anna"]])]
      "students.csv" [("S9", demo_profile "S9" "Old" "Entry")] "studentId" []
    = Done (loaded, out')
    /\ forall k, get k loaded
                 = option_map (dictreader_row ["studentId"; "firstName"])
                     (last_of (filter (keyed "studentId" ["studentId"; "firstName"] k)
                                 (data_rows [Row ["S1"; "Ann"]; Row ["S2"; "Bo"];
                                             Row ["S1"; "Anna"]]))).
Proof.
  eapply loader_keeps_last_line_per_key; try reflexivity. discriminate.
Defined.

(* ================================================================= *)
(** ** Student creation *)








(** ** Logging in *)

Lemma credentials_match_sound (users : dict (dict value)) (f : form) :
  match credentials_match users (form_get "username" f) (form_get "password" f) with
  | inr (Some (u, entry)) =>
      matches users f u /\ get u users = Some entry
  | _ => True
  end.
Proof.
  unfold credentials_match, matches.
  destruct (form_get "username" f) as [|u|z] eqn:Hu; auto.
  destruct (get u users) as [entry|] eqn:He; auto.
  destruct (get "password" entry) as [p|] eqn:Hp; auto.
  destruct (value_eqb p (form_get "password" f)) eqn:E; auto.
  apply value_eqb_eq in E. subst p. split; auto. split; auto.
  exists entry. auto.
Qed.

(** X6. [login] opens a session only for credentials that match.  The
    session it leaves is empty, or it is a faculty session for a name of
    [faculty_users] whose password is the submitted one, or it is the
    student session of an id of [student_login_data] whose password is the
    submitted one. *)
Theorem login_needs_matching_password :
  forall (f : form) (st : store),
    lr_cookie (login f st) = []
    \/ (exists u, matches faculty_users f u
                  /\ dget "role" (lr_cookie (login f st)) = VStr "faculty"
                  /\ dget "user_id" (lr_cookie (login f st)) = VStr u)
    \/ (exists u, matches (student_login_data st) f u
                  /\ lr_cookie (login f st) = student_cookie u st
                  /\ lr_reply (login f st) = Redirect "student_dashboard").
Proof.
  intros f st. unfold login.
  pose proof (credentials_match_sound faculty_users f) as Hf.
  destruct (credentials_match faculty_users _ _) as [e | [[u entry]|]].
  - left. reflexivity.
  - right. left. exists u. split; [tauto|].
    unfold faculty_login. destruct (get "name" entry); split; reflexivity.
  - pose proof (credentials_match_sound (student_login_data st) f) as Hs.
    destruct (credentials_match (student_login_data st) _ _) as [e | [[u entry]|]].
    + left. reflexivity.
    + right. right. exists u. split; [tauto|]. split; reflexivity.
    + left. reflexivity.
Qed.

(** X7. The revised [login] keeps the roles apart: the session it leaves
    is empty, or the form asked for the faculty role and the credentials
    match [faculty_users], or the form asked for the student role (or for
    none) and the credentials match [student_login_data].  Faculty
    credentials sent with the student role open no faculty session. *)
Theorem revised_login_keeps_roles_apart :
  forall (f : form) (st : store),
    lr_cookie (Revised.login f st) = []
    \/ (form_get_def "role" "student" f = "faculty"
        /\ exists u, matches faculty_users f u
                     /\ dget "role" (lr_cookie (Revised.login f st)) = VStr "faculty"
                     /\ dget "user_id" (lr_cookie (Revised.login f st)) = VStr u)
    \/ (form_get_def "role" "student" f = "student"
        /\ exists u, matches (student_login_data st) f u
                     /\ lr_cookie (Revised.login f st) = student_cookie u st
                     /\ lr_reply (Revised.login f st) = Redirect "student_dashboard").
Proof.
  intros f st. unfold Revised.login.
  destruct (String.eqb (form_get_def "role" "student" f) "faculty") eqn:Ef.
  - apply String.eqb_eq in Ef.
    pose proof (credentials_match_sound faculty_users f) as Hf.
    destruct (credentials_match faculty_users _ _) as [e | [[u entry]|]].
    + left. reflexivity.
    + right. left. split; [exact Ef|]. exists u. split; [tauto|].
      unfold faculty_login. destruct (get "name" entry); split; reflexivity.
    + left. reflexivity.
  - destruct (String.eqb (form_get_def "role" "student" f) "student") eqn:Es.
    + apply String.eqb_eq in Es.
      pose proof (credentials_match_sound (student_login_data st) f) as Hs.
      destruct (credentials_match (student_login_data st) _ _)
        as [e | [[u entry]|]].
      * left. reflexivity.
      * right. right. split; [exact Es|]. exists u. split; [tauto|].
        split; reflexivity.
      * left. reflexivity.
    + left. reflexivity.
Qed.

(* ================================================================= *)
(** ** Rosters *)

Lemma ltb_trans (a b c : string) :
  String.ltb a b = true -> String.ltb b c = true -> String.ltb a c = true.
Proof.
  unfold String.ltb. intros Hab Hbc.
  destruct (String.compare a b) eqn:E1; try discriminate.
  destruct (String.compare b c) eqn:E2; try discriminate.
  apply OrderedTypeEx.String_as_OT.cmp_lt in E1, E2.
  pose proof (OrderedTypeEx.String_as_OT.lt_trans _ _ _ E1 E2) as H.
  apply OrderedTypeEx.String_as_OT.cmp_lt in H.
  unfold OrderedTypeEx.String_as_OT.cmp in H. now rewrite H.
Qed.

Lemma ltb_total (x y : string) :
  String.ltb x y = false -> x <> y -> String.ltb y x = true.
Proof.
  unfold String.ltb. intros H Hne. rewrite String.compare_antisym.
  destruct (String.compare x y) eqn:E; simpl; auto.
  apply String.compare_eq_iff in E. contradiction.
Qed.


Lemma insert_str_perm (x : string) (l : list string) :
  Permutation (insert_str x l) (x :: l).
Proof.
  induction l as [|y l IH]; simpl; auto.
  destruct (String.ltb x y); auto.
  rewrite IH. apply perm_swap.
Qed.

Lemma sorted_str_from_perm (l acc : list string) :
  Permutation (fold_left (fun acc x => insert_str x acc) l acc) (l ++ acc).
Proof.
  revert acc. induction l as [|x l IH]; intros acc; simpl; auto.
  rewrite IH, insert_str_perm. symmetry. apply Permutation_middle.
Qed.

Lemma sorted_str_perm (l : list string) : Permutation (sorted_str l) l.
Proof.
  unfold sorted_str. rewrite sorted_str_from_perm. now rewrite app_nil_r.
Qed.

Lemma insert_str_ascending (x : string) (l : list string) :
  ascending l = true -> ~ In x l -> ascending (insert_str x l) = true.
Proof.
  induction l as [|y l IH]; intros Hl Hx; [reflexivity|].
  cbn [insert_str]. destruct (String.ltb x y) eqn:E.
  - cbn [ascending]. now rewrite E.
  - assert (Hyx : String.ltb y x = true).
    { apply ltb_total; auto. intros ->. apply Hx. now left. }
    assert (Hl' : ascending l = true).
    { destruct l; auto. cbn [ascending] in Hl. apply andb_true_iff in Hl. tauto. }
    assert (Hx' : ~ In x l) by (intros H; apply Hx; now right).
    specialize (IH Hl' Hx').
    destruct l as [|z l]; cbn [insert_str] in *.
    + cbn. now rewrite Hyx.
    + cbn [ascending] in Hl. apply andb_true_iff in Hl. destruct Hl as [Hyz _].
      destruct (String.ltb x z).
      * cbn [ascending] in *. now rewrite Hyx, IH.
      * cbn [ascending] in *. now rewrite Hyz, IH.
Qed.

Lemma sorted_str_from_ascending (l acc : list string) :
  NoDup (l ++ acc) -> ascending acc = true ->
  ascending (fold_left (fun acc x => insert_str x acc) l acc) = true.
Proof.
  revert acc. induction l as [|x l IH]; intros acc Hnd Hacc; simpl; auto.
  simpl in Hnd. inversion Hnd as [|? ? Hx Hnd']; subst.
  apply IH.
  - apply (Permutation_NoDup (l := l ++ x :: acc)).
    + apply Permutation_app_head. symmetry. apply insert_str_perm.
    + apply NoDup_app_remove_l in Hnd' as Hacc'.
      apply (Permutation_NoDup (l := x :: l ++ acc)); [apply Permutation_middle|].
      now constructor.
  - apply insert_str_ascending; auto.
    intros H. apply Hx. apply in_or_app. now right.
Qed.

Lemma sorted_str_ascending (l : list string) :
  NoDup l -> ascending (sorted_str l) = true.
Proof.
  intros H. unfold sorted_str. apply sorted_str_from_ascending; auto.
  now rewrite app_nil_r.
Qed.

Lemma ascending_tail (x : string) (l : list string) :
  ascending (x :: l) = true -> ascending l = true.
Proof.
  destruct l; auto. cbn [ascending]. intros H. apply andb_true_iff in H. tauto.
Qed.

Lemma ascending_head (x : string) (l : list string) :
  ascending (x :: l) = true -> forall z, In z l -> String.ltb x z = true.
Proof.
  revert x. induction l as [|y l IH]; intros x H z Hz; [destruct Hz|].
  cbn [ascending] in H. apply andb_true_iff in H. destruct H as [Hxy Hl].
  destruct Hz as [-> | Hz]; auto.
  apply (ltb_trans x y z); auto.
Qed.

Lemma ascending_cons (x : string) (l : list string) :
  (forall z, In z l -> String.ltb x z = true) -> ascending l = true ->
  ascending (x :: l) = true.
Proof.
  intros H Hl. destruct l as [|y l]; auto.
  cbn [ascending]. rewrite H by now left. exact Hl.
Qed.

Lemma ascending_filter (p : string -> bool) (l : list string) :
  ascending l = true -> ascending (filter p l) = true.
Proof.
  induction l as [|x l IH]; intros H; auto.
  pose proof (ascending_tail _ _ H) as Hl.
  cbn [filter]. destruct (p x); auto.
  apply ascending_cons; auto.
  intros z Hz. apply filter_In in Hz. apply (ascending_head x l); tauto.
Qed.

Lemma add_student_ids_inner (name : value) (sid : string) (recs : list row)
    (acc : list string) (x : string) :
  In x (fold_left (fun acc (r : row) =>
                     if value_eqb (rget "courseName" r) name
                     then set_add sid acc else acc) recs acc)
  <-> In x acc \/ (x = sid /\ exists r, In r recs /\ rget "courseName" r = name).
Proof.
  revert acc. induction recs as [|r recs IH]; intros acc; simpl.
  - split; [auto | intros [H | (_ & r & [] & _)]; auto].
  - rewrite IH. destruct (value_eqb (rget "courseName" r) name) eqn:E.
    + apply value_eqb_eq in E. rewrite set_add_In. split.
      * intros [[-> | H] | (-> & r' & Hr' & E')]; eauto 7.
      * intros [H | (-> & r' & [<- | Hr'] & E')]; eauto 7.
    + split.
      * intros [H | (-> & r' & Hr' & E')]; eauto 7.
      * intros [H | (-> & r' & [<- | Hr'] & E')]; eauto 7.
        rewrite <- E' in E. now rewrite value_eqb_refl in E.
Qed.

Lemma add_student_ids_In (name : value) (data : dict (list row))
    (ids : list string) (x : string) :
  In x (add_student_ids name data ids)
  <-> In x ids
      \/ exists recs r, In (x, recs) data /\ In r recs /\ rget "courseName" r = name.
Proof.
  unfold add_student_ids. revert ids.
  induction data as [|[sid recs] data IH]; intros ids; simpl.
  - split; [auto | intros [H | (? & ? & [] & _)]; auto].
  - rewrite IH, add_student_ids_inner. split.
    + intros [[H | (-> & r & Hr & E)] | (recs' & r & Hin & Hr & E)]; eauto 9.
    + intros [H | (recs' & r & [Heq | Hin] & Hr & E)]; eauto 9.
      injection Heq as <- <-. eauto 9.
Qed.

Lemma add_student_ids_NoDup (name : value) (data : dict (list row))
    (ids : list string) :
  NoDup ids -> NoDup (add_student_ids name data ids).
Proof.
  unfold add_student_ids. revert ids.
  induction data as [|[sid recs] data IH]; intros ids H; simpl; auto.
  apply IH. clear IH. revert ids H.
  induction recs as [|r recs IH]; intros ids H; simpl; auto.
  apply IH. destruct (value_eqb _ _); auto. now apply set_add_NoDup.
Qed.

Lemma students_of_course_In (name : value) (st : store) (sid : string) :
  In sid (students_of_course name st) <-> has_record_in name sid st.
Proof.
  unfold students_of_course, has_record_in.
  rewrite !add_student_ids_In. split.
  - intros [[[] | (recs & r & H)] | (recs & r & H)]; exists recs, r; tauto.
  - intros (recs & r & [H | H] & Hr); [left; right | right]; eauto.
Qed.

Lemma students_of_course_NoDup (name : value) (st : store) :
  NoDup (students_of_course name st).
Proof.
  unfold students_of_course. apply add_student_ids_NoDup, add_student_ids_NoDup.
  constructor.
Qed.

Lemma roster_of_ids (missing : string) (ids : list string) (st : store) :
  map rl_id (roster_of missing ids st) = filter (fun sid => has_profile sid st) ids.
Proof.
  unfold roster_of, has_profile.
  induction ids as [|sid ids IH]; [reflexivity|].
  cbn [flat_map filter]. rewrite map_app, IH.
  destruct (get sid (student_profile_data st)) as [p|] eqn:E.
  - destruct (row_falsy (Some p)); reflexivity.
  - reflexivity.
Qed.

Lemma roster_of_names (missing : string) (ids : list string) (st : store)
    (l : roster_line) :
  In l (roster_of missing ids st) ->
  exists p, get (rl_id l) (student_profile_data st) = Some p
            /\ rl_name l = roster_name missing p.
Proof.
  unfold roster_of. rewrite in_flat_map. intros (sid & _ & H).
  destruct (get sid (student_profile_data st)) as [p|] eqn:E.
  - destruct (row_falsy (Some p)); [destruct H|].
    destruct H as [<- | []]. exists p. split; auto.
  - destruct H.
Qed.

(** X8. What the roster API answers to a faculty member: one line for
    each student who has a grade or an attendance record of the course
    and a non-empty profile, and no other line; the lines come in
    ascending order of the ids, each id once, each with the name of the
    student's profile. *)
Theorem roster_lists_the_students_of_the_course :
  forall (sess : session) (course_name : string) (st : store),
    check_faculty_auth sess = true ->
    exists lines : list roster_line,
      get_roster_api sess course_name st = Some lines
      /\ (forall sid,
             In sid (map rl_id lines)
             <-> has_record_in (VStr (replace "+" " " course_name)) sid st
                 /\ has_profile sid st = true)
      /\ ascending (map rl_id lines) = true
      /\ NoDup (map rl_id lines)
      /\ (forall l, In l lines ->
            exists p, get (rl_id l) (student_profile_data st) = Some p
                      /\ rl_name l = roster_name "N/A" p).
Proof.
  intros sess course_name st Hauth. unfold get_roster_api. rewrite Hauth.
  cbn [negb]. eexists. split; [reflexivity|].
  rewrite roster_of_ids.
  pose proof (students_of_course_NoDup (VStr (replace "+" " " course_name)) st)
    as Hnd.
  split; [|split; [|split]].
  - intros sid. rewrite filter_In. split.
    + intros [H Hp]. split; auto.
      apply (Permutation_in _ (sorted_str_perm _)) in H.
      now apply students_of_course_In.
    + intros [H Hp]. split; auto.
      apply (Permutation_in _ (Permutation_sym (sorted_str_perm _))).
      now apply students_of_course_In.
  - apply ascending_filter, sorted_str_ascending, Hnd.
  - apply NoDup_filter.
    apply (Permutation_NoDup (Permutation_sym (sorted_str_perm _))), Hnd.
  - apply roster_of_names.
Qed.

Lemma roster_lists_the_students_of_the_course_witness :
  exists lines : list roster_line,
    get_roster_api demo_faculty "Math" demo_store_roster = Some lines
    /\ (forall sid,
           In sid (map rl_id lines)
           <-> has_record_in (VStr (replace "+" " " "Math")) sid demo_store_roster
               /\ has_profile sid demo_store_roster = true)
    /\ ascending (map rl_id lines) = true
    /\ NoDup (map rl_id lines)
    /\ (forall l, In l lines ->
          exists p, get (rl_id l) (student_profile_data demo_store_roster) = Some p
                    /\ rl_name l = roster_name "N/A" p).
Proof.
  apply (roster_lists_the_students_of_the_course demo_faculty "Math"
           demo_store_roster).
  reflexivity.
Defined.

Lemma fold_set_add_In (l acc : list string) (x : string) :
  In x (fold_left (fun acc k => set_add k acc) l acc) <-> In x acc \/ In x l.
Proof.
  revert acc. induction l as [|k l IH]; intros acc; simpl; [tauto|].
  rewrite IH, set_add_In. intuition congruence.
Qed.

Lemma fold_set_add_NoDup (l acc : list string) :
  NoDup acc -> NoDup (fold_left (fun acc k => set_add k acc) l acc).
Proof.
  revert acc. induction l as [|k l IH]; intros acc H; simpl; auto.
  apply IH. now apply set_add_NoDup.
Qed.

Lemma has_profile_key (sid : string) (st : store) :
  has_profile sid st = true -> In sid (keys (student_profile_data st)).
Proof.
  unfold has_profile. intros H.
  destruct (get sid (student_profile_data st)) as [p|] eqn:E; [|discriminate].
  destruct (in_dec string_dec sid (keys (student_profile_data st))) as [Hin | Hn];
    auto.
  apply get_None_not_in in Hn. congruence.
Qed.

Lemma roster_display_ids (ids : list string) (st : store) :
  map (fun x : roster_line * value => rl_id (fst x))
    (flat_map
       (fun sid =>
          let profile := get sid (student_profile_data st) in
          if row_falsy profile then []
          else match profile with
               | Some p =>
                   [(mkRosterLine sid
                       (fmt_value (rget_def "firstName" (VStr "?") p) ++ " "
                        ++ fmt_value (rget_def "lastName" (VStr "?") p)),
                     rget_def "email" (VStr "?") p)]
               | None => []
               end) ids)
  = filter (fun sid => has_profile sid st) ids.
Proof.
  unfold has_profile.
  induction ids as [|sid ids IH]; [reflexivity|].
  cbn [flat_map filter]. rewrite map_app, IH.
  destruct (get sid (student_profile_data st)) as [p|] eqn:E.
  - destruct (row_falsy (Some p)); reflexivity.
  - reflexivity.
Qed.

(** X9. The roster page splits the students in two.  For a faculty
    member, the roster holds exactly the students with a non-empty profile
    who have a grade or an attendance record of the course, the list of
    students that can be enrolled exactly those with a non-empty profile
    who have none; both lists are in ascending order of the ids. *)
Theorem course_roster_splits_the_students :
  forall (sess : session) (course_name : string) (st : store),
    check_faculty_auth sess = true ->
    exists page : roster_page,
      course_roster sess course_name st = Render "course_roster.html" page
      /\ (forall sid,
             In sid (map (fun x => rl_id (fst x)) (rp_roster page))
             <-> has_profile sid st = true
                 /\ has_record_in (VStr (replace "+" " " course_name)) sid st)
      /\ (forall sid,
             In sid (map rl_id (rp_available_students page))
             <-> has_profile sid st = true
                 /\ ~ has_record_in (VStr (replace "+" " " course_name)) sid st)
      /\ ascending (map (fun x => rl_id (fst x)) (rp_roster page)) = true
      /\ ascending (map rl_id (rp_available_students page)) = true.
Proof.
  intros sess course_name st Hauth. unfold course_roster. rewrite Hauth.
  cbn [negb]. eexists. split; [reflexivity|].
  cbn [rp_roster rp_available_students].
  rewrite roster_display_ids, roster_of_ids.
  pose proof (students_of_course_NoDup (VStr (replace "+" " " course_name)) st)
    as Hnd.
  split; [|split; [|split]].
  - intros sid. rewrite filter_In. split.
    + intros [H Hp]. split; auto.
      apply (Permutation_in _ (sorted_str_perm _)) in H.
      now apply students_of_course_In.
    + intros [Hp H]. split; auto.
      apply (Permutation_in _ (Permutation_sym (sorted_str_perm _))).
      now apply students_of_course_In.
  - intros sid. rewrite filter_In. split.
    + intros [H Hp]. split; auto.
      apply (Permutation_in _ (sorted_str_perm _)) in H.
      apply filter_In in H. destruct H as [_ H].
      intros Hrec. apply students_of_course_In, str_in_In in Hrec.
      rewrite Hrec in H. discriminate.
    + intros [Hp H]. split; auto.
      apply (Permutation_in _ (Permutation_sym (sorted_str_perm _))).
      apply filter_In. split.
      * apply fold_set_add_In. right. now apply has_profile_key.
      * destruct (str_in sid _) eqn:E; auto.
        apply str_in_In, students_of_course_In in E. contradiction.
  - apply ascending_filter, sorted_str_ascending, Hnd.
  - apply ascending_filter, sorted_str_ascending, NoDup_filter,
      fold_set_add_NoDup. constructor.
Qed.

Lemma course_roster_splits_the_students_witness :
  exists page : roster_page,
    course_roster demo_faculty "Math" demo_store_roster
    = Render "course_roster.html" page
    /\ (forall sid,
           In sid (map (fun x => rl_id (fst x)) (rp_roster page))
           <-> has_profile sid demo_store_roster = true
               /\ has_record_in (VStr (replace "+" " " "Math")) sid
                    demo_store_roster)
    /\ (forall sid,
           In sid (map rl_id (rp_available_students page))
           <-> has_profile sid demo_store_roster = true
               /\ ~ has_record_in (VStr (replace "+" " " "Math")) sid
                      demo_store_roster)
    /\ ascending (map (fun x => rl_id (fst x)) (rp_roster page)) = true
    /\ ascending (map rl_id (rp_available_students page)) = true.
Proof.
  apply (course_roster_splits_the_students demo_faculty "Math" demo_store_roster).
  reflexivity.
Defined.

(* ================================================================= *)
(** ** Enrollment *)

Lemma same_data_flash (msg category : string) (st : store) :
  same_data st (flash msg category st).
Proof. unfold same_data. simpl. tauto. Qed.

Lemma same_data_refl (st : store) : same_data st st.
Proof. unfold same_data. tauto. Qed.

Lemma enroll_student_cases (sess : session) (today_date : string)
    (referrer : option string) (f : form) (st : store) :
  (enrollable sess f st = false
   /\ same_data st (fst (enroll_student sess today_date referrer f st)))
  \/ (enrollable sess f st = true
      /\ enrolled sess today_date f st
           (fst (enroll_student sess today_date referrer f st))).
Proof.
  unfold enroll_student, enrollable.
  destruct (check_faculty_auth sess); cbn [negb andb fst];
    [|left; split; [reflexivity | apply same_data_refl]].
  unfold catch_all, enroll_student_body.
  destruct (get "course_name" f) as [c|] eqn:Hc;
    [|left; split; [reflexivity | apply same_data_flash]].
  destruct (get "student_id_to_add" f) as [s|] eqn:Hs;
    [|left; split; [reflexivity | apply same_data_flash]].
  destruct (String.eqb c ""); cbn [negb andb orb fst];
    [left; split; [reflexivity | apply same_data_flash]|].
  destruct (String.eqb s ""); cbn [negb andb orb fst];
    [left; split; [reflexivity | apply same_data_flash]|].
  destruct (is_faculty_authorized_for_course _ _ _); cbn [negb andb orb fst];
    [|left; split; [reflexivity | apply same_data_flash]].
  destruct (contains s (student_profile_data st)); cbn [negb andb orb fst];
    [|left; split; [reflexivity | apply same_data_flash]].
  fold (records_of s (student_grades_data st)).
  fold (records_of s (student_attendance_data st)).
  destruct (has_course (VStr c) (records_of s (student_grades_data st)));
    cbn [negb andb orb fst];
    [left; split; [reflexivity | apply same_data_flash]|].
  destruct (has_course (VStr c) (records_of s (student_attendance_data st)));
    cbn [negb andb orb fst];
    [left; split; [reflexivity | apply same_data_flash]|].
  unfold append_file, writable, size_is_zero.
  destruct (get ATTENDANCE_CSV (files st)) as [fl|] eqn:Hfile.
  - destruct (locked fl); cbn [negb fst];
      [left; split; [reflexivity | apply same_data_flash]|].
    right. split; [reflexivity|]. exists c, s.
    split; [exact Hc|]. split; [exact Hs|].
    split; [reflexivity|]. split.
    { unfold lines_at. cbn. rewrite get_setitem_eq, Hfile. cbn.
      destruct (lines fl); reflexivity. }
    split; [|repeat split].
    intros p Hp. cbn. apply get_setitem_neq. congruence.
  - cbn [fst]. right. split; [reflexivity|]. exists c, s.
    split; [exact Hc|]. split; [exact Hs|].
    split; [reflexivity|]. split.
    { unfold lines_at. cbn. rewrite get_setitem_eq, Hfile. reflexivity. }
    split; [|repeat split].
    intros p Hp. cbn. apply get_setitem_neq. congruence.
Qed.

Lemma enrollable_same_data (sess : session) (f : form) (st st' : store) :
  same_data st st' -> enrollable sess f st' = enrollable sess f st.
Proof.
  intros (_ & Hp & Hg & Ha & Hc & Hf). unfold enrollable.
  now rewrite Hp, Hg, Ha, Hc, Hf.
Qed.

Lemma records_of_set (s : string) (l : list row) (d : dict (list row)) :
  records_of s (setitem s l d) = l.
Proof. unfold records_of. now rewrite get_setitem_eq. Qed.

Lemma has_course_enrollment (sess : session) (today_date c s : string)
    (l : list row) :
  has_course (VStr c) (l ++ [enrollment_record sess today_date c s]) = true.
Proof.
  unfold has_course. rewrite existsb_app. apply orb_true_iff. right.
  cbn. now rewrite String.eqb_refl.
Qed.

Lemma enrolled_not_enrollable (sess : session) (t : string) (f : form)
    (st st' : store) :
  enrolled sess t f st st' -> enrollable sess f st' = false.
Proof.
  intros (c & s & Hc & Hs & Ha & _). unfold enrollable.
  rewrite Hc, Hs, Ha, records_of_set, has_course_enrollment.
  cbn [negb]. now rewrite !andb_false_r.
Qed.

(** X10. [enroll_student] goes through or leaves the data alone.  When a
    faculty member who is authorized for the course names a known student
    without a record of the course and [attendance.csv] can be written,
    one placeholder attendance record (today, [Present]) is added to the
    student's log and one line to the file, nothing else changing; in
    every other case the data and the files are what they were. *)
Theorem enroll_student_all_or_nothing :
  forall (sess : session) (today_date : string) (referrer : option string)
         (f : form) (st : store),
    (enrollable sess f st = false
     /\ same_data st (fst (enroll_student sess today_date referrer f st)))
    \/ (enrollable sess f st = true
        /\ enrolled sess today_date f st
             (fst (enroll_student sess today_date referrer f st))).
Proof. exact enroll_student_cases. Qed.

(** X11. Enrolling twice is enrolling once: a second [enroll_student]
    with the same form, whatever the day and the page it is sent from,
    changes neither the stored data nor the files. *)
Theorem enroll_student_twice_changes_nothing :
  forall (sess : session) (day1 day2 : string) (ref1 ref2 : option string)
         (f : form) (st : store),
    same_data (fst (enroll_student sess day1 ref1 f st))
      (fst (enroll_student sess day2 ref2 f
              (fst (enroll_student sess day1 ref1 f st)))).
Proof.
  intros sess day1 day2 ref1 ref2 f st.
  assert (Hno : enrollable sess f (fst (enroll_student sess day1 ref1 f st))
                = false).
  { destruct (enroll_student_cases sess day1 ref1 f st) as [[Hn Hs] | [_ He]].
    - now rewrite (enrollable_same_data sess f _ _ Hs).
    - now apply (enrolled_not_enrollable sess day1 f st). }
  destruct (enroll_student_cases sess day2 ref2 f
              (fst (enroll_student sess day1 ref1 f st)))
    as [[_ Hs] | [Hy _]]; [exact Hs | congruence].
Qed.

Lemma has_course_record (c : value) (s : string) (data : dict (list row)) :
  has_course c (records_of s data) = true ->
  exists recs r, In (s, recs) data /\ In r recs /\ rget "courseName" r = c.
Proof.
  unfold has_course, records_of. intros H.
  destruct (get s data) as [l|] eqn:E; [|discriminate].
  apply existsb_exists in H. destruct H as (r & Hr & Hv).
  apply value_eqb_eq in Hv. apply get_Some_In in E. eauto.
Qed.

Lemma roster_ids_In (missing : string) (name : value) (st : store) (sid : string) :
  In sid (map rl_id (roster_of missing (sorted_str (students_of_course name st)) st))
  <-> has_record_in name sid st /\ has_profile sid st = true.
Proof.
  rewrite roster_of_ids, filter_In. split.
  - intros [H Hp]. split; auto.
    apply (Permutation_in _ (sorted_str_perm _)) in H.
    now apply students_of_course_In.
  - intros [H Hp]. split; auto.
    apply (Permutation_in _ (Permutation_sym (sorted_str_perm _))).
    now apply students_of_course_In.
Qed.

(** X12. An enrolled student is on the roster.  After a faculty member
    who is authorized for the course has sent the enrollment of a student
    with a non-empty profile, and [attendance.csv] could be written, the
    roster API lists the student for that course, whether the student was
    already associated with it or not.  The course name is one without a
    plus sign, which the roster routes turn into a blank. *)
Theorem enrolled_student_is_on_the_roster :
  forall (sess : session) (today_date : string) (referrer : option string)
         (f : form) (st : store) (c s : string),
    check_faculty_auth sess = true ->
    get "course_name" f = Some c ->
    get "student_id_to_add" f = Some s ->
    c <> "" -> s <> "" ->
    is_faculty_authorized_for_course (course_data st)
      (session_value (user_id sess)) (VStr c) = true ->
    has_profile s st = true ->
    writable ATTENDANCE_CSV (files st) = true ->
    replace "+" " " c = c ->
    exists lines : list roster_line,
      get_roster_api sess c (fst (enroll_student sess today_date referrer f st))
      = Some lines
      /\ In s (map rl_id lines).
Proof.
  intros sess today_date referrer f st c s Hauth Hc Hs Hcne Hsne Hok Hp Hw Hplus.
  unfold get_roster_api. rewrite Hauth. cbn [negb]. eexists.
  split; [reflexivity|]. rewrite Hplus. apply roster_ids_In.
  assert (Hcont : contains s (student_profile_data st) = true).
  { unfold has_profile in Hp. unfold contains.
    destruct (get s (student_profile_data st)); [reflexivity | discriminate]. }
  destruct (enroll_student_cases sess today_date referrer f st)
    as [[Hn Hsame] | [_ He]].
  - destruct Hsame as (_ & Hp' & Hg' & Ha' & _).
    split; [|unfold has_profile; rewrite Hp'; exact Hp].
    unfold enrollable in Hn. rewrite Hauth, Hc, Hs, Hok, Hcont, Hw in Hn.
    apply String.eqb_neq in Hcne, Hsne. rewrite Hcne, Hsne in Hn.
    cbn [negb andb] in Hn. rewrite andb_true_r in Hn.
    unfold has_record_in. rewrite Hg', Ha'.
    apply andb_false_iff in Hn. destruct Hn as [Hn | Hn];
      apply negb_false_iff, has_course_record in Hn;
      destruct Hn as (recs & r & H1 & H2 & H3); exists recs, r; tauto.
  - destruct He as (c' & s' & Hc' & Hs' & Ha' & _ & _ & _ & Hp' & _).
    rewrite Hc in Hc'. rewrite Hs in Hs'. injection Hc' as <-. injection Hs' as <-.
    split; [|unfold has_profile; rewrite Hp'; exact Hp].
    unfold has_record_in. rewrite Ha'.
    exists (records_of s (student_attendance_data st)
            ++ [enrollment_record sess today_date c s]),
           (enrollment_record sess today_date c s).
    split; [right; apply get_Some_In, get_setitem_eq|].
    split; [apply in_or_app; right; now left | reflexivity].
Qed.

Lemma enrolled_student_is_on_the_roster_witness :
  exists lines : list roster_line,
    get_roster_api demo_faculty "Math"
      (fst (enroll_student demo_faculty "2024-02-01" None demo_enroll_form
              demo_store))
    = Some lines
    /\ In "S2" (map rl_id lines).
Proof.
  apply (enrolled_student_is_on_the_roster demo_faculty "2024-02-01" None
           demo_enroll_form demo_store "Math" "S2");
    try reflexivity; discriminate.
Defined.

(* ================================================================= *)
(** ** The faculty dashboard *)







(* ================================================================= *)
(** ** Percentages and counters *)

Lemma py_round_bounds (x : Q) (n : Z) :
  0 <= x -> x <= inject_Z n -> (0 <= py_round x <= n)%Z.
Proof.
  intros H0 Hn.
  assert (Hf0 : (0 <= Qfloor x)%Z).
  { change 0%Z with (Qfloor 0). now apply Qfloor_resp_le. }
  assert (Hfn : (Qfloor x <= n)%Z).
  { rewrite <- (Qfloor_Z n). now apply Qfloor_resp_le. }
  unfold py_round.
  assert (Hup : (1 # 2) <= x - inject_Z (Qfloor x) -> (Qfloor x + 1 <= n)%Z).
  { intros Hhalf. destruct (Z.eq_dec (Qfloor x) n) as [E | E]; [|lia].
    exfalso. rewrite E in Hhalf.
    assert (Hx : x - inject_Z n <= 0).
    { apply (Qplus_le_l _ _ (inject_Z n)). ring_simplify. exact Hn. }
    pose proof (Qle_trans _ _ _ Hhalf Hx) as Hc.
    revert Hc. unfold Qle. simpl. lia. }
  destruct (Qcompare (x - inject_Z (Qfloor x)) (1 # 2)) eqn:E.
  - apply Qeq_alt in E.
    destruct (Z.even (Qfloor x)); [lia|].
    assert ((Qfloor x + 1 <= n)%Z) by (apply Hup; rewrite E; apply Qle_refl).
    lia.
  - lia.
  - apply Qgt_alt in E.
    assert ((Qfloor x + 1 <= n)%Z) by (apply Hup; now apply Qlt_le_weak).
    lia.
Qed.

Lemma Q_of_nat_le (a b : nat) : (a <= b)%nat -> Q_of_nat a <= Q_of_nat b.
Proof.
  intros H. unfold Q_of_nat. rewrite <- Zle_Qle. lia.
Qed.

Lemma percent_of_bounds (a b : nat) :
  (a <= b)%nat -> 0 <= percent_of a b /\ percent_of a b <= inject_Z 100.
Proof.
  intros H. unfold percent_of. destruct b as [|b'].
  - split; [apply Qle_refl | unfold Qle; simpl; lia].
  - assert (Hpos : 0 < Q_of_nat (S b')).
    { unfold Q_of_nat. change 0 with (inject_Z 0). rewrite <- Zlt_Qlt. lia. }
    assert (Ha : 0 <= Q_of_nat a).
    { unfold Q_of_nat. change 0 with (inject_Z 0). rewrite <- Zle_Qle. lia. }
    split.
    + apply Qmult_le_0_compat; [|unfold Qle; simpl; lia].
      apply Qle_shift_div_l; [assumption | rewrite Qmult_0_l; assumption].
    + apply (Qle_trans _ (1 * 100)); [|unfold Qle; simpl; lia].
      apply Qmult_le_compat_r; [|unfold Qle; simpl; lia].
      apply Qle_shift_div_r; [assumption | rewrite Qmult_1_l].
      now apply Q_of_nat_le.
Qed.

Lemma percentage_bounds (a b : nat) :
  (a <= b)%nat -> (0 <= py_round (percent_of a b) <= 100)%Z.
Proof.
  intros H. destruct (percent_of_bounds a b H). now apply py_round_bounds.
Qed.

Lemma vget_vset_eq {V : Type} (k : value) (v : V) (d : vdict V) :
  vget k (vset k v d) = Some v.
Proof.
  induction d as [|[k' v'] d IH]; simpl.
  - now rewrite value_eqb_refl.
  - destruct (value_eqb k k') eqn:E; simpl; rewrite E; auto.
Qed.

Lemma vset_Forall {V : Type} (P : V -> Prop) (k : value) (v : V) (d : vdict V) :
  P v -> Forall (fun kv => P (snd kv)) d ->
  Forall (fun kv => P (snd kv)) (vset k v d).
Proof.
  intros Hv Hd. induction Hd as [|[k' v'] d Hx Hd IH]; simpl.
  - constructor; auto.
  - destruct (value_eqb k k'); constructor; auto.
Qed.

Lemma vget_Forall {V : Type} (P : V -> Prop) (k : value) (v : V) (d : vdict V) :
  Forall (fun kv => P (snd kv)) d -> vget k d = Some v -> P v.
Proof.
  intros Hd. induction Hd as [|[k' v'] d Hx Hd IH]; simpl; [discriminate|].
  destruct (value_eqb k k'); auto. intros E. injection E as <-. exact Hx.
Qed.

Lemma tally_at_sound (k : value) (d : vdict subject_tally) :
  Forall (fun kv => (tally_present (snd kv) <= tally_total (snd kv))%nat) d ->
  (tally_present (tally_at k d) <= tally_total (tally_at k d))%nat.
Proof.
  intros H. unfold tally_at. destruct (vget k d) as [t|] eqn:E.
  - exact (vget_Forall (fun t => (tally_present t <= tally_total t)%nat) k t d H E).
  - simpl. lia.
Qed.

Lemma vset_vset {V : Type} (k : value) (v1 v2 : V) (d : vdict V) :
  vset k v2 (vset k v1 d) = vset k v2 d.
Proof.
  induction d as [|[k' v'] d IH]; simpl.
  - now rewrite value_eqb_refl.
  - destruct (value_eqb k k') eqn:E; simpl; rewrite E; congruence.
Qed.

Lemma attendance_step_tallies (acc : attendance_acc) (record : row) :
  negb (truthy (rget "courseName" record)) || negb (truthy (rget "status" record))
  = false ->
  exists attended_too : bool,
    by_subject (attendance_step acc record)
    = vset (rget "courseName" record)
        (mkTally
           (if attended_too
            then S (tally_present (tally_at (rget "courseName" record)
                                     (by_subject acc)))
            else tally_present (tally_at (rget "courseName" record)
                                  (by_subject acc)))
           (S (tally_total (tally_at (rget "courseName" record)
                              (by_subject acc)))))
        (by_subject acc).
Proof.
  intros Hskip. unfold attendance_step. rewrite Hskip.
  set (subject := rget "courseName" record).
  set (d := by_subject acc).
  assert (Hby1 : vset subject
                   (bump_total
                      (tally_at subject
                         match vget subject d with
                         | Some _ => d
                         | None => vset subject (mkTally 0 0) d
                         end))
                   match vget subject d with
                   | Some _ => d
                   | None => vset subject (mkTally 0 0) d
                   end
                 = vset subject (bump_total (tally_at subject d)) d).
  { destruct (vget subject d) as [t|] eqn:E; [reflexivity|].
    rewrite vset_vset. unfold tally_at at 1. rewrite vget_vset_eq.
    unfold tally_at. now rewrite E. }
  rewrite Hby1.
  assert (Hat : tally_at subject (vset subject (bump_total (tally_at subject d)) d)
                = bump_total (tally_at subject d)).
  { unfold tally_at at 1. now rewrite vget_vset_eq. }
  destruct (value_eqb (rget "status" record) (VStr "Present")).
  - exists true. cbn [by_subject]. rewrite Hat, vset_vset. reflexivity.
  - destruct (value_eqb (rget "status" record) (VStr "Absent")).
    + exists false. reflexivity.
    + destruct (value_eqb (rget "status" record) (VStr "Late")).
      * exists true. cbn [by_subject]. rewrite Hat, vset_vset. reflexivity.
      * exists false. reflexivity.
Qed.

Lemma attendance_step_counters (acc : attendance_acc) (record : row) :
  (present_count (attendance_step acc record)
   + absent_count (attendance_step acc record)
   + late_count (attendance_step acc record)
   <= S (present_count acc + absent_count acc + late_count acc))%nat.
Proof.
  unfold attendance_step.
  destruct (negb _ || negb _); [lia|].
  repeat (destruct (value_eqb _ _); [cbn; lia|]). cbn. lia.
Qed.

Lemma attendance_fold_sound (log : list row) (acc : attendance_acc) :
  Forall (fun kv => tally_ok (snd kv)) (by_subject acc) ->
  Forall (fun kv => tally_ok (snd kv))
    (by_subject (fold_left attendance_step log acc))
  /\ (present_count (fold_left attendance_step log acc)
      + absent_count (fold_left attendance_step log acc)
      + late_count (fold_left attendance_step log acc)
      <= present_count acc + absent_count acc + late_count acc
         + List.length log)%nat.
Proof.
  revert acc. induction log as [|r log IH]; intros acc Hacc.
  - simpl. split; [assumption | lia].
  - cbn [fold_left List.length].
    assert (Hstep : Forall (fun kv => tally_ok (snd kv))
                      (by_subject (attendance_step acc r))).
    { destruct (negb (truthy (rget "courseName" r))
                || negb (truthy (rget "status" r))) eqn:Hskip.
      - unfold attendance_step. now rewrite Hskip.
      - destruct (attendance_step_tallies acc r Hskip) as [b ->].
        apply (vset_Forall tally_ok); [|assumption].
        assert (Ht : (tally_present (tally_at (rget "courseName" r) (by_subject acc))
                      <= tally_total (tally_at (rget "courseName" r)
                                        (by_subject acc)))%nat).
        { apply tally_at_sound.
          eapply Forall_impl; [|exact Hacc]. intros kv [H _]. exact H. }
        unfold tally_ok. destruct b; cbn; lia. }
    destruct (IH _ Hstep) as [H1 H2]. split; [assumption|].
    pose proof (attendance_step_counters acc r). lia.
Qed.

(** X14. The numbers of the student's attendance page are consistent.
    The records counted as present, absent and late are never more than
    the classes; the overall percentage and the percentage of every
    subject lie between 0 and 100; and every subject of the summary has at
    least one class and not more attended classes than classes. *)
Theorem attendance_page_is_consistent :
  forall (sess : session) (st : store) (page : attendance_page),
    attendance sess st = Render "attendance.html" page ->
    (ap_present_count page + ap_absent_count page + ap_late_count page
     <= ap_total_classes page)%nat
    /\ (0 <= ap_overall_perc page <= 100)%Z
    /\ Forall subject_line_sound (ap_subject_summary page).
Proof.
  intros sess st page. unfold attendance.
  destruct (check_student_auth sess); cbn [negb]; [|discriminate].
  destruct (user_id sess) as [student_id|]; [|discriminate].
  destruct (user_name sess); [|discriminate].
  intros H. injection H as <-.
  set (log := match get student_id (student_attendance_data st) with
              | Some l => l | None => [] end).
  unfold attendance_analytics.
  cbn [ap_present_count ap_absent_count ap_late_count ap_total_classes
       ap_overall_perc ap_subject_summary].
  destruct (attendance_fold_sound log (mkAttAcc 0 0 0 [])) as [Hs Hc];
    [constructor|].
  cbn [present_count absent_count late_count Nat.add] in Hc.
  split; [exact Hc|]. split.
  - apply percentage_bounds. lia.
  - apply Forall_map. eapply Forall_impl; [|exact Hs].
    intros [subject data] [Hle Hpos]. cbn [snd] in *.
    unfold subject_line_sound. cbn.
    repeat split; auto; apply percentage_bounds; auto.
Qed.

Lemma attendance_page_is_consistent_witness :
  (ap_present_count (attendance_analytics demo_log)
   + ap_absent_count (attendance_analytics demo_log)
   + ap_late_count (attendance_analytics demo_log)
   <= ap_total_classes (attendance_analytics demo_log))%nat
  /\ (0 <= ap_overall_perc (attendance_analytics demo_log) <= 100)%Z
  /\ Forall subject_line_sound (ap_subject_summary (attendance_analytics demo_log)).
Proof.
  apply (attendance_page_is_consistent demo_student
           (mkStore [] [] [] [("S1", demo_log)] [] [] [] [])
           (attendance_analytics demo_log)).
  reflexivity.
Defined.

Lemma count_attended_le (log : list row) :
  (count_attended log <= List.length log)%nat.
Proof. unfold count_attended. apply filter_length_le. Qed.

(** X15. Every attendance percentage shown to the faculty or on the
    revised student dashboard lies between 0 and 100: the one of a line
    of the student listing, the one of the per-student view, and the one
    of the revised dashboard, whose wording is ["N/A"] exactly when the
    student has no attendance record. *)
Theorem attendance_percentages_in_range :
  forall (py_float : string -> option Q) (st : store) (student_id : string)
         (profile : row) (grades_list attendance_log : list row),
    (0 <= st_attendance (manage_students_line py_float st student_id profile)
     <= 100)%Z
    /\ (0 <= sv_overall_attendance
               (view_student_analytics py_float grades_list attendance_log)
        <= 100)%Z
    /\ (0 <= Revised.dp_overall_attendance
               (Revised.dashboard_analytics py_float grades_list attendance_log)
        <= 100)%Z
    /\ (Revised.dp_attendance_description
          (Revised.dashboard_analytics py_float grades_list attendance_log)
        = "N/A" <-> attendance_log = []).
Proof.
  intros py_float st student_id profile grades_list attendance_log.
  split; [|split; [|split]].
  - unfold manage_students_line.
    destruct (fold_left _ _ _) as [total_score valid_grade_count].
    cbn [st_attendance]. apply percentage_bounds, count_attended_le.
  - unfold view_student_analytics.
    destruct (fold_left _ _ _) as [total_s count_g].
    cbn [sv_overall_attendance]. apply percentage_bounds, count_attended_le.
  - unfold Revised.dashboard_analytics. cbn [Revised.dp_overall_attendance].
    apply percentage_bounds, count_attended_le.
  - unfold Revised.dashboard_analytics. cbn [Revised.dp_attendance_description].
    unfold Revised.attendance_description.
    destruct attendance_log as [|r log].
    + cbn. split; reflexivity.
    + cbn [List.length].
      repeat (destruct (Z.leb _ _); [split; discriminate|]).
      split; discriminate.
Qed.

(* ================================================================= *)
(** ** The revised student dashboard *)



(* ================================================================= *)
(** ** Uploads *)

Lemma cleaned_after_pop (path : string) (fsys : filesystem) (st st' : store) :
  files st' = pop path fsys ->
  (forall p, p <> path -> get p fsys = get p (files st)) ->
  upload_cleaned path st st'.
Proof.
  intros Hf Hother. unfold upload_cleaned. rewrite Hf. split.
  - apply get_pop_eq.
  - intros p Hp. rewrite get_pop_neq by assumption. now apply Hother.
Qed.

Lemma cleaned_if_contains (path : string) (st st1 : store) :
  files st1 = files st ->
  upload_cleaned path st
    (if contains path (files st1)
     then set_files (pop path (files st1)) st1 else st1).
Proof.
  intros Hf. unfold contains.
  destruct (get path (files st1)) as [fl|] eqn:E.
  - apply (cleaned_after_pop path (files st1)); [reflexivity|].
    intros p _. now rewrite Hf.
  - split; [exact E|]. intros p _. now rewrite Hf.
Qed.

Lemma save_upload_files (secure_filename : string -> string) (path : string)
    (u : upload) (fsys fsys' : filesystem) :
  save_upload secure_filename path u fsys = inr fsys' ->
  fsys' = setitem path (mkFile false (content u)) fsys.
Proof.
  unfold save_upload, write_file.
  destruct (String.eqb _ ""); [discriminate|].
  destruct (get path fsys) as [fl|]; [destruct (locked fl)|];
    intros H; inversion H; reflexivity.
Qed.

(** X17. An upload leaves no file behind and touches no other file.
    After a faculty member has uploaded a file whose name ends in [.csv]
    to any of the three upload routes, nothing is stored at the path the
    upload was saved to, and every other file, the CSV files of the
    application among them, is what it was: uploaded data reaches the
    mappings in memory only. *)
Theorem uploads_leave_the_files_alone :
  forall (secure_filename : string -> string) (sess : session) (u : upload)
         (st : store),
    check_faculty_auth sess = true ->
    filename u <> "" ->
    endswith ".csv" (filename u) = true ->
    upload_cleaned (upload_path secure_filename u) st
      (fst (upload_student_data secure_filename sess (Some u) st))
    /\ upload_cleaned (upload_path secure_filename u) st
         (fst (upload_grades_data secure_filename sess (Some u) st))
    /\ upload_cleaned (upload_path secure_filename u) st
         (fst (upload_attendance_data secure_filename sess (Some u) st)).
Proof.
  intros secure_filename sess u st Hauth Hname Hcsv.
  apply String.eqb_neq in Hname. unfold upload_path.
  set (path := path_join UPLOAD_FOLDER (secure_filename (filename u))).
  split; [|split].
  - unfold upload_student_data. rewrite Hauth, Hname, Hcsv. cbn [negb].
    fold path. unfold upload_student_body.
    destruct (save_upload secure_filename path u (files st)) as [e | fsys] eqn:Hs.
    + cbn [fst]. apply cleaned_if_contains. reflexivity.
    + apply save_upload_files in Hs.
      destruct (load_data_from_csv_returns false (files (set_files fsys st)) path
                  "studentId" (student_profile_data (set_files fsys st))
                  (printed (set_files fsys st))) as [ld Hld].
      rewrite Hld. cbn [fst].
      apply (cleaned_after_pop path fsys); [reflexivity|].
      intros p Hp. rewrite Hs. now apply get_setitem_neq.
  - unfold upload_grades_data. rewrite Hauth, Hname, Hcsv. cbn [negb].
    fold path.
    destruct (save_upload secure_filename path u (files st)) as [e | fsys] eqn:Hs.
    + cbn [fst]. apply cleaned_if_contains. reflexivity.
    + apply save_upload_files in Hs. cbn [fst].
      apply (cleaned_after_pop path fsys); [reflexivity|].
      intros p Hp. rewrite Hs. now apply get_setitem_neq.
  - unfold upload_attendance_data. rewrite Hauth, Hname, Hcsv. cbn [negb].
    fold path.
    destruct (save_upload secure_filename path u (files st)) as [e | fsys] eqn:Hs.
    + cbn [fst]. apply cleaned_if_contains. reflexivity.
    + apply save_upload_files in Hs. cbn [fst].
      apply (cleaned_after_pop path fsys); [reflexivity|].
      intros p Hp. rewrite Hs. now apply get_setitem_neq.
Qed.

Lemma uploads_leave_the_files_alone_witness :
  upload_cleaned (upload_path plain_filename demo_upload) demo_store
    (fst (upload_student_data plain_filename demo_faculty (Some demo_upload)
            demo_store))
  /\ upload_cleaned (upload_path plain_filename demo_upload) demo_store
       (fst (upload_grades_data plain_filename demo_faculty (Some demo_upload)
               demo_store))
  /\ upload_cleaned (upload_path plain_filename demo_upload) demo_store
       (fst (upload_attendance_data plain_filename demo_faculty (Some demo_upload)
               demo_store)).
Proof.
  apply (uploads_leave_the_files_alone plain_filename demo_faculty demo_upload
           demo_store); [reflexivity | discriminate | reflexivity].
Defined.

Lemma load_without_key_column (is_list : bool) (fsys : filesystem)
    (path key_field : string) (data : dict (slot is_list)) (out : list message)
    (header : list string) (rest : list line) :
  get path fsys = Some (mkFile false (Row header :: rest)) ->
  str_in key_field header = false ->
  exists out',
    load_data_from_csv is_list fsys path data key_field out = Done (data, out').
Proof.
  intros Hget Hkey. unfold load_data_from_csv, load_body, try_except.
  rewrite Hget. cbn [locked lines].
  destruct header as [|h header']; [eauto|].
  rewrite Hkey. cbn [negb]. eauto.
Qed.

(** X18. An upload that could be saved is reported as successful even when
    nothing is loaded from it.  When the first line of the uploaded file
    has no [studentId] column, the grades, the attendance records and the
    profiles are what they were, and each of the three routes still
    flashes its success message. *)
Theorem rejected_upload_is_reported_as_success :
  forall (secure_filename : string -> string) (sess : session) (u : upload)
         (st : store) (header : list string) (rest : list line),
    check_faculty_auth sess = true ->
    filename u <> "" ->
    endswith ".csv" (filename u) = true ->
    secure_filename (filename u) <> "" ->
    writable (upload_path secure_filename u) (files st) = true ->
    content u = Row header :: rest ->
    str_in "studentId" header = false ->
    (student_grades_data (fst (upload_grades_data secure_filename sess (Some u) st))
     = student_grades_data st
     /\ flashed (fst (upload_grades_data secure_filename sess (Some u) st))
        = flashed st ++ [("Grades data uploaded successfully!", "success")])
    /\ (student_attendance_data
          (fst (upload_attendance_data secure_filename sess (Some u) st))
        = student_attendance_data st
        /\ flashed (fst (upload_attendance_data secure_filename sess (Some u) st))
           = flashed st ++ [("Attendance data uploaded successfully!", "success")])
    /\ (student_profile_data
          (fst (upload_student_data secure_filename sess (Some u) st))
        = student_profile_data st
        /\ flashed (fst (upload_student_data secure_filename sess (Some u) st))
           = flashed st ++ [("Student data uploaded successfully!", "success")]).
Proof.
  intros secure_filename sess u st header rest Hauth Hname Hcsv Hsec Hw Hc Hkey.
  apply String.eqb_neq in Hname, Hsec. unfold upload_path in Hw.
  set (path := path_join UPLOAD_FOLDER (secure_filename (filename u))) in *.
  assert (Hsave : save_upload secure_filename path u (files st)
                  = inr (setitem path (mkFile false (Row header :: rest))
                           (files st))).
  { unfold save_upload, write_file. rewrite Hsec, Hc.
    unfold writable in Hw. destruct (get path (files st)) as [fl|]; auto.
    destruct (locked fl); [discriminate | reflexivity]. }
  assert (Hget : get path (setitem path (mkFile false (Row header :: rest))
                             (files st))
                 = Some (mkFile false (Row header :: rest)))
    by apply get_setitem_eq.
  split; [|split].
  - unfold upload_grades_data. rewrite Hauth, Hname, Hcsv. cbn [negb].
    fold path. rewrite Hsave. cbn [files set_files student_grades_data printed].
    destruct (load_without_key_column true _ path "studentId"
                (student_grades_data st) (printed st) header rest Hget Hkey)
      as [out' ->].
    split; reflexivity.
  - unfold upload_attendance_data. rewrite Hauth, Hname, Hcsv. cbn [negb].
    fold path. rewrite Hsave.
    cbn [files set_files student_attendance_data printed].
    destruct (load_without_key_column true _ path "studentId"
                (student_attendance_data st) (printed st) header rest Hget Hkey)
      as [out' ->].
    split; reflexivity.
  - unfold upload_student_data, upload_student_body.
    rewrite Hauth, Hname, Hcsv. cbn [negb].
    fold path. rewrite Hsave.
    cbn [files set_files student_profile_data printed].
    destruct (load_without_key_column false _ path "studentId"
                (student_profile_data st) (printed st) header rest Hget Hkey)
      as [out' ->].
    split; reflexivity.
Qed.

Lemma rejected_upload_is_reported_as_success_witness :
  (student_grades_data
     (fst (upload_grades_data plain_filename demo_faculty (Some demo_upload)
             demo_store))
   = student_grades_data demo_store
   /\ flashed (fst (upload_grades_data plain_filename demo_faculty
                      (Some demo_upload) demo_store))
      = flashed demo_store ++ [("Grades data uploaded successfully!", "success")])
  /\ (student_attendance_data
        (fst (upload_attendance_data plain_filename demo_faculty (Some demo_upload)
                demo_store))
      = student_attendance_data demo_store
      /\ flashed (fst (upload_attendance_data plain_filename demo_faculty
                         (Some demo_upload) demo_store))
         = flashed demo_store
           ++ [("Attendance data uploaded successfully!", "success")])
  /\ (student_profile_data
        (fst (upload_student_data plain_filename demo_faculty (Some demo_upload)
                demo_store))
      = student_profile_data demo_store
      /\ flashed (fst (upload_student_data plain_filename demo_faculty
                         (Some demo_upload) demo_store))
         = flashed demo_store ++ [("Student data uploaded successfully!", "success")]).
Proof.
  apply (rejected_upload_is_reported_as_success plain_filename demo_faculty
           demo_upload demo_store ["id"; "score"] [Row ["S1"; "90"]]);
    try reflexivity; discriminate.
Defined.

(* ================================================================= *)
(** ** Course updates *)


(* ================================================================= *)
(** ** Passwords *)




(* ================================================================= *)
(** ** What a deletion leaves *)

Lemma delete_student_mappings (sess : session) (student_id : string) (st : store) :
  check_faculty_auth sess = true ->
  student_login_data (fst (delete_student sess student_id st))
  = pop student_id (student_login_data st)
  /\ student_profile_data (fst (delete_student sess student_id st))
     = pop student_id (student_profile_data st)
  /\ student_grades_data (fst (delete_student sess student_id st))
     = pop student_id (student_grades_data st)
  /\ student_attendance_data (fst (delete_student sess student_id st))
     = pop student_id (student_attendance_data st)
  /\ course_data (fst (delete_student sess student_id st)) = course_data st.
Proof.
  intros Hauth. unfold delete_student. rewrite Hauth. cbn [negb].
  match goal with
  | |- context [if ?c then _ else _] => destruct c
  end; cbn [fst].
  - match goal with
    | |- context [rewrite_students ?m ?s] =>
        destruct (rewrite_students_mappings m s) as (H1 & H2 & H3 & H4 & H5)
    end.
    rewrite H1, H2, H3, H4, H5. repeat split; reflexivity.
  - repeat split; reflexivity.
Qed.

(** X21. [delete_student] removes one student and no other.  After a
    faculty member has deleted a student, the revised [login] lets nobody
    in under that id as a student, whatever the password; the profile, the
    login entry, the grades and the attendance records of every other
    student are what they were, and so are the courses. *)
Theorem delete_student_removes_one_student :
  forall (sess : session) (student_id : string) (st : store),
    check_faculty_auth sess = true ->
    (forall password : string,
        lr_cookie (Revised.login (login_form student_id password)
                     (fst (delete_student sess student_id st)))
        = [])
    /\ (forall other : string,
           other <> student_id ->
           get other (student_profile_data (fst (delete_student sess student_id st)))
           = get other (student_profile_data st)
           /\ get other (student_login_data (fst (delete_student sess student_id st)))
              = get other (student_login_data st)
           /\ get other (student_grades_data (fst (delete_student sess student_id st)))
              = get other (student_grades_data st)
           /\ get other (student_attendance_data
                           (fst (delete_student sess student_id st)))
              = get other (student_attendance_data st))
    /\ course_data (fst (delete_student sess student_id st)) = course_data st.
Proof.
  intros sess student_id st Hauth.
  destruct (delete_student_mappings sess student_id st Hauth)
    as (Hl & Hp & Hg & Ha & Hc).
  split; [|split; [|exact Hc]].
  - intros password.
    unfold Revised.login, login_form, form_get_def, form_get, credentials_match.
    cbn [get String.eqb Ascii.eqb Bool.eqb]. rewrite Hl, get_pop_eq. reflexivity.
  - intros other Hother. rewrite Hl, Hp, Hg, Ha.
    repeat split; apply get_pop_neq; assumption.
Qed.

Lemma delete_student_removes_one_student_witness :
  (forall password : string,
      lr_cookie (Revised.login (login_form "S1" password)
                   (fst (delete_student demo_faculty "S1" demo_store)))
      = [])
  /\ (forall other : string,
         other <> "S1" ->
         get other (student_profile_data (fst (delete_student demo_faculty "S1"
                                                 demo_store)))
         = get other (student_profile_data demo_store)
         /\ get other (student_login_data (fst (delete_student demo_faculty "S1"
                                                  demo_store)))
            = get other (student_login_data demo_store)
         /\ get other (student_grades_data (fst (delete_student demo_faculty "S1"
                                                   demo_store)))
            = get other (student_grades_data demo_store)
         /\ get other (student_attendance_data
                         (fst (delete_student demo_faculty "S1" demo_store)))
            = get other (student_attendance_data demo_store))
  /\ course_data (fst (delete_student demo_faculty "S1" demo_store))
     = course_data demo_store.
Proof.
  apply (delete_student_removes_one_student demo_faculty "S1" demo_store).
  reflexivity.
Defined.

(* ================================================================= *)
(** ** The gradebook and the attendance log *)

Lemma value_lt_asym (a b : value) :
  value_lt a b = inr true -> value_lt b a = inr false.
Proof.
  destruct a as [|s|x], b as [|t|y]; cbn; try discriminate; intros H;
    injection H as H; f_equal.
  - unfold String.ltb in *. rewrite String.compare_antisym.
    destruct (String.compare s t); simpl; auto; discriminate.
  - apply Z.ltb_lt in H. apply Z.ltb_ge. lia.
Qed.

Lemma insert_desc_perm {A : Type} (key : A -> value) (x : A) (l r : list A) :
  insert_desc key x l = inr r -> Permutation r (x :: l).
Proof.
  revert r. induction l as [|y l IH]; intros r; cbn [insert_desc].
  - intros H. injection H as <-. reflexivity.
  - destruct (value_lt (key y) (key x)) as [e|[|]]; [discriminate| |].
    + intros H. injection H as <-. reflexivity.
    + destruct (insert_desc key x l) as [e|r']; [discriminate|].
      intros H. injection H as <-.
      rewrite (IH r' eq_refl). apply perm_swap.
Qed.

Lemma sorted_desc_from_perm {A : Type} (key : A -> value) (l acc r : list A) :
  sorted_desc_from key l acc = inr r -> Permutation r (l ++ acc).
Proof.
  revert acc r. induction l as [|x l IH]; intros acc r; cbn [sorted_desc_from].
  - intros H. injection H as <-. reflexivity.
  - destruct (insert_desc key x acc) as [e|acc'] eqn:E; [discriminate|].
    intros H. apply IH in H. rewrite H.
    apply insert_desc_perm in E. rewrite E. cbn.
    symmetry. apply Permutation_middle.
Qed.

Lemma descending_tail {A : Type} (key : A -> value) (x : A) (l : list A) :
  descending key (x :: l) -> descending key l.
Proof. destruct l; cbn; tauto. Qed.

Lemma insert_desc_descending {A : Type} (key : A -> value) (x : A)
    (l r : list A) :
  insert_desc key x l = inr r -> descending key l ->
  descending key r
  /\ (forall y, (forall z l', l = z :: l' -> value_lt (key y) (key z) = inr false) ->
                value_lt (key y) (key x) = inr false ->
                forall z r', r = z :: r' -> value_lt (key y) (key z) = inr false).
Proof.
  revert r. induction l as [|y l IH]; intros r; cbn [insert_desc].
  - intros H _. injection H as <-. split; [exact I|].
    intros y _ Hyx z r' E. injection E as <- _. exact Hyx.
  - destruct (value_lt (key y) (key x)) as [e|[|]] eqn:Hlt; [discriminate| |].
    + intros H Hl. injection H as <-. split.
      * cbn [descending]. split; [now apply value_lt_asym | exact Hl].
      * intros y0 _ Hyx z r' E. injection E as <- _. exact Hyx.
    + destruct (insert_desc key x l) as [e|r'] eqn:E; [discriminate|].
      intros H Hl. injection H as <-.
      destruct (IH r' eq_refl (descending_tail key y l Hl)) as [Hd Hhead].
      split.
      * destruct r' as [|z r'']; [exact I|].
        cbn [descending]. split; [|exact Hd].
        eapply (Hhead y); [|exact Hlt|reflexivity].
        intros z0 l' ->. cbn [descending] in Hl. tauto.
      * intros y0 Hy0 _ z r'' E'. injection E' as <- _.
        now apply (Hy0 y l).
Qed.

Lemma sorted_desc_from_descending {A : Type} (key : A -> value)
    (l acc r : list A) :
  sorted_desc_from key l acc = inr r -> descending key acc -> descending key r.
Proof.
  revert acc r. induction l as [|x l IH]; intros acc r; cbn [sorted_desc_from].
  - intros H. injection H as <-. auto.
  - destruct (insert_desc key x acc) as [e|acc'] eqn:E; [discriminate|].
    intros H Hacc. apply (IH acc' r H).
    now apply (insert_desc_descending key x acc acc' E).
Qed.

Lemma dated_sound (field : string) (records sorted_records : list row) :
  dated field records = inr sorted_records ->
  Permutation sorted_records (filter (fun r => truthy (rget field r)) records)
  /\ descending (rget field) sorted_records.
Proof.
  unfold dated, sorted_desc. intros H. split.
  - apply sorted_desc_from_perm in H. now rewrite app_nil_r in H.
  - apply (sorted_desc_from_descending _ _ _ _ H). exact I.
Qed.

(** X22. The gradebook and the attendance log of a student, as the
    faculty sees them, hold the dated records, latest first.  When either
    page is rendered, the store is unchanged, the profile shown is the
    student's, and the list shown is a rearrangement of the student's
    records that have a date ([dateGraded] for grades, [date] for
    attendance), none of them older than the one before it. *)
Theorem dated_records_latest_first :
  forall (sess : session) (student_id : string) (st : store),
    (forall (st' : store) (profile : row) (shown : list row),
        student_gradebook sess student_id st
        = (st', Render "student_gradebook.html" (profile, shown)) ->
        st' = st
        /\ get student_id (student_profile_data st) = Some profile
        /\ Permutation shown
             (filter (fun r => truthy (rget "dateGraded" r))
                (records_of student_id (student_grades_data st)))
        /\ descending (rget "dateGraded") shown)
    /\ (forall (st' : store) (profile : row) (shown : list row),
           student_attendance_log sess student_id st
           = (st', Render "student_attendance_log.html" (profile, shown)) ->
           st' = st
           /\ get student_id (student_profile_data st) = Some profile
           /\ Permutation shown
                (filter (fun r => truthy (rget "date" r))
                   (records_of student_id (student_attendance_data st)))
           /\ descending (rget "date") shown).
Proof.
  intros sess student_id st. split.
  - intros st' profile shown. unfold student_gradebook.
    destruct (check_faculty_auth sess); cbn [negb]; [|discriminate].
    destruct (get student_id (student_profile_data st)) as [p|]; [|discriminate].
    destruct (row_falsy (Some p)); [discriminate|].
    destruct (dated "dateGraded" _) as [e|l] eqn:E; [discriminate|].
    intros H. injection H as <- <- <-.
    destruct (dated_sound _ _ _ E). auto.
  - intros st' profile shown. unfold student_attendance_log.
    destruct (check_faculty_auth sess); cbn [negb]; [|discriminate].
    destruct (get student_id (student_profile_data st)) as [p|]; [|discriminate].
    destruct (row_falsy (Some p)); [discriminate|].
    destruct (dated "date" _) as [e|l] eqn:E; [discriminate|].
    intros H. injection H as <- <- <-.
    destruct (dated_sound _ _ _ E). auto.
Qed.

Lemma dated_records_latest_first_witness :
  exists shown : list row,
    student_gradebook demo_faculty "S1" (demo_store_grades demo_dated_grades)
    = (demo_store_grades demo_dated_grades,
       Render "student_gradebook.html" (demo_profile "S1" "Ann" "Lee", shown))
    /\ Permutation shown
         (filter (fun r => truthy (rget "dateGraded" r))
            (records_of "S1"
               (student_grades_data (demo_store_grades demo_dated_grades))))
    /\ descending (rget "dateGraded") shown.
Proof.
  eexists. split; [reflexivity|].
  apply (proj1 (dated_records_latest_first demo_faculty "S1"
                  (demo_store_grades demo_dated_grades))
           (demo_store_grades demo_dated_grades) (demo_profile "S1" "Ann" "Lee")).
  reflexivity.
Defined.

(* ================================================================= *)
(** ** From the file back to a session *)








(* ================================================================= *)
(** ** What a submission keeps *)

Lemma remember_attendance_extends (new_records : list row) (att : dict (list row))
    (sid : string) (l : list row) :
  get sid att = Some l ->
  exists added,
    get sid (state_of (remember_attendance new_records att)) = Some (l ++ added).
Proof.
  revert att l. induction new_records as [|record rest IH]; intros att l Hget.
  - exists []. cbn. now rewrite app_nil_r.
  - cbn [remember_attendance].
    set (s := str_of_value (rget "studentId" record)).
    set (att0 := if contains s att then att else setitem s [] att).
    assert (H0 : get sid att0 = Some l).
    { unfold att0, contains. destruct (get s att) eqn:E; auto.
      rewrite get_setitem_neq; auto. intros ->. congruence. }
    destruct (is_duplicate record _) as [e|[|]] eqn:Hdup.
    + exists []. cbn. now rewrite app_nil_r.
    + now apply IH.
    + destruct (String.eqb sid s) eqn:E.
      * apply String.eqb_eq in E. subst sid. rewrite H0.
        destruct (IH (setitem s (l ++ [record]) att0) (l ++ [record])
                    (get_setitem_eq _ _ _)) as [added Ha].
        exists ([record] ++ added). now rewrite app_assoc.
      * apply String.eqb_neq in E. apply IH.
        rewrite get_setitem_neq; auto.
Qed.

(** X24. [submit_attendance] never loses or alters what is stored.
    Whatever the session and the form, and whether the submission goes
    through, fails or is refused: the attendance list of every student
    starts with the records it held, [attendance.csv] starts with the
    lines it held, and the logins, the profiles, the grades and the
    courses are what they were. *)
Theorem submit_attendance_only_adds :
  forall (sess : session) (f : form) (st : store),
    (forall (student_id : string) (l : list row),
        get student_id (student_attendance_data st) = Some l ->
        exists added,
          get student_id (student_attendance_data (fst (submit_attendance sess f st)))
          = Some (l ++ added))
    /\ (exists added,
           lines_at ATTENDANCE_CSV (files (fst (submit_attendance sess f st)))
           = lines_at ATTENDANCE_CSV (files st) ++ added)
    /\ student_login_data (fst (submit_attendance sess f st)) = student_login_data st
    /\ student_profile_data (fst (submit_attendance sess f st))
       = student_profile_data st
    /\ student_grades_data (fst (submit_attendance sess f st)) = student_grades_data st
    /\ course_data (fst (submit_attendance sess f st)) = course_data st.
Proof.
  intros sess f st.
  assert (Hsame : forall st', same_data st st' ->
            (forall (student_id : string) (l : list row),
                get student_id (student_attendance_data st) = Some l ->
                exists added,
                  get student_id (student_attendance_data st') = Some (l ++ added))
            /\ (exists added,
                   lines_at ATTENDANCE_CSV (files st')
                   = lines_at ATTENDANCE_CSV (files st) ++ added)
            /\ student_login_data st' = student_login_data st
            /\ student_profile_data st' = student_profile_data st
            /\ student_grades_data st' = student_grades_data st
            /\ course_data st' = course_data st).
  { intros st' (Hl & Hp & Hg & Ha & Hc & Hf). rewrite Hl, Hp, Hg, Ha, Hc, Hf.
    split; [|split; [|auto]].
    - intros sid l H. exists []. now rewrite app_nil_r.
    - exists []. now rewrite app_nil_r. }
  unfold submit_attendance.
  destruct (check_faculty_auth sess); cbn [negb fst];
    [|apply Hsame, same_data_refl].
  unfold catch_all, submit_attendance_body.
  destruct (negb (truthy (form_get "course" f))
            || negb (truthy (form_get "date" f)));
    [apply Hsame, same_data_flash|].
  destruct (new_attendance_records f _ _ _) as [|r0 recs] eqn:Er;
    [apply Hsame, same_data_flash|].
  rewrite <- Er. clear Er.
  destruct (append_file "attendance.csv" _ (files st)) as [e|fsys] eqn:Ha;
    [apply Hsame, same_data_flash|].
  assert (Hfiles : exists added,
             lines_at ATTENDANCE_CSV fsys
             = lines_at ATTENDANCE_CSV (files st) ++ added).
  { unfold append_file in Ha. unfold lines_at.
    change ATTENDANCE_CSV with "attendance.csv".
    destruct (get "attendance.csv" (files st)) as [fl|].
    - destruct (locked fl); [discriminate|]. injection Ha as <-.
      rewrite get_setitem_eq. cbn [lines]. eauto.
    - injection Ha as <-. rewrite get_setitem_eq. cbn [lines app]. eauto. }
  cbn [student_attendance_data set_files].
  match goal with
  | |- context [remember_attendance ?n ?a] =>
      pose proof (fun sid l => remember_attendance_extends n a sid l) as Hext;
      destruct (remember_attendance n a) as [att|att e]
  end; cbn [state_of fst] in *; repeat split; auto.
Qed.

(* ================================================================= *)
(** ** The pass/fail chart *)














(* ================================================================= *)
(** ** The student's course list *)









(* ================================================================= *)
(** ** The highest and the lowest grade *)







(* ================================================================= *)
(** ** Student updates *)



(* ================================================================= *)
(** ** Enrollment and the restart *)



